(** * Instagram OSINT analyser: a shallow embedding of [arivaigosint.py]

    The development follows the layout of the Python class
    [AdvancedInstagramOSINT]: Python values and dictionaries, the
    exceptions the code catches, the regular expressions of the
    security and footprint analyses, the metrics, the paginated
    fetchers with their retry, the analysis branches and the top-level
    [comprehensive_analysis].  The older variant [a.py] is embedded in
    the module [A] where it differs.

    Numbers.  Python [int] is [Z].  Python [float] results are kept as
    exact rationals ([Q]): every float of the program is the result of a
    few divisions and products of integers, and the statements below are
    about the formulas and their bounds, not about rounding. *)

From Stdlib Require Import ZArith QArith Qminmax Qpower String Ascii DecimalString List Sorted
  Bool Lia Lqa.
Import ListNotations.

#[local] Set Warnings "-register-all".

Local Open Scope string_scope.
Local Open Scope Z_scope.

(* ================================================================== *)
(** ** Python values *)

(** Dictionary keys of the program are strings, except the hour
    histogram of the posting patterns, which is keyed by [int]. *)
Inductive key : Type :=
| KStr (s : string)
| KInt (n : Z).

Coercion KStr : string >-> key.

Definition key_eqb (a b : key) : bool :=
  match a, b with
  | KStr x, KStr y => String.eqb x y
  | KInt x, KInt y => Z.eqb x y
  | _, _ => false
  end.

(** The JSON-like values the analysis builds.  A dictionary keeps its
    insertion order, as Python's [dict] does. *)
Inductive value : Type :=
| VNone
| VBool (b : bool)
| VInt (n : Z)
| VFloat (q : Q)
| VStr (s : string)
| VList (l : list value)
| VDict (d : list (key * value)).

Definition dict := list (key * value).

Fixpoint assoc_get (k : key) (d : dict) : option value :=
  match d with
  | [] => None
  | (k', v) :: r => if key_eqb k k' then Some v else assoc_get k r
  end.

(** [d[k] = v]: an existing key keeps its place, a new one goes last. *)
Fixpoint assoc_set (k : key) (v : value) (d : dict) : dict :=
  match d with
  | [] => [(k, v)]
  | (k', v') :: r =>
      if key_eqb k k' then (k', v) :: r else (k', v') :: assoc_set k v r
  end.

(** Python truthiness ([bool(x)]). *)
Definition truthy (v : value) : bool :=
  match v with
  | VNone => false
  | VBool b => b
  | VInt n => negb (n =? 0)
  | VFloat q => negb (Qeq_bool q 0)
  | VStr s => negb (String.eqb s "")
  | VList l => match l with [] => false | _ => true end
  | VDict d => match d with [] => false | _ => true end
  end.

(** [x == "text"] against a string constant. *)
Definition is_str (v : value) (s : string) : bool :=
  match v with
  | VStr s' => String.eqb s' s
  | _ => false
  end.

(** The number a value stands for, if it is one. *)
Definition num (v : value) : option Q :=
  match v with
  | VInt n => Some (inject_Z n)
  | VFloat q => Some q
  | _ => None
  end.

(* ================================================================== *)
(** ** Exceptions and results *)

(** The exceptions of the libraries the program calls (instaloader and
    the network underneath), each with its message.  The program tells
    [TooManyRequestsException] from the rest. *)
Inductive lib_exn : Type :=
| TooManyRequestsException (msg : string)
| LibraryError (msg : string).

(** [str(e)], as the branches record it. *)
Definition exn_str (e : lib_exn) : string :=
  match e with
  | TooManyRequestsException msg => msg
  | LibraryError msg => msg
  end.

Definition is_throttle (e : lib_exn) : bool :=
  match e with
  | TooManyRequestsException _ => true
  | LibraryError _ => false
  end.

(** What can escape: an exception of a library, or one the interpreter
    raises on a value of the wrong shape or on a call nested deeper
    than its recursion limit. *)
Inductive exn : Type :=
| Library (e : lib_exn)
| KeyError (k : string)
| TypeError
| AttributeError
| UnboundLocalError
| RecursionError.

(** The result of running a piece of the program: a value, or an
    exception that escaped. *)
Inductive Res (A : Type) : Type :=
| Ret (a : A)
| Exc (e : exn).

Arguments Ret {A} a.
Arguments Exc {A} e.

Definition bind {A B} (m : Res A) (k : A -> Res B) : Res B :=
  match m with
  | Ret a => k a
  | Exc e => Exc e
  end.

Notation "x <- m ;; k" := (bind m (fun x => k))
  (at level 100, m at next level, right associativity).

(** [d[k]] *)
Definition getitem (v : value) (k : string) : Res value :=
  match v with
  | VDict d => match assoc_get k d with
               | Some x => Ret x
               | None => Exc (KeyError k)
               end
  | _ => Exc TypeError
  end.

(** [d.get(k, default)] *)
Definition dict_get (v : value) (k : string) (default : value) : Res value :=
  match v with
  | VDict d => match assoc_get k d with
               | Some x => Ret x
               | None => Ret default
               end
  | _ => Exc AttributeError
  end.

(** Reading a key of a value known to be a dictionary (used in
    statements). *)
Definition lookup (k : string) (v : value) : option value :=
  match v with
  | VDict d => assoc_get k d
  | _ => None
  end.

(** [d[k] = x] on a dictionary value. *)
Definition setitem (v : value) (k : string) (x : value) : value :=
  match v with
  | VDict d => VDict (assoc_set k x d)
  | _ => v
  end.

(* ================================================================== *)
(** ** Strings and characters

    A Python [str] is kept as its UTF-8 text in a [string]; a character
    is a lead byte with its continuation bytes, so [len] counts the
    bytes that are not continuation bytes. *)

Definition is_continuation (a : ascii) : bool :=
  let n := N_of_ascii a in ((128 <=? n) && (n <? 192))%N.

Definition uchar := list ascii.

(** The characters of a text, in order. *)
Fixpoint chars_aux (cur : uchar) (l : list ascii) : list uchar :=
  match l with
  | [] => match cur with [] => [] | _ => [cur] end
  | a :: r =>
      if is_continuation a then chars_aux (cur ++ [a])%list r
      else match cur with
           | [] => chars_aux [a] r
           | _ => cur :: chars_aux [a] r
           end
  end.

Definition chars (s : string) : list uchar := chars_aux [] (list_ascii_of_string s).

Definition text (l : list uchar) : string := string_of_list_ascii (concat l).

(** [len(s)] *)
Definition py_len (s : string) : Z := Z.of_nat (List.length (chars s)).

(** [x or "N/A"] on strings and optional strings. *)
Definition or_NA (s : string) : string := if String.eqb s "" then "N/A" else s.

Definition opt_or_NA (o : option string) : string :=
  match o with
  | Some s => or_NA s
  | None => "N/A"
  end.

(* ================================================================== *)
(** ** Regular expressions

    The two patterns of the program are sequences of character classes
    with a repetition range, and word boundaries.  Matching is Python's:
    leftmost, each repetition greedy, with backtracking. *)

Inductive atom : Type :=
| Boundary                                            (* \b *)
| Class (c : ascii -> bool) (lo : nat) (hi : option nat).   (* [...]{lo,hi} *)

Definition code (a : ascii) : N := N_of_ascii a.

Definition is_upper (a : ascii) : bool := ((65 <=? code a) && (code a <=? 90))%N.
Definition is_lower (a : ascii) : bool := ((97 <=? code a) && (code a <=? 122))%N.
Definition is_digit (a : ascii) : bool := ((48 <=? code a) && (code a <=? 57))%N.
Definition is_alnum (a : ascii) : bool := is_upper a || is_lower a || is_digit a.

Definition one_of (s : string) (a : ascii) : bool :=
  existsb (Ascii.eqb a) (list_ascii_of_string s).

(** A class of ASCII characters holds a character when it is a single
    byte of the class. *)
Definition in_class (c : ascii -> bool) (x : uchar) : bool :=
  match x with
  | [a] => c a
  | _ => false
  end.

Section Matching.

(** [\w] on a character outside ASCII is the interpreter's Unicode
    table (alphanumeric or not), which is not part of the program. *)
Variable unicode_word : uchar -> bool.

Definition is_word (x : uchar) : bool :=
  match x with
  | [a] => if (code a <? 128)%N then is_alnum a || Ascii.eqb a "_"
           else unicode_word x
  | _ => unicode_word x
  end.

Definition word_at (o : option uchar) : bool :=
  match o with
  | Some x => is_word x
  | None => false
  end.

Definition below (hi : option nat) (n : nat) : bool :=
  match hi with
  | Some h => Nat.ltb n h
  | None => true
  end.

(** One repetition, [n] characters taken so far: take one more when
    allowed, and fall back to stopping here. *)
Fixpoint rep (k : option uchar -> list uchar -> option (list uchar))
    (c : ascii -> bool) (lo : nat) (hi : option nat) (n : nat)
    (prev : option uchar) (s : list uchar) : option (list uchar) :=
  let stop := if Nat.leb lo n then k prev s else None in
  match s with
  | x :: t =>
      if in_class c x && below hi n then
        match rep k c lo hi (S n) (Some x) t with
        | Some m => Some (x :: m)
        | None => stop
        end
      else stop
  | [] => stop
  end.

(** The text matched by the pattern at the start of [s], [prev] being
    the character before it. *)
Fixpoint match_here (p : list atom) (prev : option uchar) (s : list uchar)
  : option (list uchar) :=
  match p with
  | [] => Some []
  | Boundary :: r =>
      if xorb (word_at prev) (word_at (hd_error s)) then match_here r prev s
      else None
  | Class c lo hi :: r => rep (match_here r) c lo hi 0 prev s
  end.

(** [re.search(p, s)] as a truth value. *)
Fixpoint search_from (p : list atom) (prev : option uchar) (s : list uchar) : bool :=
  match match_here p prev s with
  | Some _ => true
  | None => match s with
            | x :: t => search_from p (Some x) t
            | [] => false
            end
  end.

Definition re_search (p : list atom) (s : string) : bool :=
  search_from p None (chars s).

(** [re.findall(p, s)]: the matches from left to right, not
    overlapping; [skip] characters belong to the previous match. *)
Fixpoint findall_from (p : list atom) (skip : nat) (prev : option uchar)
    (s : list uchar) : list string :=
  match skip with
  | S k => match s with
           | x :: t => findall_from p k (Some x) t
           | [] => []
           end
  | O =>
      match match_here p prev s with
      | Some (y :: m) =>
          text (y :: m) ::
          match s with
          | x :: t => findall_from p (List.length m) (Some x) t
          | [] => []
          end
      | _ => match s with
             | x :: t => findall_from p 0 (Some x) t
             | [] => []
             end
      end
  end.

Definition re_findall (p : list atom) (s : string) : list string :=
  findall_from p 0 None (chars s).

End Matching.

(** r'\b[A-Za-z0-9._%+-]+@[A-Za-z0-9.-]+\.[A-Z|a-z]{2,}\b' *)
Definition email_pattern : list atom :=
  [ Boundary;
    Class (fun a => is_alnum a || one_of "._%+-" a) 1 None;
    Class (one_of "@") 1 (Some 1%nat);
    Class (fun a => is_alnum a || one_of ".-" a) 1 None;
    Class (one_of ".") 1 (Some 1%nat);
    Class (fun a => is_upper a || one_of "|" a || is_lower a) 2 None;
    Boundary ].

(** r'[\+]?[1-9]?[0-9]{7,14}' *)
Definition phone_pattern : list atom :=
  [ Class (one_of "+") 0 (Some 1%nat);
    Class (fun a => ((49 <=? code a) && (code a <=? 57))%N) 0 (Some 1%nat);
    Class is_digit 7 (Some 14%nat) ].

(* ================================================================== *)
(** ** The labels of the program

    The texts are the string literals of [arivaigosint.py], byte for
    byte. *)

Definition RISK_PUBLIC : string := "Profil herkese aÃ§Ä±k".
Definition RISK_EXTERNAL_LINK : string := "DÄ±ÅŸ baÄŸlantÄ± mevcut".
Definition RISK_DETAILED_BIO : string := "DetaylÄ± biyografi".
Definition RISK_EMAIL : string := "E-mail adresi ifÅŸa edilmiÅŸ".
Definition RISK_PHONE : string := "Telefon numarasÄ± ifÅŸa edilmiÅŸ".
Definition SUSP_HIGH_FOLLOWERS_LOW_CONTENT : string := "YÃ¼ksek takipÃ§i, dÃ¼ÅŸÃ¼k iÃ§erik (bot ÅŸÃ¼phesi)".
Definition SUSP_ABNORMAL_RATIO : string := "Anormal takipÃ§i/takip oranÄ±".
Definition SUSP_EXCESSIVE_FOLLOWING : string := "Ã‡ok fazla takip, az takipÃ§i (spam ÅŸÃ¼phesi)".
Definition SUSP_LOW_COMPLETION : string := "DÃ¼ÅŸÃ¼k profil tamamlama oranÄ± (bot ÅŸÃ¼phesi)".
Definition AUTO_REGULAR_HOURS : string := "Ã‡ok dÃ¼zenli paylaÅŸÄ±m saatleri".
Definition RECOMMENDATION_1 : string := "Profili gizli yap".
Definition RECOMMENDATION_2 : string := "Biyografiden kiÅŸisel bilgileri kaldÄ±r".
Definition RECOMMENDATION_3 : string := "Ä°ki faktÃ¶rlÃ¼ kimlik doÄŸrulamayÄ± aktif et".
Definition NO_SUSPICIOUS_PATTERNS : string := "no_suspicious_patterns".
Definition NO_AUTOMATION_INDICATORS : string := "no_automation_indicators".

(* ================================================================== *)
(** ** Profiles and posts

    The attributes the program reads of an [instaloader.Profile] and of
    an [instaloader.Post].  [date_utc] is in seconds since the epoch.
    [followers], [followees] and [mediacount] are Python [int]s; of an
    account they are counts, and so not negative. *)

Record Profile : Type := {
  username : string;
  userid : Z;
  full_name : string;
  biography : string;
  followers : Z;
  followees : Z;
  mediacount : Z;
  is_private : bool;
  is_verified : bool;
  is_business_account : bool;
  business_category_name : option string;
  external_url : option string;
  profile_pic_url : string
}.

Record Post : Type := {
  date_utc : Z;
  caption : option string;
  is_video : bool;
  post_mediacount : option Z;
  caption_hashtags : list string;
  tagged_users : list string;
  location : option string
}.

Definition str_truthy (s : string) : bool := negb (String.eqb s EmptyString).

Definition opt_truthy (o : option string) : bool :=
  match o with
  | Some s => str_truthy s
  | None => false
  end.

(* ================================================================== *)
(** ** Arithmetic of the scores *)

Definition Qltb (a b : Q) : bool := negb (Qle_bool b a).

(** [min(a, b)] and [max(a, b)] of Python: the first argument unless
    the second is strictly smaller (larger). *)
Definition py_min (a b : Q) : Q := if Qltb b a then b else a.
Definition py_max (a b : Q) : Q := if Qltb a b then b else a.

(** [x / y] on two [int]s. *)
Definition true_div (x y : Z) : Q := inject_Z x / inject_Z y.

Definition Zsum (l : list Z) : Z := fold_left Z.add l 0.
Definition Qsum (l : list Q) : Q := fold_left Qplus l 0%Q.

(* ================================================================== *)
(** ** [_calculate_advanced_metrics] *)

Definition metrics_init : dict :=
  [ (KStr "engagement_potential", VFloat 0);
    (KStr "influence_score", VFloat 0);
    (KStr "authenticity_score", VFloat 0);
    (KStr "activity_pattern", VStr "unknown");
    (KStr "profile_completion", VFloat 0) ].

Definition auth_score (profile : Profile) : Q :=
  let a := 50%Q in
  let a := if is_verified profile then (a + 20)%Q else a in
  let a := if str_truthy (biography profile) && (20 <? py_len (biography profile))
           then (a + 10)%Q else a in
  let a := if opt_truthy (external_url profile) then (a + 10)%Q else a in
  let a := if 1000 <? followers profile then (a + 10)%Q else a in
  a.

Definition completion (profile : Profile) : Z :=
  Zsum [ if str_truthy (full_name profile) then 25 else 0;
         if str_truthy (biography profile) then 25 else 0;
         if str_truthy (profile_pic_url profile) then 25 else 0;
         if 0 <? mediacount profile then 25 else 0 ].

Definition _calculate_advanced_metrics (profile : Profile) : value :=
  let metrics := metrics_init in
  if 0 <? followers profile then
    let metrics := assoc_set "engagement_potential"
      (VFloat (py_min 100 (true_div (mediacount profile) (followers profile) * 1000)))
      metrics in
    let metrics :=
      if 0 <? followees profile then
        assoc_set "influence_score"
          (VFloat (py_min 100 (true_div (followers profile) (followees profile) * 10)))
          metrics
      else assoc_set "influence_score" (VFloat 100) metrics in
    let metrics := assoc_set "authenticity_score"
      (VFloat (py_min 100 (auth_score profile))) metrics in
    let metrics := assoc_set "profile_completion" (VInt (completion profile)) metrics in
    VDict metrics
  else VDict metrics.

(* ================================================================== *)
(** ** [_analyze_posting_patterns] *)

Definition SECONDS_PER_DAY : Z := 86400.

(** [date.hour] and [date.strftime("%A")]. *)
Definition hour (t : Z) : Z := (t mod SECONDS_PER_DAY) / 3600.

Definition day_name (t : Z) : string :=
  nth (Z.to_nat ((t / SECONDS_PER_DAY + 3) mod 7))
      ["Monday"; "Tuesday"; "Wednesday"; "Thursday"; "Friday"; "Saturday"; "Sunday"]
      EmptyString.

(** [d[k] += 1] on a [defaultdict(int)]. *)
Definition count_one (k : key) (d : dict) : dict :=
  match assoc_get k d with
  | Some (VInt n) => assoc_set k (VInt (n + 1)) d
  | _ => assoc_set k (VInt 1) d
  end.

Definition histogram (ks : list key) : dict :=
  fold_left (fun d k => count_one k d) ks [].

(** [(dates[i] - dates[i+1]).days for i in range(len(dates)-1)]: the
    whole days of each difference, rounded down as [timedelta] does. *)
Fixpoint intervals (dates : list Z) : list Z :=
  match dates with
  | a :: ((b :: _) as r) => (a - b) / SECONDS_PER_DAY :: intervals r
  | _ => []
  end.

Definition avg (l : list Z) : Q := true_div (Zsum l) (Z.of_nat (List.length l)).

Definition variance (l : list Z) : Q :=
  (Qsum (map (fun x => (inject_Z x - avg l) ^ 2) l) / inject_Z (Z.of_nat (List.length l)))%Q.

Definition count_occ_Z (l : list Z) (x : Z) : Z :=
  Z.of_nat (List.length (filter (Z.eqb x) l)).

(** [max(set(intervals), key=intervals.count)]: the first of the
    distinct values with the largest count; the distinct values are
    taken in order of first occurrence (Python leaves the order of a
    set open). *)
Definition most_frequent (l : list Z) : Z :=
  match nodup Z.eq_dec l with
  | [] => 0
  | x :: r =>
      fold_left (fun best y => if count_occ_Z l best <? count_occ_Z l y then y else best) r x
  end.

(** [sum(intervals) / len(intervals) if intervals else 1.0] and the
    variance with its [if intervals else 0]. *)
Definition avg_interval_of (ivs : list Z) : Q :=
  match ivs with
  | [] => 1%Q
  | _ => avg ivs
  end.

Definition variance_of (ivs : list Z) : Q :=
  match ivs with
  | [] => 0%Q
  | _ => variance ivs
  end.

Definition consistency_of (ivs : list Z) : Q :=
  let avg_interval := avg_interval_of ivs in
  if Qltb 0 avg_interval
  then py_max 0 (100 - (variance_of ivs / avg_interval) * 10)%Q
  else 50%Q.

Definition _analyze_posting_patterns (posts : list Post) : value :=
  let dates := map date_utc posts in
  let time_patterns := histogram (map (fun d => KInt (hour d)) dates) in
  let day_patterns := histogram (map (fun d => KStr (day_name d)) dates) in
  if (1 <? Z.of_nat (List.length dates)) then
    let ivs := intervals dates in
    VDict [ (KStr "time_patterns", VDict time_patterns);
            (KStr "day_patterns", VDict day_patterns);
            (KStr "frequency_analysis",
              VDict [ (KStr "average_days_between_posts", VFloat (avg_interval_of ivs));
                      (KStr "most_frequent_interval", VInt (most_frequent ivs)) ]);
            (KStr "consistency_score", VFloat (consistency_of ivs)) ]
  else
    VDict [ (KStr "time_patterns", VDict time_patterns);
            (KStr "day_patterns", VDict day_patterns);
            (KStr "frequency_analysis",
              VDict [ (KStr "average_days_between_posts", VInt 0);
                      (KStr "most_frequent_interval", VInt 0) ]);
            (KStr "consistency_score", VFloat 0) ].

(* ================================================================== *)
(** ** [_detect_suspicious_patterns] *)

Definition or_default (l : list string) (marker : string) : list string :=
  match l with
  | [] => [marker]
  | _ => l
  end.

Definition completion_score (profile : Profile) : Q :=
  match lookup "profile_completion" (_calculate_advanced_metrics profile) with
  | Some v => match num v with Some q => q | None => 0%Q end
  | None => 0%Q
  end.

Definition _detect_suspicious_patterns
    (followers_sample followees_sample : list string) (profile : Profile) : list string :=
  let suspicious := [] in
  let suspicious :=
    if (10000 <? followers profile) && (mediacount profile <? 10)
    then (suspicious ++ [SUSP_HIGH_FOLLOWERS_LOW_CONTENT])%list else suspicious in
  let suspicious :=
    if 0 <? followees profile then
      let ratio := true_div (followers profile) (followees profile) in
      if Qltb 100 ratio then (suspicious ++ [SUSP_ABNORMAL_RATIO])%list
      else if Qltb ratio (1 # 10) then (suspicious ++ [SUSP_EXCESSIVE_FOLLOWING])%list
      else suspicious
    else suspicious in
  let suspicious :=
    if Qltb (completion_score profile) 50
    then (suspicious ++ [SUSP_LOW_COMPLETION])%list else suspicious in
  or_default suspicious NO_SUSPICIOUS_PATTERNS.

(* ================================================================== *)
(** ** [_security_analysis] *)

(** [len(x)] and [re.search(p, x)] on a value. *)
Definition len_value (v : value) : Res Z :=
  match v with
  | VStr s => Ret (py_len s)
  | VList l => Ret (Z.of_nat (List.length l))
  | VDict d => Ret (Z.of_nat (List.length d))
  | _ => Exc TypeError
  end.

Definition search_value (uw : uchar -> bool) (p : list atom) (v : value) : Res bool :=
  match v with
  | VStr s => Ret (re_search uw p s)
  | _ => Exc TypeError
  end.

(** The score before the final [max(0, ...)] and the risks collected
    with it. *)
Definition privacy_raw (uw : uchar -> bool) (basic_info : value)
  : Res (Z * list string) :=
  let privacy_score := 100 in
  let risks : list string := [] in
  private <- dict_get basic_info "is_private" (VBool true) ;;
  let '(privacy_score, risks) :=
    if negb (truthy private)
    then (privacy_score - 30, (risks ++ [RISK_PUBLIC])%list)
    else (privacy_score, risks) in
  url <- dict_get basic_info "external_url" VNone ;;
  let '(privacy_score, risks) :=
    if negb (is_str url "N/A")
    then (privacy_score - 10, (risks ++ [RISK_EXTERNAL_LINK])%list)
    else (privacy_score, risks) in
  bio0 <- dict_get basic_info "biography" (VStr EmptyString) ;;
  long <- (if truthy bio0 then n <- len_value bio0 ;; Ret (100 <? n) else Ret false) ;;
  let '(privacy_score, risks) :=
    if (long : bool)
    then (privacy_score - 5, (risks ++ [RISK_DETAILED_BIO])%list)
    else (privacy_score, risks) in
  bio <- dict_get basic_info "biography" (VStr EmptyString) ;;
  has_email <- search_value uw email_pattern bio ;;
  let '(privacy_score, risks) :=
    if (has_email : bool)
    then (privacy_score - 20, (risks ++ [RISK_EMAIL])%list)
    else (privacy_score, risks) in
  has_phone <- search_value uw phone_pattern bio ;;
  let '(privacy_score, risks) :=
    if (has_phone : bool)
    then (privacy_score - 25, (risks ++ [RISK_PHONE])%list)
    else (privacy_score, risks) in
  Ret (privacy_score, risks).

Definition _security_analysis (uw : uchar -> bool) (profile_data : value) : Res value :=
  basic_info <- getitem profile_data "basic_info" ;;
  scored <- privacy_raw uw basic_info ;;
  let '(privacy_score, risks) := scored in
  let clamped := Z.max 0 privacy_score in
  let recommendations :=
    if clamped <? 50
    then [VStr RECOMMENDATION_1; VStr RECOMMENDATION_2; VStr RECOMMENDATION_3]
    else [] in
  Ret (VDict [ (KStr "privacy_score", VInt clamped);
               (KStr "exposure_risks", VList (map VStr risks));
               (KStr "recommendations", VList recommendations);
               (KStr "threat_indicators", VList []) ]).

(* ================================================================== *)
(** ** The environment of one analysis run

    What the network and the interpreter answer.  A paginated iterator
    ([get_followers], [get_followees], [get_posts]) yields some items
    and then ends or raises. *)

Inductive Outcome (A : Type) : Type :=
| Ok (a : A)
| Raised (e : lib_exn).

Arguments Ok {A} a.
Arguments Raised {A} e.

Inductive ending : Type :=
| Exhausted
| Raises (e : lib_exn).

Record run (A : Type) : Type := {
  yielded : list A;
  finish : ending
}.

Arguments yielded {A} r.
Arguments finish {A} r.

(** The places that call [instaloader.Profile.from_username] or
    [profile.get_posts]. *)
Inductive site : Type :=
| Primary        (* _analyze_target_profile, _analyze_profile_content *)
| Network        (* _analyze_network *)
| Timeline       (* _timeline_analysis *)
| Behavioral.    (* _behavioral_analysis *)

Record World : Type := {
  (** [\w] outside ASCII and [str.lower], the interpreter's Unicode tables *)
  unicode_word : uchar -> bool;
  str_lower : string -> string;
  (** [datetime.datetime.now()], as text and in seconds *)
  now_iso : string;
  now : Z;
  (** [instaloader.Profile.from_username] at each calling place *)
  from_username : site -> string -> Outcome Profile;
  (** iterating [profile.get_posts()] at each calling place *)
  get_posts : site -> run Post;
  (** the [k]-th iteration of [profile.get_followers()], [get_followees()] *)
  get_followers : nat -> run string;
  get_followees : nat -> run string;
  (** the answers of the expansions and probes that catch every
      exception themselves and always return a dictionary:
      [_analyze_second_degree_connections], [_analyze_common_followed],
      [_analyze_external_url], [_analyze_domain], [_scrape_external_url],
      [_check_cross_platform_presence] *)
  second_degree_connections : list string -> value;
  common_followed : list string -> value;
  external_url_analysis : value -> value;
  domain_analysis : value -> value;
  web_scraping : value -> value;
  cross_platform_presence : value -> value
}.

(* ================================================================== *)
(** ** [_fetch_followers] and [_fetch_followees] *)

Inductive event : Type :=
| Attempt        (* one iteration of profile.get_followers() started *)
| Pace           (* asyncio.sleep(0.5) *)
| Backoff.       (* asyncio.sleep(60) *)

(** The [for i, x in enumerate(...)] loop: what was appended, and the
    exception that ended the loop, if one did. *)
Fixpoint fetch_loop (limit i : Z) (items : list string) (e : ending)
    (acc : list string) : list string * option lib_exn :=
  match items with
  | [] => (acc, match e with Exhausted => None | Raises x => Some x end)
  | x :: r =>
      if limit <=? i then (acc, None)
      else fetch_loop limit (i + 1) r e (acc ++ [x])%list
  end.

(** The fetch with its retry: on [TooManyRequestsException] it waits 60
    and calls itself with [limit - len(followers)], from inside the
    handler, so that each retry is a call nested in the previous one.
    [fuel] is the number of nested calls the interpreter still allows
    (its recursion limit, [sys.getrecursionlimit()], less the depth of
    the caller): the call beyond it raises [RecursionError], which the
    handlers of the fetch do not catch.  [k] counts the iterations
    started so far. *)
Fixpoint fetch_retry (fuel : nat) (runs : nat -> run string) (k : nat) (limit : Z)
  : list event * Res (list string) :=
  match fuel with
  | O => ([], Exc RecursionError)
  | S fuel' =>
      let '(got, raised) := fetch_loop limit 0 (yielded (runs k)) (finish (runs k)) [] in
      let tr := Attempt :: repeat Pace (List.length got) in
      match raised with
      | None => (tr, Ret got)
      | Some (TooManyRequestsException _) =>
          let '(tr', r) :=
            fetch_retry fuel' runs (S k) (limit - Z.of_nat (List.length got)) in
          ((tr ++ Backoff :: tr')%list, r)
      | Some e => (tr, Exc (Library e))
      end
  end.

Definition _fetch_followers (fuel : nat) (w : World) (limit : Z)
  : list event * Res (list string) :=
  fetch_retry fuel (get_followers w) 0 limit.

Definition _fetch_followees (fuel : nat) (w : World) (limit : Z)
  : list event * Res (list string) :=
  fetch_retry fuel (get_followees w) 0 limit.

Definition attempts (tr : list event) : nat :=
  List.length (filter (fun e => match e with Attempt => true | _ => false end) tr).

Definition backoffs (tr : list event) : nat :=
  List.length (filter (fun e => match e with Backoff => true | _ => false end) tr).

(* ================================================================== *)
(** ** Helpers of the branches *)

(** Collecting posts up to [cap]: the loop appends, then stops once
    [len(posts) >= cap]; the iterator's end is reached only when it
    yields fewer than [cap] posts.  The loop is an [async for]: given
    an iterator without [__aiter__], as instaloader's [NodeIterator]
    is, it raises before the first post, which is the run that yields
    nothing and raises. *)
Definition take_posts (cap : nat) (r : run Post) : Outcome (list Post) :=
  if Nat.leb cap (List.length (yielded r)) then Ok (firstn cap (yielded r))
  else match finish r with
       | Exhausted => Ok (yielded r)
       | Raises e => Raised e
       end.

(** The distinct elements, in order of first occurrence (Python leaves
    the order of [list(set(...))] open). *)
Definition distinct (l : list string) : list string := nodup string_dec l.

Definition mem (x : string) (l : list string) : bool := existsb (String.eqb x) l.

Definition strs (l : list string) : value := VList (map VStr l).

(** [text.count(word)]: occurrences from left to right, not
    overlapping. *)
Fixpoint count_from (skip : nat) (word : string) (l : list ascii) : Z :=
  match l with
  | [] => 0
  | a :: r =>
      match skip with
      | S k => count_from k word r
      | O => if String.prefix word (string_of_list_ascii l)
             then 1 + count_from (String.length word - 1) word r
             else count_from 0 word r
      end
  end.

Definition str_count (s word : string) : Z := count_from 0 word (list_ascii_of_string s).

(** The year and the month of a date, for [strftime("%Y-%m")]. *)
Definition year_month (t : Z) : Z * Z :=
  let z := t / SECONDS_PER_DAY + 719468 in
  let era := z / 146097 in
  let doe := z - era * 146097 in
  let yoe := (doe - doe / 1460 + doe / 36524 - doe / 146096) / 365 in
  let doy := doe - (365 * yoe + yoe / 4 - yoe / 100) in
  let mp := (5 * doy + 2) / 153 in
  let m := if mp <? 10 then mp + 3 else mp - 9 in
  (yoe + era * 400 + (if m <=? 2 then 1 else 0), m).

Definition decimal (n : Z) : string := NilZero.string_of_uint (N.to_uint (Z.to_N n)).

Definition month_key (t : Z) : string :=
  let '(y, m) := year_month t in
  let pad := if Z.ltb m 10 then "0" else EmptyString in
  (decimal y ++ "-" ++ pad ++ decimal m)%string.

(* ================================================================== *)
(** ** [_analyze_profile_content] and its summaries *)

Definition theme_keywords : list (string * list string) :=
  [ ("travel", ["travel"; "trip"; "vacation"; "explore"; "adventure"; "journey"]);
    ("fitness", ["fitness"; "gym"; "workout"; "health"; "exercise"; "training"]);
    ("food", ["food"; "recipe"; "cooking"; "delicious"; "restaurant"; "meal"]);
    ("fashion", ["fashion"; "style"; "outfit"; "clothing"; "designer"; "trend"]);
    ("business", ["business"; "entrepreneur"; "success"; "money"; "investment"; "work"]);
    ("lifestyle", ["lifestyle"; "life"; "happiness"; "motivation"; "inspiration"; "goals"]) ].

Definition post_kind (post : Post) : string :=
  if is_video post then "video"
  else match post_mediacount post with
       | Some n => if 1 <? n then "carousel" else "photo"
       | None => "photo"
       end.

Definition _analyze_content_themes (w : World) (posts : list Post) : value :=
  let all_text :=
    String.concat " "
      (map (fun post => match caption post with
                        | Some c => if str_truthy c then str_lower w c else EmptyString
                        | None => EmptyString
                        end) posts) in
  let detected :=
    fold_left
      (fun d '(theme, keywords) =>
         let score := Zsum (map (str_count all_text) keywords) in
         if 0 <? score then assoc_set (KStr theme) (VInt score) d else d)
      theme_keywords [] in
  let detected :=
    match detected with
    | [] => [(KStr "none_detected", VInt 0)]
    | _ => detected
    end in
  let content_types :=
    fold_left (fun d post => count_one (KStr (post_kind post)) d) posts
      [ (KStr "photo", VInt 0); (KStr "video", VInt 0); (KStr "carousel", VInt 0) ] in
  VDict [ (KStr "detected_themes", VDict detected);
          (KStr "content_types", VDict content_types);
          (KStr "language_analysis", VDict []);
          (KStr "sentiment_trends", VList []) ].

Definition _analyze_hashtag_strategy (posts : list Post) : value :=
  VDict [ (KStr "total_unique_hashtags",
           VInt (Z.of_nat (List.length (distinct (flat_map caption_hashtags posts))))) ].

Definition _analyze_mention_network (posts : list Post) : value :=
  VDict [ (KStr "total_unique_mentions",
           VInt (Z.of_nat (List.length (distinct (flat_map tagged_users posts))))) ].

Definition _analyze_location_data (posts : list Post) : value :=
  let locations :=
    flat_map (fun post => match location post with Some n => [n] | None => [] end) posts in
  VDict [ (KStr "unique_locations", VInt (Z.of_nat (List.length (distinct locations))));
          (KStr "locations", strs (or_default (distinct locations) "no_locations")) ].

Definition content_data_init : dict :=
  [ (KStr "posting_patterns", VDict []);
    (KStr "content_themes", VDict []);
    (KStr "hashtag_strategy", VDict []);
    (KStr "mention_network", VDict []);
    (KStr "location_intelligence", VDict []) ].

Definition _analyze_profile_content (w : World) (profile : Profile) : value :=
  if is_private profile then
    VDict [ (KStr "status", VStr "private_account"); (KStr "data_available", VBool false) ]
  else
    match take_posts 100 (get_posts w Primary) with
    | Ok [] => VDict (assoc_set "status" (VStr "no_posts_available") content_data_init)
    | Ok posts =>
        VDict [ (KStr "posting_patterns", _analyze_posting_patterns posts);
                (KStr "content_themes", _analyze_content_themes w posts);
                (KStr "hashtag_strategy", _analyze_hashtag_strategy posts);
                (KStr "mention_network", _analyze_mention_network posts);
                (KStr "location_intelligence", _analyze_location_data posts) ]
    | Raised e => VDict (assoc_set "error" (VStr (exn_str e)) content_data_init)
    end.

(* ================================================================== *)
(** ** [_analyze_target_profile] *)

Definition basic_info (profile : Profile) : value :=
  VDict [ (KStr "username", VStr (username profile));
          (KStr "user_id", VInt (userid profile));
          (KStr "full_name", VStr (or_NA (full_name profile)));
          (KStr "biography", VStr (or_NA (biography profile)));
          (KStr "followers", VInt (followers profile));
          (KStr "followees", VInt (followees profile));
          (KStr "posts_count", VInt (mediacount profile));
          (KStr "is_private", VBool (is_private profile));
          (KStr "is_verified", VBool (is_verified profile));
          (KStr "is_business_account", VBool (is_business_account profile));
          (KStr "business_category", VStr (opt_or_NA (business_category_name profile)));
          (KStr "external_url", VStr (opt_or_NA (external_url profile)));
          (KStr "profile_pic_url", VStr (or_NA (profile_pic_url profile))) ].

Definition _extract_profile_metadata (profile : Profile) : value :=
  VDict [ (KStr "user_id", VInt (userid profile));
          (KStr "profile_pic_url", VStr (or_NA (profile_pic_url profile))) ].

Definition _analyze_username_history (username : string) : value :=
  VDict [ (KStr "history", VList [VStr "N/A"]);
          (KStr "note", VStr "Username history not available via current API") ].

(** The profile data of a fetched profile (the body of the [try]). *)
Definition profile_data_of (w : World) (username : string) (profile : Profile) : value :=
  VDict [ (KStr "basic_info", basic_info profile);
          (KStr "advanced_metrics", _calculate_advanced_metrics profile);
          (KStr "content_analysis", _analyze_profile_content w profile);
          (KStr "metadata_analysis", _extract_profile_metadata profile);
          (KStr "username_history", _analyze_username_history username) ].

(** [None] when the fetch raised, the profile data otherwise. *)
Definition _analyze_target_profile (w : World) (username : string) : value :=
  match from_username w Primary username with
  | Ok profile => profile_data_of w username profile
  | Raised e => VNone
  end.

(* ================================================================== *)
(** ** [_analyze_network] *)

Definition network_data_init : dict :=
  [ (KStr "connections", VDict []);
    (KStr "mutual_connections", VDict []);
    (KStr "influence_network", VDict []);
    (KStr "suspicious_patterns", VList []);
    (KStr "second_degree_connections", VDict []);
    (KStr "common_followed_accounts", VDict []) ].

(** [asyncio.gather(..., return_exceptions=True)] followed by the test
    [isinstance(result, Exception)]: an exception, [RecursionError]
    among them, becomes the empty list. *)
Definition gathered (r : Res (list string)) : Res (list string) :=
  match r with
  | Ret l => Ret l
  | Exc _ => Ret []
  end.

Definition _analyze_network (fuel : nat) (w : World) (username : string) (depth : Z)
  : Res value :=
  match from_username w Network username with
  | Raised e => Ret (VDict (assoc_set "error" (VStr (exn_str e)) network_data_init))
  | Ok profile =>
      if negb (is_private profile) then
        followers_sample <- gathered (snd (_fetch_followers fuel w 50)) ;;
        followees_sample <- gathered (snd (_fetch_followees fuel w 50)) ;;
        let network_data := assoc_set "connections"
          (VDict [ (KStr "followers_sample", strs followers_sample);
                   (KStr "followees_sample", strs followees_sample);
                   (KStr "total_followers", VInt (followers profile));
                   (KStr "total_followees", VInt (followees profile)) ])
          network_data_init in
        let mutual :=
          filter (fun x => mem x followees_sample) (distinct followers_sample) in
        let network_data := assoc_set "mutual_connections" (strs mutual) network_data in
        let network_data :=
          if 1 <? depth
          then assoc_set "second_degree_connections"
                 (second_degree_connections w followers_sample) network_data
          else network_data in
        let network_data := assoc_set "common_followed_accounts"
          (common_followed w followees_sample) network_data in
        let network_data := assoc_set "suspicious_patterns"
          (strs (_detect_suspicious_patterns followers_sample followees_sample profile))
          network_data in
        Ret (VDict network_data)
      else
        Ret (VDict (assoc_set "status" (VStr "private_account") network_data_init))
  end.

(* ================================================================== *)
(** ** [_analyze_digital_footprint] *)

Definition footprint_init : dict :=
  [ (KStr "external_links", VDict []);
    (KStr "cross_platform_presence", VDict []);
    (KStr "domain_analysis", VDict []);
    (KStr "email_patterns", VList []);
    (KStr "phone_patterns", VList []);
    (KStr "email_validation", VList []);
    (KStr "phone_validation", VList []) ].

Definition findall_value (uw : uchar -> bool) (p : list atom) (v : value)
  : Res (list string) :=
  match v with
  | VStr s => Ret (re_findall uw p s)
  | _ => Exc TypeError
  end.

Definition or_default_value (l : list value) (marker : value) : value :=
  match l with
  | [] => VList [marker]
  | _ => VList l
  end.

Definition _validate_emails (emails : list string) : value :=
  or_default_value
    (map (fun email => VDict [ (KStr "email", VStr email);
                               (KStr "status", VStr "unchecked");
                               (KStr "details", VStr "SMTP validation not implemented") ])
         emails)
    (VDict [ (KStr "status", VStr "no_emails") ]).

Definition _validate_phones (phones : list string) : value :=
  or_default_value
    (map (fun phone => VDict [ (KStr "phone", VStr phone);
                               (KStr "status", VStr "unchecked");
                               (KStr "details", VStr "Phone validation not implemented") ])
         phones)
    (VDict [ (KStr "status", VStr "no_phones") ]).

Definition _analyze_digital_footprint (w : World) (profile_data : value) : Res value :=
  let footprint := footprint_init in
  info <- getitem profile_data "basic_info" ;;
  url <- dict_get info "external_url" (VStr "N/A") ;;
  let footprint :=
    if negb (is_str url "N/A") then
      assoc_set "web_scraping" (web_scraping w url)
        (assoc_set "domain_analysis" (domain_analysis w url)
           (assoc_set "external_links" (external_url_analysis w url) footprint))
    else footprint in
  info' <- getitem profile_data "basic_info" ;;
  bio <- dict_get info' "biography" (VStr EmptyString) ;;
  if truthy bio then
    emails <- findall_value (unicode_word w) email_pattern bio ;;
    let footprint := assoc_set "email_patterns"
      (strs (or_default emails "no_emails_detected")) footprint in
    phones <- findall_value (unicode_word w) phone_pattern bio ;;
    let footprint := assoc_set "phone_patterns"
      (strs (or_default phones "no_phones_detected")) footprint in
    let footprint := assoc_set "email_validation" (_validate_emails emails) footprint in
    let footprint := assoc_set "phone_validation" (_validate_phones phones) footprint in
    info'' <- getitem profile_data "basic_info" ;;
    name <- getitem info'' "username" ;;
    Ret (VDict (assoc_set "cross_platform_presence"
                  (cross_platform_presence w name) footprint))
  else
    (* [emails] was never assigned *)
    info'' <- getitem profile_data "basic_info" ;;
    name <- getitem info'' "username" ;;
    Exc UnboundLocalError.

(* ================================================================== *)
(** ** [_timeline_analysis] *)

Definition timeline_init : dict :=
  [ (KStr "account_age_estimate", VNone);
    (KStr "activity_timeline", VList []);
    (KStr "growth_patterns", VDict []);
    (KStr "significant_events", VList []) ].

Definition _analyze_growth_patterns (posts : list Post) : value :=
  VDict [ (KStr "status", VStr "analysis_complete");
          (KStr "note", VStr "Growth patterns analyzed") ].

(** [min(posts, key=lambda x: x.date_utc).date_utc] *)
Definition oldest_date (first : Z) (rest : list Z) : Z :=
  fold_left (fun best d => if d <? best then d else best) rest first.

Definition _timeline_analysis (w : World) (username : string) : value :=
  match from_username w Timeline username with
  | Raised e => VDict (assoc_set "error" (VStr (exn_str e)) timeline_init)
  | Ok profile =>
      if negb (is_private profile) then
        match take_posts 200 (get_posts w Timeline) with
        | Raised e => VDict (assoc_set "error" (VStr (exn_str e)) timeline_init)
        | Ok [] => VDict (assoc_set "status" (VStr "no_posts_available") timeline_init)
        | Ok (p :: ps) =>
            let dates := map date_utc (p :: ps) in
            let age := (now w - oldest_date (date_utc p) (map date_utc ps)) / SECONDS_PER_DAY in
            VDict (assoc_set "growth_patterns" (_analyze_growth_patterns (p :: ps))
                    (assoc_set "activity_timeline"
                       (VDict (histogram (map (fun d => KStr (month_key d)) dates)))
                       (assoc_set "account_age_estimate" (VInt age) timeline_init)))
        end
      else VDict (assoc_set "status" (VStr "private_account") timeline_init)
  end.

(* ================================================================== *)
(** ** [_behavioral_analysis] *)

Definition behavior_init : dict :=
  [ (KStr "interaction_patterns", VDict []);
    (KStr "content_consistency", VDict []);
    (KStr "engagement_behavior", VDict []);
    (KStr "automation_indicators", VList []) ].

Definition _analyze_interaction_patterns (posts : list Post) : value :=
  VDict [ (KStr "status", VStr "analysis_complete");
          (KStr "note", VStr "Interaction patterns analyzed") ].

Definition _analyze_content_consistency (posts : list Post) : value :=
  VDict [ (KStr "status", VStr "analysis_complete");
          (KStr "note", VStr "Content consistency analyzed") ].

Definition _detect_automation_indicators (posts : list Post) : list string :=
  let hours := map (fun post => hour (date_utc post)) posts in
  let indicators :=
    if Nat.leb (List.length (nodup Z.eq_dec hours)) 3 then [AUTO_REGULAR_HOURS] else [] in
  or_default indicators NO_AUTOMATION_INDICATORS.

Definition _behavioral_analysis (w : World) (username : string) : value :=
  match from_username w Behavioral username with
  | Raised e => VDict (assoc_set "error" (VStr (exn_str e)) behavior_init)
  | Ok profile =>
      if negb (is_private profile) then
        match take_posts 50 (get_posts w Behavioral) with
        | Raised e => VDict (assoc_set "error" (VStr (exn_str e)) behavior_init)
        | Ok [] => VDict (assoc_set "status" (VStr "no_posts_available") behavior_init)
        | Ok posts =>
            VDict (assoc_set "automation_indicators"
                     (strs (_detect_automation_indicators posts))
                     (assoc_set "content_consistency" (_analyze_content_consistency posts)
                        (assoc_set "interaction_patterns"
                           (_analyze_interaction_patterns posts) behavior_init)))
        end
      else VDict (assoc_set "status" (VStr "private_account") behavior_init)
  end.

(* ================================================================== *)
(** ** [comprehensive_analysis] *)

Definition analysis_data_init (w : World) (username : string) : dict :=
  [ (KStr "target", VStr username);
    (KStr "timestamp", VStr (now_iso w));
    (KStr "profile_analysis", VDict []);
    (KStr "network_analysis", VDict []);
    (KStr "digital_footprint", VDict []);
    (KStr "security_analysis", VDict []);
    (KStr "timeline_analysis", VDict []);
    (KStr "behavioral_analysis", VDict []) ].

(** The result is [Ret VNone] for Python's [None] and the report
    otherwise.  [save_report] only decides whether
    [_generate_osint_report] writes the report to its two files; the
    files are not part of this development, and the returned report is
    the same either way. *)
Definition comprehensive_analysis (fuel : nat) (w : World) (username : string)
    (depth : Z) (save_report : bool) : Res value :=
  let analysis_data := analysis_data_init w username in
  let profile_data := _analyze_target_profile w username in
  if negb (truthy profile_data) then Ret VNone
  else
    let analysis_data := assoc_set "profile_analysis" profile_data analysis_data in
    private <- dict_get profile_data "is_private" (VBool true) ;;
    if negb (truthy private) then
      network_data <- _analyze_network fuel w username depth ;;
      let analysis_data := assoc_set "network_analysis" network_data analysis_data in
      footprint_data <- _analyze_digital_footprint w profile_data ;;
      let analysis_data := assoc_set "digital_footprint" footprint_data analysis_data in
      security_data <- _security_analysis (unicode_word w) profile_data ;;
      let analysis_data := assoc_set "security_analysis" security_data analysis_data in
      let timeline_data := _timeline_analysis w username in
      let analysis_data := assoc_set "timeline_analysis" timeline_data analysis_data in
      let behavioral_data := _behavioral_analysis w username in
      let analysis_data := assoc_set "behavioral_analysis" behavioral_data analysis_data in
      Ret (VDict analysis_data)
    else
      Ret (VDict analysis_data).

(* ================================================================== *)
(** * The older variant, [a.py]

    The same class without [asyncio]: no retry in the fetch, no
    explicit markers for empty results, no [profile_completion].  Only
    what differs from [arivaigosint.py] is defined again; the
    environment and the helpers are shared. *)

Module A.

Definition RISK_PUBLIC : string := "Profil herkese açık".
Definition RISK_EXTERNAL_LINK : string := "Dış bağlantı mevcut".
Definition RISK_DETAILED_BIO : string := "Detaylı biyografi".
Definition RISK_EMAIL : string := "E-mail adresi ifşa edilmiş".
Definition RISK_PHONE : string := "Telefon numarası ifşa edilmiş".
Definition SUSP_HIGH_FOLLOWERS_LOW_CONTENT : string := "Yüksek takipçi, düşük içerik (bot şüphesi)".
Definition SUSP_ABNORMAL_RATIO : string := "Anormal takipçi/takip oranı".
Definition SUSP_EXCESSIVE_FOLLOWING : string := "Çok fazla takip, az takipçi (spam şüphesi)".
Definition AUTO_REGULAR_HOURS : string := "Çok düzenli paylaşım saatleri".
Definition RECOMMENDATION_1 : string := "Profili gizli yap".
Definition RECOMMENDATION_2 : string := "Biyografiden kişisel bilgileri kaldır".
Definition RECOMMENDATION_3 : string := "İki faktörlü kimlik doğrulamayı aktif et".

(** [None] for an absent optional text. *)
Definition opt_value (o : option string) : value :=
  match o with
  | Some s => VStr s
  | None => VNone
  end.

(** [min(100, x)] and [max(0, x)] with an [int] first argument: the
    result is the [int] unless the second argument wins. *)
Definition min_100 (x : Q) : value := if Qltb x 100 then VFloat x else VInt 100.
Definition max_0 (x : Q) : value := if Qltb 0 x then VFloat x else VInt 0.

Definition metrics_init : dict :=
  [ (KStr "engagement_potential", VInt 0);
    (KStr "influence_score", VInt 0);
    (KStr "authenticity_score", VInt 0);
    (KStr "activity_pattern", VStr "unknown") ].

Definition auth_score (profile : Profile) : Z :=
  let a := 50 in
  let a := if is_verified profile then a + 20 else a in
  let a := if str_truthy (biography profile) && (20 <? py_len (biography profile))
           then a + 10 else a in
  let a := if opt_truthy (external_url profile) then a + 10 else a in
  let a := if 1000 <? followers profile then a + 10 else a in
  a.

Definition _calculate_advanced_metrics (profile : Profile) : value :=
  let metrics := metrics_init in
  if 0 <? followers profile then
    let metrics := assoc_set "engagement_potential"
      (min_100 (true_div (mediacount profile) (followers profile) * 1000)) metrics in
    let metrics :=
      if 0 <? followees profile then
        assoc_set "influence_score"
          (min_100 (true_div (followers profile) (followees profile) * 10)) metrics
      else assoc_set "influence_score" (VInt 100) metrics in
    let metrics := assoc_set "authenticity_score"
      (VInt (Z.min 100 (auth_score profile))) metrics in
    VDict metrics
  else VDict metrics.

Definition consistency_of (ivs : list Z) : value :=
  let avg_interval := avg ivs in
  if Qltb 0 avg_interval
  then max_0 (100 - (variance ivs / avg_interval) * 10)%Q
  else VInt 0.

Definition _analyze_posting_patterns (posts : list Post) : value :=
  let dates := map date_utc posts in
  let time_patterns := histogram (map (fun d => KInt (hour d)) dates) in
  let day_patterns := histogram (map (fun d => KStr (day_name d)) dates) in
  if (1 <? Z.of_nat (List.length dates)) then
    let ivs := intervals dates in
    VDict [ (KStr "time_patterns", VDict time_patterns);
            (KStr "day_patterns", VDict day_patterns);
            (KStr "frequency_analysis",
              VDict [ (KStr "average_days_between_posts", VFloat (avg ivs));
                      (KStr "most_frequent_interval", VInt (most_frequent ivs)) ]);
            (KStr "consistency_score", consistency_of ivs) ]
  else
    VDict [ (KStr "time_patterns", VDict time_patterns);
            (KStr "day_patterns", VDict day_patterns);
            (KStr "frequency_analysis", VDict []);
            (KStr "consistency_score", VInt 0) ].

Definition _analyze_content_themes (w : World) (posts : list Post) : value :=
  let all_text :=
    String.concat " "
      (map (fun post => match caption post with
                        | Some c => if str_truthy c then str_lower w c else EmptyString
                        | None => EmptyString
                        end) posts) in
  let detected :=
    fold_left
      (fun d '(theme, keywords) =>
         let score := Zsum (map (str_count all_text) keywords) in
         if 0 <? score then assoc_set (KStr theme) (VInt score) d else d)
      theme_keywords [] in
  let content_types :=
    fold_left (fun d post => count_one (KStr (post_kind post)) d) posts
      [ (KStr "photo", VInt 0); (KStr "video", VInt 0); (KStr "carousel", VInt 0) ] in
  VDict [ (KStr "detected_themes", VDict detected);
          (KStr "content_types", VDict content_types);
          (KStr "language_analysis", VDict []);
          (KStr "sentiment_trends", VList []) ].

Definition _analyze_location_data (posts : list Post) : value :=
  let locations :=
    flat_map (fun post => match location post with Some n => [n] | None => [] end) posts in
  VDict [ (KStr "unique_locations", VInt (Z.of_nat (List.length (distinct locations))));
          (KStr "locations", strs (distinct locations)) ].

(** [list(profile.get_posts())[:cap]]: the whole iteration runs first. *)
Definition all_posts (cap : nat) (r : run Post) : Outcome (list Post) :=
  match finish r with
  | Exhausted => Ok (firstn cap (yielded r))
  | Raises e => Raised e
  end.

Definition _analyze_profile_content (w : World) (profile : Profile) : value :=
  if is_private profile then VDict [ (KStr "status", VStr "private_account") ]
  else
    match all_posts 100 (get_posts w Primary) with
    | Ok (p :: ps) =>
        let posts := p :: ps in
        VDict [ (KStr "posting_patterns", _analyze_posting_patterns posts);
                (KStr "content_themes", _analyze_content_themes w posts);
                (KStr "hashtag_strategy", _analyze_hashtag_strategy posts);
                (KStr "mention_network", _analyze_mention_network posts);
                (KStr "location_intelligence", _analyze_location_data posts) ]
    | _ => VDict content_data_init
    end.

Definition basic_info (profile : Profile) : value :=
  VDict [ (KStr "username", VStr (username profile));
          (KStr "user_id", VInt (userid profile));
          (KStr "full_name", VStr (full_name profile));
          (KStr "biography", VStr (biography profile));
          (KStr "followers", VInt (followers profile));
          (KStr "followees", VInt (followees profile));
          (KStr "posts_count", VInt (mediacount profile));
          (KStr "is_private", VBool (is_private profile));
          (KStr "is_verified", VBool (is_verified profile));
          (KStr "is_business_account", VBool (is_business_account profile));
          (KStr "business_category", opt_value (business_category_name profile));
          (KStr "external_url", opt_value (external_url profile));
          (KStr "profile_pic_url", VStr (profile_pic_url profile)) ].

Definition _extract_profile_metadata (profile : Profile) : value :=
  VDict [ (KStr "user_id", VInt (userid profile));
          (KStr "profile_pic_url", VStr (profile_pic_url profile)) ].

Definition profile_data_of (w : World) (profile : Profile) : value :=
  VDict [ (KStr "basic_info", basic_info profile);
          (KStr "advanced_metrics", _calculate_advanced_metrics profile);
          (KStr "content_analysis", _analyze_profile_content w profile);
          (KStr "metadata_analysis", _extract_profile_metadata profile) ].

Definition _analyze_target_profile (w : World) (username : string) : value :=
  match from_username w Primary username with
  | Ok profile => profile_data_of w profile
  | Raised e => VNone
  end.

Definition _detect_suspicious_patterns
    (followers_sample followees_sample : list string) (profile : Profile) : list string :=
  let suspicious := [] in
  let suspicious :=
    if (10000 <? followers profile) && (mediacount profile <? 10)
    then (suspicious ++ [SUSP_HIGH_FOLLOWERS_LOW_CONTENT])%list else suspicious in
  let suspicious :=
    if 0 <? followees profile then
      let ratio := true_div (followers profile) (followees profile) in
      if Qltb 100 ratio then (suspicious ++ [SUSP_ABNORMAL_RATIO])%list
      else if Qltb ratio (1 # 10) then (suspicious ++ [SUSP_EXCESSIVE_FOLLOWING])%list
      else suspicious
    else suspicious in
  suspicious.

Definition network_data_init : dict :=
  [ (KStr "connections", VDict []);
    (KStr "mutual_connections", VDict []);
    (KStr "influence_network", VDict []);
    (KStr "suspicious_patterns", VList []) ].

(** One pass over each iterator, at most 50 names; any exception leaves
    the initial dictionary. *)
Definition _analyze_network (w : World) (username : string) (depth : Z) : value :=
  match from_username w Network username with
  | Raised e => VDict network_data_init
  | Ok profile =>
      if negb (is_private profile) then
        match fetch_loop 50 0 (yielded (get_followers w 0)) (finish (get_followers w 0)) [] with
        | (_, Some e) => VDict network_data_init
        | (followers_sample, None) =>
            match fetch_loop 50 0 (yielded (get_followees w 0))
                    (finish (get_followees w 0)) [] with
            | (_, Some e) => VDict network_data_init
            | (followees_sample, None) =>
                let network_data := assoc_set "connections"
                  (VDict [ (KStr "followers_sample", strs followers_sample);
                           (KStr "followees_sample", strs followees_sample);
                           (KStr "total_followers", VInt (followers profile));
                           (KStr "total_followees", VInt (followees profile)) ])
                  network_data_init in
                let mutual :=
                  filter (fun x => mem x followees_sample) (distinct followers_sample) in
                let network_data :=
                  assoc_set "mutual_connections" (strs mutual) network_data in
                VDict (assoc_set "suspicious_patterns"
                         (strs (_detect_suspicious_patterns
                                  followers_sample followees_sample profile))
                         network_data)
            end
        end
      else VDict network_data_init
  end.

Definition footprint_init : dict :=
  [ (KStr "external_links", VDict []);
    (KStr "cross_platform_presence", VDict []);
    (KStr "domain_analysis", VDict []);
    (KStr "email_patterns", VList []);
    (KStr "phone_patterns", VList []) ].

Definition _analyze_digital_footprint (w : World) (profile_data : value) : Res value :=
  let footprint := footprint_init in
  info <- getitem profile_data "basic_info" ;;
  url <- dict_get info "external_url" VNone ;;
  let footprint :=
    if truthy url then
      assoc_set "domain_analysis" (domain_analysis w url)
        (assoc_set "external_links" (external_url_analysis w url) footprint)
    else footprint in
  info' <- getitem profile_data "basic_info" ;;
  bio <- dict_get info' "biography" (VStr EmptyString) ;;
  if truthy bio then
    emails <- findall_value (unicode_word w) email_pattern bio ;;
    let footprint := assoc_set "email_patterns" (strs emails) footprint in
    phones <- findall_value (unicode_word w) phone_pattern bio ;;
    Ret (VDict (assoc_set "phone_patterns" (strs phones) footprint))
  else Ret (VDict footprint).

Definition privacy_raw (uw : uchar -> bool) (basic_info : value)
  : Res (Z * list string) :=
  let privacy_score := 100 in
  let risks : list string := [] in
  private <- dict_get basic_info "is_private" (VBool true) ;;
  let '(privacy_score, risks) :=
    if negb (truthy private)
    then (privacy_score - 30, (risks ++ [RISK_PUBLIC])%list)
    else (privacy_score, risks) in
  url <- dict_get basic_info "external_url" VNone ;;
  let '(privacy_score, risks) :=
    if truthy url
    then (privacy_score - 10, (risks ++ [RISK_EXTERNAL_LINK])%list)
    else (privacy_score, risks) in
  bio0 <- dict_get basic_info "biography" VNone ;;
  long <- (if truthy bio0
           then bio1 <- dict_get basic_info "biography" (VStr EmptyString) ;;
                n <- len_value bio1 ;; Ret (100 <? n)
           else Ret false) ;;
  let '(privacy_score, risks) :=
    if (long : bool)
    then (privacy_score - 5, (risks ++ [RISK_DETAILED_BIO])%list)
    else (privacy_score, risks) in
  bio <- dict_get basic_info "biography" (VStr EmptyString) ;;
  has_email <- search_value uw email_pattern bio ;;
  let '(privacy_score, risks) :=
    if (has_email : bool)
    then (privacy_score - 20, (risks ++ [RISK_EMAIL])%list)
    else (privacy_score, risks) in
  has_phone <- search_value uw phone_pattern bio ;;
  let '(privacy_score, risks) :=
    if (has_phone : bool)
    then (privacy_score - 25, (risks ++ [RISK_PHONE])%list)
    else (privacy_score, risks) in
  Ret (privacy_score, risks).

Definition _security_analysis (uw : uchar -> bool) (profile_data : value) : Res value :=
  basic_info <- getitem profile_data "basic_info" ;;
  scored <- privacy_raw uw basic_info ;;
  let '(privacy_score, risks) := scored in
  let clamped := Z.max 0 privacy_score in
  let recommendations :=
    if clamped <? 50
    then [VStr RECOMMENDATION_1; VStr RECOMMENDATION_2; VStr RECOMMENDATION_3]
    else [] in
  Ret (VDict [ (KStr "privacy_score", VInt clamped);
               (KStr "exposure_risks", VList (map VStr risks));
               (KStr "recommendations", VList recommendations);
               (KStr "threat_indicators", VList []) ]).

Definition _analyze_growth_patterns (posts : list Post) : value :=
  VDict [ (KStr "status", VStr "analysis_complete") ].

Definition _timeline_analysis (w : World) (username : string) : value :=
  match from_username w Timeline username with
  | Raised e => VDict timeline_init
  | Ok profile =>
      if negb (is_private profile) then
        match all_posts 200 (get_posts w Timeline) with
        | Ok (p :: ps) =>
            let dates := map date_utc (p :: ps) in
            let age := (now w - oldest_date (date_utc p) (map date_utc ps)) / SECONDS_PER_DAY in
            VDict (assoc_set "growth_patterns" (_analyze_growth_patterns (p :: ps))
                    (assoc_set "activity_timeline"
                       (VDict (histogram (map (fun d => KStr (month_key d)) dates)))
                       (assoc_set "account_age_estimate" (VInt age) timeline_init)))
        | _ => VDict timeline_init
        end
      else VDict timeline_init
  end.

Definition _analyze_interaction_patterns (posts : list Post) : value :=
  VDict [ (KStr "status", VStr "analysis_complete") ].

Definition _analyze_content_consistency (posts : list Post) : value :=
  VDict [ (KStr "status", VStr "analysis_complete") ].

Definition _detect_automation_indicators (posts : list Post) : list string :=
  let hours := map (fun post => hour (date_utc post)) posts in
  if Nat.leb (List.length (nodup Z.eq_dec hours)) 3 then [AUTO_REGULAR_HOURS] else [].

Definition _behavioral_analysis (w : World) (username : string) : value :=
  match from_username w Behavioral username with
  | Raised e => VDict behavior_init
  | Ok profile =>
      if negb (is_private profile) then
        match all_posts 50 (get_posts w Behavioral) with
        | Ok (p :: ps) =>
            let posts := p :: ps in
            VDict (assoc_set "automation_indicators"
                     (strs (_detect_automation_indicators posts))
                     (assoc_set "content_consistency" (_analyze_content_consistency posts)
                        (assoc_set "interaction_patterns"
                           (_analyze_interaction_patterns posts) behavior_init)))
        | _ => VDict behavior_init
        end
      else VDict behavior_init
  end.

Definition comprehensive_analysis (w : World) (username : string)
    (depth : Z) (save_report : bool) : Res value :=
  let analysis_data := analysis_data_init w username in
  let profile_data := _analyze_target_profile w username in
  if negb (truthy profile_data) then Ret VNone
  else
    let analysis_data := assoc_set "profile_analysis" profile_data analysis_data in
    private <- dict_get profile_data "is_private" (VBool true) ;;
    if negb (truthy private) then
      let network_data := _analyze_network w username depth in
      let analysis_data := assoc_set "network_analysis" network_data analysis_data in
      footprint_data <- _analyze_digital_footprint w profile_data ;;
      let analysis_data := assoc_set "digital_footprint" footprint_data analysis_data in
      security_data <- _security_analysis (unicode_word w) profile_data ;;
      let analysis_data := assoc_set "security_analysis" security_data analysis_data in
      let timeline_data := _timeline_analysis w username in
      let analysis_data := assoc_set "timeline_analysis" timeline_data analysis_data in
      let behavioral_data := _behavioral_analysis w username in
      let analysis_data := assoc_set "behavioral_analysis" behavioral_data analysis_data in
      Ret (VDict analysis_data)
    else
      Ret (VDict analysis_data).

End A.

(* ================================================================== *)
(** * The expansions, the probes and the rendered verdict

    The functions that [World] answers for as a whole, written out
    over the requests they make, and the part of
    [_generate_html_report] that chooses the risk level. *)

(** [set(followers) & set(followees)] as [_analyze_network] lists it. *)
Definition mutual_of (followers_sample followees_sample : list string) : list string :=
  filter (fun x => mem x followees_sample) (distinct followers_sample).

(** The answer to the [i]-th expansion, of the name given: the fetch
    of its profile raises, or the iteration over its followers (its
    followees) runs. *)
Definition expansion : Type := nat -> string -> Outcome (run string).

(** ** [_analyze_second_degree_connections] *)

(** The loop over [followers[:5]]; the first exception ends it and
    keeps the entries made so far. *)
Fixpoint second_degree_loop (expand : expansion) (i : nat) (names : list string)
    (second_degree : dict) : dict :=
  match names with
  | [] => second_degree
  | follower :: rest =>
      match expand i follower with
      | Raised e => second_degree
      | Ok r =>
          match fetch_loop 10 0 (yielded r) (finish r) [] with
          | (second_followers, None) =>
              second_degree_loop expand (S i) rest
                (assoc_set (KStr follower) (strs second_followers) second_degree)
          | (_, Some e) => second_degree
          end
      end
  end.

Definition NO_DATA : value := VDict [ (KStr "status", VStr "no_data") ].

Definition _analyze_second_degree_connections (expand : expansion)
    (followers_sample : list string) : value :=
  match second_degree_loop expand 0 (firstn 5 followers_sample) [] with
  | [] => NO_DATA
  | second_degree => VDict second_degree
  end.

(** ** [_analyze_common_followed] *)






(** ** [_check_platform] and [_check_cross_platform_presence] *)

Definition platform_urls (username : string) : list (string * string) :=
  [ ("twitter", "https://twitter.com/" ++ username);
    ("linkedin", "https://www.linkedin.com/in/" ++ username);
    ("tiktok", "https://www.tiktok.com/@" ++ username);
    ("facebook", "https://www.facebook.com/" ++ username) ].

(** [head url] is the status of [session.head(url)], or the exception
    it raises. *)
Definition _check_platform (head : string -> Outcome Z) (platform url : string) : value :=
  match head url with
  | Ok status =>
      if status =? 200
      then VDict [ (KStr "status", VStr "found"); (KStr "url", VStr url) ]
      else VDict [ (KStr "status", VStr "not_found") ]
  | Raised e =>
      VDict [ (KStr "status", VStr "error"); (KStr "error", VStr (exn_str e)) ]
  end.

Definition _check_cross_platform_presence (head : string -> Outcome Z)
    (username : string) (emails : list string) : value :=
  let presence :=
    fold_left
      (fun d '(platform, url) =>
         assoc_set (KStr platform) (_check_platform head platform url) d)
      (platform_urls username) [] in
  match presence with
  | [] => VDict [ (KStr "status", VStr "no_presence_detected") ]
  | _ => VDict presence
  end.

(** ** [_analyze_external_url] and [_scrape_external_url] *)

(** What [session.get(url)] gives: the status, the headers, the urls of
    the redirects, and the text, whose decoding can raise. *)
Record response : Type := {
  status : Z;
  headers : dict;
  history : list string;
  body : Outcome string
}.

(** ["word" in text] *)
Definition contains (s word : string) : bool :=
  match String.index 0 word s with
  | Some _ => true
  | None => false
  end.

Definition tech_indicators : list (string * string) :=
  [ ("wordpress", "wp-content");
    ("shopify", "shopify");
    ("wix", "wix.com");
    ("squarespace", "squarespace");
    ("google_analytics", "google-analytics");
    ("facebook_pixel", "facebook.net") ].

Definition external_url_init (url : string) : dict :=
  [ (KStr "url", VStr url);
    (KStr "domain", VStr EmptyString);
    (KStr "status_code", VNone);
    (KStr "redirect_chain", VList []);
    (KStr "headers", VDict []);
    (KStr "technologies", VList []) ].

(** [netloc] is [urlparse(url).netloc], [lower] is [str.lower]; what
    was stored before an exception stays in the result. *)
Definition _analyze_external_url (netloc : string -> Outcome string)
    (lower : string -> string) (get : string -> Outcome response) (url : string)
  : value :=
  let analysis := external_url_init url in
  match netloc url with
  | Raised e => VDict (assoc_set "error" (VStr (exn_str e)) analysis)
  | Ok domain =>
      let analysis := assoc_set "domain" (VStr domain) analysis in
      match get url with
      | Raised e => VDict (assoc_set "error" (VStr (exn_str e)) analysis)
      | Ok r =>
          let analysis := assoc_set "status_code" (VInt (status r)) analysis in
          let analysis := assoc_set "headers" (VDict (headers r)) analysis in
          let analysis :=
            match history r with
            | [] => analysis
            | _ => assoc_set "redirect_chain" (strs (history r)) analysis
            end in
          match body r with
          | Raised e => VDict (assoc_set "error" (VStr (exn_str e)) analysis)
          | Ok content =>
              let content := lower content in
              let found :=
                map fst (filter (fun '(tech, mark) => contains content mark)
                           tech_indicators) in
              VDict (assoc_set "technologies"
                       (strs (or_default found "none_detected")) analysis)
          end
      end
  end.

(** What the parser gives for a page: [soup.get_text(strip=True)] and
    the [href] of every link. *)
Record page : Type := {
  page_text : string;
  hrefs : list string
}.

Definition social_platforms : list string :=
  [ "twitter.com"; "linkedin.com"; "facebook.com"; "tiktok.com" ].

Definition is_social (link : string) : bool :=
  existsb (fun platform => contains link platform) social_platforms.

Definition scraping_init : dict :=
  [ (KStr "content", VStr "N/A");
    (KStr "links", VList []);
    (KStr "social_media_links", VList []) ].

(** [fetch url] is the status of [session.get(url)] with the parsed
    page (read only when the status is 200), or the exception. *)
Definition _scrape_external_url (fetch : string -> Outcome (Z * Outcome page))
    (url : string) : value :=
  match fetch url with
  | Raised e => VDict (assoc_set "error" (VStr (exn_str e)) scraping_init)
  | Ok (code, parsed) =>
      if code =? 200 then
        match parsed with
        | Raised e => VDict (assoc_set "error" (VStr (exn_str e)) scraping_init)
        | Ok pg =>
            let links := hrefs pg in
            VDict [ (KStr "content", VStr (text (firstn 1000 (chars (page_text pg)))));
                    (KStr "links", strs (or_default (firstn 50 links) "no_links_detected"));
                    (KStr "social_media_links",
                      strs (or_default (filter is_social links)
                              "no_social_links_detected")) ]
        end
      else VDict scraping_init
  end.

(** ** The risk level of [_generate_html_report] *)

(** [x < n] for a number [x]. *)
Definition lt_value (v : value) (n : Z) : Res bool :=
  match v with
  | VInt x => Ret (x <? n)
  | VFloat q => Ret (Qltb q (inject_Z n))
  | VBool b => Ret ((if b then 1 else 0) <? n)
  | _ => Exc TypeError
  end.

(** [data.get('security_analysis', {}).get('privacy_score', 100)] *)
Definition shown_privacy_score (data : value) (default : value) : Res value :=
  security <- dict_get data "security_analysis" (VDict []) ;;
  dict_get security "privacy_score" default.

(** ['high' if score < 30 else 'medium' if score < 70 else 'low'] *)
Definition risk_class (data : value) : Res string :=
  score <- shown_privacy_score data (VInt 100) ;;
  high <- lt_value score 30 ;;
  if (high : bool) then Ret "high"
  else
    score' <- shown_privacy_score data (VInt 100) ;;
    medium <- lt_value score' 70 ;;
    if (medium : bool) then Ret "medium" else Ret "low".

(* ================================================================== *)
(** * Vocabulary of the statements *)

(** The number stored under a key. *)
Definition score (k : string) (v : value) : option Q :=
  match lookup k v with
  | Some x => num x
  | None => None
  end.

Definition in_0_100 (o : option Q) : Prop :=
  exists q, o = Some q /\ (0 <= q <= 100)%Q.

(** The conditions of the four rules of [_detect_suspicious_patterns]:
    many followers and few posts; a follower/followee ratio above 100;
    a ratio below 0.1; a profile completion below 50. *)
Definition rule_high_followers (profile : Profile) : bool :=
  (10000 <? followers profile) && (mediacount profile <? 10).

Definition rule_ratio_high (profile : Profile) : bool :=
  (0 <? followees profile) &&
  Qltb 100 (true_div (followers profile) (followees profile)).

Definition rule_ratio_low (profile : Profile) : bool :=
  (0 <? followees profile) &&
  Qltb (true_div (followers profile) (followees profile)) (1 # 10).

Definition rule_low_completion (profile : Profile) : bool :=
  Qltb (completion_score profile) 50.

(** The fourth rule on the profile itself rather than on the stored
    metric: the completion is 25 for each of a full name, a biography,
    a picture and a post, and the rule fires below 50, that is with
    fewer than two of the four. *)
Definition fields_present (profile : Profile) : list bool :=
  [ str_truthy (full_name profile);
    str_truthy (biography profile);
    str_truthy (profile_pic_url profile);
    0 <? mediacount profile ].

Definition completion_of_fields (profile : Profile) : Z :=
  25 * Z.of_nat (List.length (filter (fun b : bool => b) (fields_present profile))).

Definition rule_incomplete (profile : Profile) : bool :=
  completion_of_fields profile <? 50.

(** The consistency score in the words of its rule: the whole days
    between each date and the next one of the list, their mean (the sum
    over the number) and their variance (the mean of the squared
    distances to the mean). *)
Definition days_between (dates : list Z) : list Z :=
  map (fun '(a, b) => (a - b) / 86400) (combine dates (tl dates)).

Definition interval_mean (l : list Z) : Q :=
  (inject_Z (fold_right Z.add 0%Z l) / inject_Z (Z.of_nat (List.length l)))%Q.

Definition interval_variance (l : list Z) : Q :=
  (fold_right Qplus 0
     (map (fun x => (inject_Z x - interval_mean l) * (inject_Z x - interval_mean l)) l)
   / inject_Z (Z.of_nat (List.length l)))%Q.

(** What the gate of [comprehensive_analysis] leaves untouched. *)
Definition sections_empty (report : value) : Prop :=
  lookup "network_analysis" report = Some (VDict []) /\
  lookup "digital_footprint" report = Some (VDict []) /\
  lookup "security_analysis" report = Some (VDict []) /\
  lookup "timeline_analysis" report = Some (VDict []) /\
  lookup "behavioral_analysis" report = Some (VDict []).

(** The privacy score of a fetched profile as one expression: the
    penalties of [_security_analysis] on the texts that
    [_analyze_target_profile] stores. *)
Definition privacy_formula (uw : uchar -> bool) (p : Profile) : Z :=
  let bio := or_NA (biography p) in
  100
  - (if is_private p then 0 else 30)
  - (if String.eqb (opt_or_NA (external_url p)) "N/A" then 0 else 10)
  - (if 100 <? py_len bio then 5 else 0)
  - (if re_search uw email_pattern bio then 20 else 0)
  - (if re_search uw phone_pattern bio then 25 else 0).

(** What a run stored under a key, when it returned a dictionary. *)
Definition stored (k : string) (r : Res value) : option value :=
  match r with
  | Ret v => lookup k v
  | _ => None
  end.

Definition stored_score (k : string) (r : Res value) : option Q :=
  match stored k r with
  | Some v => num v
  | None => None
  end.

(** An iteration that raises the throttling exception before it yields
    anything. *)
Definition throttled_at_once (r : run string) : Prop :=
  yielded r = [] /\ exists msg, finish r = Raises (TooManyRequestsException msg).


(** ** Vocabulary of the further properties *)



(** The penalty that goes with a risk label of [_security_analysis]. *)
Definition penalty_of (label : string) : Z :=
  if String.eqb label RISK_PUBLIC then 30
  else if String.eqb label RISK_EXTERNAL_LINK then 10
  else if String.eqb label RISK_DETAILED_BIO then 5
  else if String.eqb label RISK_EMAIL then 20
  else if String.eqb label RISK_PHONE then 25
  else 0.

(** The first [n] characters are ASCII digits. *)
Fixpoint digit_run (n : nat) (l : list uchar) : bool :=
  match n with
  | O => true
  | S m => match l with
           | x :: t => in_class is_digit x && digit_run m t
           | [] => false
           end
  end.

(** Somewhere, [n] ASCII digits follow each other. *)
Fixpoint has_digit_run (n : nat) (l : list uchar) : bool :=
  digit_run n l ||
  match l with
  | _ :: t => has_digit_run n t
  | [] => false
  end.

Definition is_some {A : Type} (o : option A) : bool :=
  match o with
  | Some _ => true
  | None => false
  end.

(** The number of posts with a property. *)
Definition count_posts (f : Post -> bool) (posts : list Post) : Z :=
  Z.of_nat (List.length (filter f posts)).

(** The entry of a counter for a key counted [n] times: none for a key
    never counted. *)
Definition entry (n : Z) : option value :=
  if n =? 0 then None else Some (VInt n).

(** An iteration that raises before it has yielded more than [limit]
    names. *)
Definition fails_within (limit : nat) (r : run string) : Prop :=
  (List.length (yielded r) <= limit)%nat /\ exists e, finish r = Raises e.

(* ================================================================== *)
(** * Sample inputs *)

Definition profile_with (private verified : bool) (bio : string)
    (url : option string) (n_followers n_followees n_posts : Z) : Profile :=
  {| username := "target";
     userid := 4242;
     full_name := "Deniz Kaya";
     biography := bio;
     followers := n_followers;
     followees := n_followees;
     mediacount := n_posts;
     is_private := private;
     is_verified := verified;
     is_business_account := false;
     business_category_name := None;
     external_url := url;
     profile_pic_url := "https://cdn.example/pic.jpg" |}.

(** Thirty characters, no address, no number. *)
Definition bio30 : string := "Istanbul based photo hobbyist.".

Definition private_profile : Profile :=
  profile_with true false bio30 None 120 80 14.

Definition public_profile : Profile :=
  profile_with false false bio30 None 20000 50 5.

Definition no_run {A : Type} : run A := {| yielded := []; finish := Exhausted |}.

(** A post of which only the date matters. *)
Definition post_at (t : Z) : Post :=
  {| date_utc := t;
     caption := None;
     is_video := false;
     post_mediacount := None;
     caption_hashtags := [];
     tagged_users := [];
     location := None |}.

(** Four posts, newest first, one, three and one days apart. *)
Definition four_posts : list Post :=
  map post_at [1704067200; 1703980800; 1703721600; 1703635200].

(** Two posts, the older one first. *)
Definition two_posts_ascending : list Post :=
  map post_at [1703635200; 1704067200].

(** Two posts two hours apart, the newer one first. *)
Definition two_posts_same_day : list Post :=
  map post_at [1704067200; 1704060000].

Definition lonely_profile : Profile :=
  profile_with false true bio30 (Some "https://example.org") 0 0 7.

Definition quiet_profile : Profile :=
  profile_with false false bio30 None 100 100 12.


(** A world in which the first profile fetch answers [primary], every
    later one [later], and the follower and followee iterators behave
    as [runs]. *)
Definition world_with (primary later : Outcome Profile) (runs : nat -> run string)
  : World :=
  {| unicode_word := fun _ => false;
     str_lower := fun s => s;
     now_iso := "2024-01-01T00:00:00";
     now := 1704067200;
     from_username := fun st _ => match st with Primary => primary | _ => later end;
     get_posts := fun _ => no_run;
     get_followers := runs;
     get_followees := runs;
     second_degree_connections := fun _ => VDict [ (KStr "status", VStr "no_data") ];
     common_followed := fun _ => VDict [ (KStr "status", VStr "no_data") ];
     external_url_analysis := fun _ => VDict [];
     domain_analysis := fun _ => VDict [];
     web_scraping := fun _ => VDict [];
     cross_platform_presence := fun _ => VDict [] |}.

Definition connection_lost : lib_exn := LibraryError "connection lost".

Definition private_world : World :=
  world_with (Ok private_profile) (Ok private_profile) (fun _ => no_run).

(** The target is public and every source after the first fetch is
    down. *)
Definition sources_down_world : World :=
  world_with (Ok public_profile) (Raised connection_lost) (fun _ => no_run).


(** ** Inputs of the further properties *)

Definition three_names : list string := ["ayse"; "mehmet"; "zeynep"].

Definition listing_world : World :=
  world_with (Ok public_profile) (Ok public_profile)
    (fun _ => {| yielded := three_names; finish := Exhausted |}).

(** The first iteration yields two names and is throttled, the second
    one yields a third name and ends. *)
Definition throttled_once_world : World :=
  world_with (Ok public_profile) (Ok public_profile)
    (fun k => match k with
              | O => {| yielded := ["ayse"; "mehmet"];
                        finish := Raises (TooManyRequestsException "429") |}
              | _ => {| yielded := ["zeynep"]; finish := Exhausted |}
              end).

(** The world of a public account whose followers and followees are
    listed as [fr] and [er]. *)
Definition world_listing (fr er : nat -> run string) : World :=
  {| unicode_word := unicode_word listing_world;
     str_lower := str_lower listing_world;
     now_iso := now_iso listing_world;
     now := now listing_world;
     from_username := from_username listing_world;
     get_posts := get_posts listing_world;
     get_followers := fr;
     get_followees := er;
     second_degree_connections := second_degree_connections listing_world;
     common_followed := common_followed listing_world;
     external_url_analysis := external_url_analysis listing_world;
     domain_analysis := domain_analysis listing_world;
     web_scraping := web_scraping listing_world;
     cross_platform_presence := cross_platform_presence listing_world |}.

(** The iteration over the followers yields two names and then loses
    the connection; the followees are listed in full. *)
Definition broken_listing_world : World :=
  world_listing
    (fun _ => {| yielded := ["ayse"; "mehmet"]; finish := Raises connection_lost |})
    (fun _ => {| yielded := three_names; finish := Exhausted |}).

(** Every expansion lists the three names, except the second one,
    whose profile cannot be fetched. *)
Definition second_fails : expansion :=
  fun i _ =>
    match i with
    | 1%nat => Raised connection_lost
    | _ => Ok {| yielded := three_names; finish := Exhausted |}
    end.

(** The world of a public account whose posts are the four posts. *)
Definition posting_world : World :=
  {| unicode_word := unicode_word listing_world;
     str_lower := str_lower listing_world;
     now_iso := now_iso listing_world;
     now := now listing_world;
     from_username := from_username listing_world;
     get_posts := fun _ => {| yielded := four_posts; finish := Exhausted |};
     get_followers := get_followers listing_world;
     get_followees := get_followees listing_world;
     second_degree_connections := second_degree_connections listing_world;
     common_followed := common_followed listing_world;
     external_url_analysis := external_url_analysis listing_world;
     domain_analysis := domain_analysis listing_world;
     web_scraping := web_scraping listing_world;
     cross_platform_presence := cross_platform_presence listing_world |}.

(** A page with sixty links, the last of them to a social platform. *)
Definition sixty_links : page :=
  {| page_text := "Welcome";
     hrefs := (repeat "https://example.org/a" 59 ++ ["https://twitter.com/target"])%list |}.

Definition serve_sixty_links (url : string) : Outcome (Z * Outcome page) :=
  Ok (200, Ok sixty_links).

(* ================================================================== *)
(** * Properties *)

(** ** Comparisons and bounds on the rationals *)

Lemma Qltb_lt (a b : Q) : Qltb a b = true <-> (a < b)%Q.
Proof.
  unfold Qltb. rewrite negb_true_iff. split; intro H.
  - apply Qnot_le_lt. intro L. apply Qle_bool_iff in L. congruence.
  - destruct (Qle_bool b a) eqn:E; [|reflexivity].
    apply Qle_bool_iff in E. exfalso. apply (Qlt_not_le _ _ H E).
Qed.

Lemma Qltb_ge (a b : Q) : Qltb a b = false <-> (b <= a)%Q.
Proof.
  unfold Qltb. rewrite negb_false_iff. apply Qle_bool_iff.
Qed.

Lemma py_min_Qmin (a b : Q) : (py_min a b == Qmin a b)%Q.
Proof.
  unfold py_min. destruct (Qltb b a) eqn:E.
  - apply Qltb_lt in E. symmetry. apply Q.min_r. apply Qlt_le_weak; assumption.
  - apply Qltb_ge in E. symmetry. apply Q.min_l. assumption.
Qed.

Lemma py_max_Qmax (a b : Q) : (py_max a b == Qmax a b)%Q.
Proof.
  unfold py_max. destruct (Qltb a b) eqn:E.
  - apply Qltb_lt in E. symmetry. apply Q.max_r. apply Qlt_le_weak; assumption.
  - apply Qltb_ge in E. symmetry. apply Q.max_l. assumption.
Qed.

Lemma py_min_le_l (a b : Q) : (py_min a b <= a)%Q.
Proof. rewrite py_min_Qmin. apply Q.le_min_l. Qed.

Lemma py_min_lower (c a b : Q) : (c <= a)%Q -> (c <= b)%Q -> (c <= py_min a b)%Q.
Proof. intros. rewrite py_min_Qmin. apply Q.min_glb; assumption. Qed.

Lemma py_max_ge_l (a b : Q) : (a <= py_max a b)%Q.
Proof. rewrite py_max_Qmax. apply Q.le_max_l. Qed.

Lemma py_max_upper (c a b : Q) : (a <= c)%Q -> (b <= c)%Q -> (py_max a b <= c)%Q.
Proof. intros. rewrite py_max_Qmax. apply Q.max_lub; assumption. Qed.

Lemma inject_Z_pos (y : Z) : 0 < y -> (0 < inject_Z y)%Q.
Proof. intro H. change 0%Q with (inject_Z 0). rewrite <- Zlt_Qlt. assumption. Qed.

Lemma inject_Z_nonneg (y : Z) : 0 <= y -> (0 <= inject_Z y)%Q.
Proof. intro H. change 0%Q with (inject_Z 0). rewrite <- Zle_Qle. assumption. Qed.

Lemma true_div_nonneg (x y : Z) : 0 <= x -> 0 < y -> (0 <= true_div x y)%Q.
Proof.
  intros Hx Hy. unfold true_div. apply Qle_shift_div_l.
  - apply inject_Z_pos; assumption.
  - rewrite Qmult_0_l. apply inject_Z_nonneg; assumption.
Qed.

(** ** The metrics, case by case *)

Lemma metrics_without_followers (p : Profile) :
  followers p <= 0 -> _calculate_advanced_metrics p = VDict metrics_init.
Proof.
  intro H. unfold _calculate_advanced_metrics.
  replace (0 <? followers p) with false by (symmetry; apply Z.ltb_ge; assumption).
  reflexivity.
Qed.

Lemma metrics_with_followers (p : Profile) :
  0 < followers p ->
  _calculate_advanced_metrics p =
  VDict [ (KStr "engagement_potential",
            VFloat (py_min 100 (true_div (mediacount p) (followers p) * 1000)));
          (KStr "influence_score",
            VFloat (if 0 <? followees p
                    then py_min 100 (true_div (followers p) (followees p) * 10)
                    else 100%Q));
          (KStr "authenticity_score", VFloat (py_min 100 (auth_score p)));
          (KStr "activity_pattern", VStr "unknown");
          (KStr "profile_completion", VInt (completion p)) ].
Proof.
  intro H. unfold _calculate_advanced_metrics.
  replace (0 <? followers p) with true by (symmetry; apply Z.ltb_lt; assumption).
  destruct (0 <? followees p); reflexivity.
Qed.

Lemma auth_score_bounds (p : Profile) : (50 <= auth_score p <= 100)%Q.
Proof.
  unfold auth_score.
  destruct (is_verified p), (str_truthy (biography p) && (20 <? py_len (biography p))),
    (opt_truthy (external_url p)), (1000 <? followers p); split; lra.
Qed.

Lemma completion_bounds (p : Profile) : 0 <= completion p <= 100.
Proof.
  unfold completion, Zsum.
  destruct (str_truthy (full_name p)), (str_truthy (biography p)),
    (str_truthy (profile_pic_url p)), (0 <? mediacount p); cbn; lia.
Qed.

(** ** The gate of [comprehensive_analysis] *)

(** The profile data has no key [is_private] of its own (the flag is
    inside [basic_info]), so the gate reads the default. *)
Lemma gate_reads_default (w : World) (username : string) (p : Profile) :
  dict_get (profile_data_of w username p) "is_private" (VBool true) = Ret (VBool true).
Proof. reflexivity. Qed.

Lemma report_of_fetched (fuel : nat) (w : World) (username : string) (depth : Z)
    (save_report : bool) (p : Profile) :
  from_username w Primary username = Ok p ->
  comprehensive_analysis fuel w username depth save_report =
  Ret (VDict (assoc_set "profile_analysis" (profile_data_of w username p)
                (analysis_data_init w username))).
Proof.
  intro H. unfold comprehensive_analysis, _analyze_target_profile.
  rewrite H. cbn [profile_data_of truthy negb].
  change (dict_get _ "is_private" (VBool true))
    with (dict_get (profile_data_of w username p) "is_private" (VBool true)).
  rewrite gate_reads_default. reflexivity.
Qed.

Lemma sections_of_fetched (w : World) (username : string) (pd : value) :
  sections_empty (VDict (assoc_set "profile_analysis" pd (analysis_data_init w username))).
Proof. repeat split. Qed.

(** The report is [None] exactly when the first profile fetch raises. *)
Lemma no_report_iff_primary_fails (fuel : nat) (w : World) (username : string)
    (depth : Z) (save_report : bool) :
  comprehensive_analysis fuel w username depth save_report = Ret VNone <->
  exists e, from_username w Primary username = Raised e.
Proof.
  split.
  - intro H. destruct (from_username w Primary username) as [p|e] eqn:E.
    + rewrite (report_of_fetched fuel w username depth save_report p E) in H.
      discriminate H.
    + exists e. reflexivity.
  - intros [e E]. unfold comprehensive_analysis, _analyze_target_profile.
    rewrite E. reflexivity.
Qed.

(** Whatever the fetched profile says, no branch is run: the five
    sections keep their initial value. *)
Lemma branches_never_run (fuel : nat) (w : World) (username : string) (depth : Z)
    (save_report : bool) (p : Profile) :
  from_username w Primary username = Ok p ->
  exists report,
    comprehensive_analysis fuel w username depth save_report = Ret report /\
    sections_empty report /\
    lookup "profile_analysis" report = Some (profile_data_of w username p).
Proof.
  intro H. eexists. split; [apply report_of_fetched; exact H|].
  split; [apply sections_of_fetched | reflexivity].
Qed.

(** C1: when the first fetch succeeds and the account is private, the
    report's network, footprint, security, timeline and behavioral
    sections are the empty dictionaries they started as, and
    [profile_analysis] holds the data of the fetched profile: its basic
    information, and the private-account marker for the content. *)
Theorem C1_private_report (fuel : nat) (w : World) (username : string) (depth : Z)
    (save_report : bool) (p : Profile) :
  from_username w Primary username = Ok p ->
  is_private p = true ->
  exists report,
    comprehensive_analysis fuel w username depth save_report = Ret report /\
    sections_empty report /\
    lookup "profile_analysis" report = Some (profile_data_of w username p) /\
    lookup "basic_info" (profile_data_of w username p) = Some (basic_info p) /\
    lookup "is_private" (basic_info p) = Some (VBool true) /\
    lookup "content_analysis" (profile_data_of w username p) =
      Some (VDict [ (KStr "status", VStr "private_account");
                    (KStr "data_available", VBool false) ]).
Proof.
  intros Hfetch Hprivate.
  destruct (branches_never_run fuel w username depth save_report p Hfetch)
    as (report & Hrun & Hsec & Hprof).
  exists report. repeat (split; [assumption|]).
  split; [reflexivity|]. split.
  - cbn. rewrite Hprivate. reflexivity.
  - cbn. unfold _analyze_profile_content. rewrite Hprivate. reflexivity.
Qed.

Lemma C1_private_report_witness :
  exists report,
    comprehensive_analysis 1 private_world "target" 2 true = Ret report /\
    sections_empty report /\
    lookup "profile_analysis" report =
      Some (profile_data_of private_world "target" private_profile) /\
    lookup "basic_info" (profile_data_of private_world "target" private_profile) =
      Some (basic_info private_profile) /\
    lookup "is_private" (basic_info private_profile) = Some (VBool true) /\
    lookup "content_analysis" (profile_data_of private_world "target" private_profile) =
      Some (VDict [ (KStr "status", VStr "private_account");
                    (KStr "data_available", VBool false) ]).
Proof.
  apply (C1_private_report 1 private_world "target" 2 true private_profile);
    reflexivity.
Defined.

(** ** The branches at their boundary *)

(** Each branch that fetches the profile again turns a failed fetch
    into an [error] entry of its own dictionary. *)
Lemma network_failure_is_marked (fuel : nat) (w : World) (username : string)
    (depth : Z) (e : lib_exn) :
  from_username w Network username = Raised e ->
  exists d,
    _analyze_network fuel w username depth = Ret d /\
    lookup "error" d = Some (VStr (exn_str e)).
Proof.
  intro H. unfold _analyze_network. rewrite H. eexists. split; reflexivity.
Qed.

Lemma timeline_failure_is_marked (w : World) (username : string) (e : lib_exn) :
  from_username w Timeline username = Raised e ->
  lookup "error" (_timeline_analysis w username) = Some (VStr (exn_str e)).
Proof.
  intro H. unfold _timeline_analysis. rewrite H. reflexivity.
Qed.

Lemma behavioral_failure_is_marked (w : World) (username : string) (e : lib_exn) :
  from_username w Behavioral username = Raised e ->
  lookup "error" (_behavioral_analysis w username) = Some (VStr (exn_str e)).
Proof.
  intro H. unfold _behavioral_analysis. rewrite H. reflexivity.
Qed.

(** The same holds when the iteration over the posts raises. *)
Lemma timeline_posts_failure_is_marked (w : World) (username : string)
    (p : Profile) (e : lib_exn) :
  from_username w Timeline username = Ok p ->
  is_private p = false ->
  take_posts 200 (get_posts w Timeline) = Raised e ->
  lookup "error" (_timeline_analysis w username) = Some (VStr (exn_str e)).
Proof.
  intros H Hp Ht. unfold _timeline_analysis. rewrite H, Hp, Ht. reflexivity.
Qed.

(** C8, at a public account whose sources are down after the first
    fetch: run on its own, the network branch returns its dictionary
    with the [error] entry, and so do the timeline and behavioral
    branches; the report of [comprehensive_analysis] holds none of
    them: its five sections are empty dictionaries without an [error]
    entry. *)
Theorem C8_public_report_has_no_branch_results :
  is_private public_profile = false /\
  (exists d, _analyze_network 1 sources_down_world "target" 2 = Ret d /\
             lookup "error" d = Some (VStr "connection lost")) /\
  lookup "error" (_timeline_analysis sources_down_world "target")
    = Some (VStr "connection lost") /\
  lookup "error" (_behavioral_analysis sources_down_world "target")
    = Some (VStr "connection lost") /\
  exists report,
    comprehensive_analysis 1 sources_down_world "target" 2 true = Ret report /\
    sections_empty report /\
    lookup "network_analysis" report = Some (VDict []).
Proof.
  split; [reflexivity|].
  split; [eexists; split; reflexivity|].
  split; [reflexivity|]. split; [reflexivity|].
  eexists. split; [reflexivity|].
  split; [repeat split | reflexivity].
Qed.

(** ** The retry of the fetch *)




(** When the iterations before the [n]-th are throttled at once and
    the [n]-th one is not ended by the throttling exception, the fetch
    returns what that iteration gives, after [n + 1] attempts and [n]
    waits of 60. *)
Lemma fetch_retry_returns (runs : nat -> run string) (n : nat) (limit : Z)
    (got : list string) (raised : option lib_exn) :
  (forall j, (j < n)%nat -> throttled_at_once (runs j)) ->
  fetch_loop limit 0 (yielded (runs n)) (finish (runs n)) [] = (got, raised) ->
  (forall e, raised = Some e -> is_throttle e = false) ->
  forall fuel, (n < fuel)%nat ->
  exists tr,
    fetch_retry fuel runs 0 limit =
      (tr, match raised with None => Ret got | Some e => Exc (Library e) end) /\
    attempts tr = S n /\ backoffs tr = n.
Proof.
  intros Hbefore Hloop Hraised.
  assert (G : forall m k fuel, (k + m = n)%nat -> (m < fuel)%nat ->
            exists tr,
              fetch_retry fuel runs k limit =
                (tr, match raised with None => Ret got | Some e => Exc (Library e) end) /\
              attempts tr = S m /\ backoffs tr = m).
  { induction m as [|m IH]; intros k fuel Hk Hfuel.
    - destruct fuel as [|fuel]; [lia|].
      replace k with n by lia.
      cbn [fetch_retry]. rewrite Hloop.
      assert (Hpace : forall c, attempts (Attempt :: repeat Pace c) = 1%nat /\
                                backoffs (Attempt :: repeat Pace c) = 0%nat).
      { intro c. unfold attempts, backoffs. cbn.
        induction c as [|c IHc]; [split; reflexivity|]. cbn. exact IHc. }
      destruct raised as [e|].
      + pose proof (Hraised e eq_refl) as He.
        destruct e; [discriminate He|].
        eexists; split; [reflexivity | apply Hpace].
      + eexists; split; [reflexivity | apply Hpace].
    - destruct fuel as [|fuel]; [lia|].
      cbn [fetch_retry].
      destruct (Hbefore k ltac:(lia)) as (Hy & msg & Hf). rewrite Hy, Hf.
      cbn [fetch_loop List.length repeat].
      replace (limit - Z.of_nat 0) with limit by (cbn; lia).
      destruct (IH (S k) fuel ltac:(lia) ltac:(lia)) as (tr & Htr & Ha & Hb).
      rewrite Htr. eexists. split; [reflexivity|].
      unfold attempts, backoffs in *. cbn. rewrite Ha, Hb. split; reflexivity. }
  intros fuel Hfuel. apply (G n 0%nat fuel); lia.
Qed.




(** ** The privacy score *)

Lemma or_NA_not_empty (s : string) : String.eqb (or_NA s) EmptyString = false.
Proof.
  unfold or_NA. destruct (String.eqb s EmptyString) eqn:E; [reflexivity | exact E].
Qed.

Lemma py_len_empty : py_len EmptyString = 0.
Proof. reflexivity. Qed.

Lemma or_NA_of_text (s : string) : py_len s <> 0 -> or_NA s = s.
Proof.
  intro H. unfold or_NA. destruct (String.eqb s EmptyString) eqn:E; [|reflexivity].
  apply String.eqb_eq in E. subst s. exfalso. apply H. reflexivity.
Qed.

(** On the basic information of a fetched profile the score is
    [privacy_formula]. *)
Lemma privacy_raw_of_profile (uw : uchar -> bool) (p : Profile) :
  exists risks, privacy_raw uw (basic_info p) = Ret (privacy_formula uw p, risks).
Proof.
  unfold privacy_raw, privacy_formula.
  change (dict_get (basic_info p) "is_private" (VBool true))
    with (Ret (VBool (is_private p))).
  change (dict_get (basic_info p) "external_url" VNone)
    with (Ret (VStr (opt_or_NA (external_url p)))).
  change (dict_get (basic_info p) "biography" (VStr EmptyString))
    with (Ret (VStr (or_NA (biography p)))).
  cbn [bind truthy is_str len_value search_value].
  rewrite or_NA_not_empty. cbn [negb bind].
  destruct (is_private p), (String.eqb (opt_or_NA (external_url p)) "N/A"),
    (100 <? py_len (or_NA (biography p))),
    (re_search uw email_pattern (or_NA (biography p))),
    (re_search uw phone_pattern (or_NA (biography p)));
    cbn; eexists; reflexivity.
Qed.

(** Whatever dictionary it is given, a score that is returned lies
    between 10 and 100. *)
Lemma privacy_raw_bounds (uw : uchar -> bool) (info : value) (z : Z)
    (risks : list string) :
  privacy_raw uw info = Ret (z, risks) -> 10 <= z <= 100.
Proof.
  unfold privacy_raw, bind. intro H.
  repeat first
    [ match type of H with
      | context [if ?c then _ else _] => destruct c; try discriminate H
      end
    | match type of H with
      | context [match ?x with _ => _ end] => destruct x; try discriminate H
      end ];
    injection H as <- _; lia.
Qed.

Lemma security_of_profile_data (uw : uchar -> bool) (pd : value) (p : Profile) :
  getitem pd "basic_info" = Ret (basic_info p) ->
  exists sec,
    _security_analysis uw pd = Ret sec /\
    lookup "privacy_score" sec = Some (VInt (Z.max 0 (privacy_formula uw p))).
Proof.
  intro H. unfold _security_analysis. rewrite H. cbn [bind].
  destruct (privacy_raw_of_profile uw p) as [risks Hr]. rewrite Hr. cbn [bind].
  eexists. split; reflexivity.
Qed.

Lemma privacy_formula_bounds (uw : uchar -> bool) (p : Profile) :
  10 <= privacy_formula uw p <= 100.
Proof.
  destruct (privacy_raw_of_profile uw p) as [risks Hr].
  exact (privacy_raw_bounds _ _ _ _ Hr).
Qed.

(** C5, as the code has it: a public account without an external link
    whose biography has 30 characters and holds neither an address nor
    a number gets the privacy score 70: only the penalty of 30 for a
    public account applies, the penalty of 5 being for biographies of
    more than 100 characters. *)
Theorem C5_privacy_score_is_70 (uw : uchar -> bool) (pd : value) (p : Profile) :
  getitem pd "basic_info" = Ret (basic_info p) ->
  is_private p = false ->
  opt_truthy (external_url p) = false ->
  py_len (biography p) = 30 ->
  re_search uw email_pattern (biography p) = false ->
  re_search uw phone_pattern (biography p) = false ->
  exists sec,
    _security_analysis uw pd = Ret sec /\
    lookup "privacy_score" sec = Some (VInt 70).
Proof.
  intros Hpd Hpub Hurl Hlen Hmail Hphone.
  destruct (security_of_profile_data uw pd p Hpd) as (sec & Hsec & Hscore).
  exists sec. split; [exact Hsec|]. rewrite Hscore. do 2 f_equal.
  unfold privacy_formula.
  rewrite (or_NA_of_text (biography p)) by lia.
  rewrite Hpub, Hlen, Hmail, Hphone.
  assert (Hna : opt_or_NA (external_url p) = "N/A").
  { unfold opt_truthy, str_truthy in Hurl. unfold opt_or_NA, or_NA.
    destruct (external_url p) as [u|]; [|reflexivity].
    apply negb_false_iff in Hurl. rewrite Hurl. reflexivity. }
  rewrite Hna. reflexivity.
Qed.

Lemma C5_privacy_score_is_70_witness :
  exists sec,
    _security_analysis (fun _ => false)
      (profile_data_of sources_down_world "target" public_profile) = Ret sec /\
    lookup "privacy_score" sec = Some (VInt 70).
Proof.
  apply (C5_privacy_score_is_70 (fun _ => false)
           (profile_data_of sources_down_world "target" public_profile)
           public_profile); reflexivity.
Defined.

(** The account of the claim, evaluated: public, no link, a biography
    of 30 characters without address or number; the score is 70, not
    65. *)
Lemma C5_counterexample :
  is_private public_profile = false /\
  external_url public_profile = None /\
  py_len (biography public_profile) = 30 /\
  re_search (fun _ => false) email_pattern (biography public_profile) = false /\
  re_search (fun _ => false) phone_pattern (biography public_profile) = false /\
  stored "privacy_score"
    (_security_analysis (fun _ => false)
       (profile_data_of sources_down_world "target" public_profile))
    = Some (VInt 70) /\
  stored "privacy_score"
    (_security_analysis (fun _ => false)
       (profile_data_of sources_down_world "target" public_profile))
    <> Some (VInt 65).
Proof.
  repeat split. discriminate.
Qed.

(** C10: whenever the security analysis returns, the score it stores is
    the score before the final clamp, and it is at least 10 (and at
    most 100); on the data of a fetched profile it always returns. *)
Theorem C10_privacy_score_at_least_10 :
  (forall (uw : uchar -> bool) (pd sec : value),
     _security_analysis uw pd = Ret sec ->
     exists info raw risks,
       getitem pd "basic_info" = Ret info /\
       privacy_raw uw info = Ret (raw, risks) /\
       10 <= raw <= 100 /\
       Z.max 0 raw = raw /\
       lookup "privacy_score" sec = Some (VInt raw)) /\
  (forall (w : World) (username : string) (p : Profile),
     exists sec raw,
       _security_analysis (unicode_word w) (profile_data_of w username p) = Ret sec /\
       lookup "privacy_score" sec = Some (VInt raw) /\ 10 <= raw).
Proof.
  split.
  - intros uw pd sec H. unfold _security_analysis in H.
    destruct (getitem pd "basic_info") as [info|] eqn:Hinfo; try discriminate H.
    cbn [bind] in H.
    destruct (privacy_raw uw info) as [[raw risks]|] eqn:Hraw; try discriminate H.
    cbn [bind] in H. injection H as <-.
    pose proof (privacy_raw_bounds _ _ _ _ Hraw) as Hb.
    assert (Hm : Z.max 0 raw = raw) by lia.
    exists info, raw, risks. repeat split; try lia; try assumption.
    cbv zeta. rewrite Hm. reflexivity.
  - intros w username p.
    destruct (security_of_profile_data (unicode_word w)
                (profile_data_of w username p) p eq_refl) as (sec & Hsec & Hscore).
    pose proof (privacy_formula_bounds (unicode_word w) p) as Hb.
    exists sec, (privacy_formula (unicode_word w) p). split; [exact Hsec|].
    rewrite Hscore, Z.max_r by lia. split; [reflexivity | lia].
Qed.

Lemma C10_privacy_score_at_least_10_witness :
  exists info raw risks,
    getitem (profile_data_of sources_down_world "target" public_profile) "basic_info"
      = Ret info /\
    privacy_raw (fun _ => false) info = Ret (raw, risks) /\
    10 <= raw <= 100 /\
    Z.max 0 raw = raw /\
    lookup "privacy_score"
      (VDict [ (KStr "privacy_score", VInt 70);
               (KStr "exposure_risks", VList [VStr RISK_PUBLIC]);
               (KStr "recommendations", VList []);
               (KStr "threat_indicators", VList []) ]) = Some (VInt raw).
Proof.
  apply (proj1 C10_privacy_score_at_least_10 (fun _ => false)
           (profile_data_of sources_down_world "target" public_profile)).
  reflexivity.
Defined.

(** ** The scores of a profile *)

Lemma in_0_100_intro (q : Q) : (0 <= q)%Q -> (q <= 100)%Q -> in_0_100 (Some q).
Proof. intros H1 H2. exists q. split; [reflexivity | split; assumption]. Qed.

Lemma in_0_100_zero : in_0_100 (Some 0%Q).
Proof. apply in_0_100_intro; lra. Qed.

Lemma metrics_in_range (p : Profile) :
  0 <= mediacount p ->
  in_0_100 (score "engagement_potential" (_calculate_advanced_metrics p)) /\
  in_0_100 (score "influence_score" (_calculate_advanced_metrics p)) /\
  in_0_100 (score "authenticity_score" (_calculate_advanced_metrics p)) /\
  in_0_100 (score "profile_completion" (_calculate_advanced_metrics p)).
Proof.
  intro Hm. destruct (Z_lt_le_dec 0 (followers p)) as [Hf|Hf].
  - rewrite (metrics_with_followers p Hf). unfold score. cbn [lookup assoc_get key_eqb
      String.eqb Ascii.eqb Bool.eqb num].
    cbn. repeat split.
    + apply in_0_100_intro; [|apply py_min_le_l].
      apply py_min_lower; [lra|].
      pose proof (true_div_nonneg _ _ Hm Hf). nra.
    + destruct (0 <? followees p) eqn:He.
      * apply Z.ltb_lt in He. apply in_0_100_intro; [|apply py_min_le_l].
        apply py_min_lower; [lra|].
        pose proof (true_div_nonneg (followers p) (followees p) ltac:(lia) He). nra.
      * apply in_0_100_intro; lra.
    + pose proof (auth_score_bounds p) as [Ha Hb].
      apply in_0_100_intro; [|apply py_min_le_l].
      apply py_min_lower; lra.
    + pose proof (completion_bounds p) as [Ha Hb].
      apply in_0_100_intro.
      * apply inject_Z_nonneg; assumption.
      * change 100%Q with (inject_Z 100). rewrite <- Zle_Qle. assumption.
  - rewrite (metrics_without_followers p Hf). repeat split; apply in_0_100_zero.
Qed.

(** ** The consistency of the posting dates *)

Lemma fold_Qplus_nonneg (l : list Q) (a : Q) :
  (0 <= a)%Q -> (forall x, In x l -> (0 <= x)%Q) -> (0 <= fold_left Qplus l a)%Q.
Proof.
  revert a. induction l as [|x l IH]; intros a Ha Hl; [exact Ha|].
  cbn. apply IH.
  - pose proof (Hl x (or_introl eq_refl)). lra.
  - intros y Hy. apply Hl. right. exact Hy.
Qed.

Lemma Qdiv_nonneg (a b : Q) : (0 <= a)%Q -> (0 <= b)%Q -> (0 <= a / b)%Q.
Proof.
  intros Ha Hb. unfold Qdiv. apply Qmult_le_0_compat; [exact Ha|].
  apply Qinv_le_0_compat. exact Hb.
Qed.

Lemma variance_nonneg (l : list Z) : (0 <= variance l)%Q.
Proof.
  unfold variance. apply Qdiv_nonneg.
  - apply fold_Qplus_nonneg; [lra|].
    intros x Hx. apply in_map_iff in Hx. destruct Hx as (y & <- & _).
    apply Qsqr_nonneg.
  - apply inject_Z_nonneg. lia.
Qed.

Lemma variance_of_nonneg (l : list Z) : (0 <= variance_of l)%Q.
Proof.
  destruct l; [cbn; lra|]. apply variance_nonneg.
Qed.

Lemma consistency_of_bounds (ivs : list Z) : (0 <= consistency_of ivs <= 100)%Q.
Proof.
  unfold consistency_of. destruct (Qltb 0 (avg_interval_of ivs)) eqn:E.
  - apply Qltb_lt in E. split; [apply py_max_ge_l|].
    apply py_max_upper; [lra|].
    pose proof (Qdiv_nonneg _ _ (variance_of_nonneg ivs) (Qlt_le_weak _ _ E)). lra.
  - split; lra.
Qed.

(** Two dates or more leave an interval, so the guards [if intervals]
    of the source take their first branch. *)
Lemma intervals_of_many (dates : list Z) :
  (2 <= List.length dates)%nat ->
  avg_interval_of (intervals dates) = avg (intervals dates) /\
  variance_of (intervals dates) = variance (intervals dates).
Proof.
  destruct dates as [|a [|b r]]; cbn [List.length]; try lia.
  intros _. split; reflexivity.
Qed.

Lemma intervals_length (dates : list Z) :
  List.length (intervals dates) = pred (List.length dates).
Proof.
  induction dates as [|a [|b r] IH]; [reflexivity | reflexivity |].
  cbn [intervals List.length pred] in *. rewrite IH. reflexivity.
Qed.

Lemma intervals_nth (dates : list Z) (i : nat) :
  (S i < List.length dates)%nat ->
  nth i (intervals dates) 0 = (nth i dates 0 - nth (S i) dates 0) / SECONDS_PER_DAY.
Proof.
  revert i. induction dates as [|a [|b r] IH]; intros i Hi; cbn in Hi; try lia.
  destruct i as [|i]; [reflexivity|].
  cbn [intervals]. cbn [nth]. rewrite IH by (cbn; lia). reflexivity.
Qed.

Lemma patterns_few_posts (posts : list Post) :
  (List.length posts < 2)%nat ->
  lookup "consistency_score" (_analyze_posting_patterns posts) = Some (VFloat 0).
Proof.
  intro H. unfold _analyze_posting_patterns. rewrite length_map.
  replace (1 <? Z.of_nat (List.length posts)) with false
    by (symmetry; apply Z.ltb_ge; lia).
  reflexivity.
Qed.

Lemma patterns_many_posts (posts : list Post) :
  (2 <= List.length posts)%nat ->
  lookup "consistency_score" (_analyze_posting_patterns posts) =
  Some (VFloat (consistency_of (intervals (map date_utc posts)))).
Proof.
  intro H. unfold _analyze_posting_patterns. rewrite length_map.
  replace (1 <? Z.of_nat (List.length posts)) with true
    by (symmetry; apply Z.ltb_lt; lia).
  reflexivity.
Qed.

(** The intervals, the mean and the variance the code computes are
    those of the rule. *)
Lemma intervals_days_between (dates : list Z) : intervals dates = days_between dates.
Proof.
  unfold days_between. induction dates as [|a [|b r] IH]; [reflexivity | reflexivity |].
  cbn [intervals tl combine map] in *. rewrite IH. reflexivity.
Qed.

Lemma fold_left_Zadd (l : list Z) (a : Z) :
  fold_left Z.add l a = a + fold_right Z.add 0 l.
Proof.
  revert a. induction l as [|x l IH]; intro a; cbn; [lia|]. rewrite IH. lia.
Qed.

Lemma avg_interval_mean (l : list Z) : avg l = interval_mean l.
Proof.
  unfold avg, true_div, interval_mean, Zsum. rewrite fold_left_Zadd. reflexivity.
Qed.

Lemma fold_left_Qplus (l : list Q) (a : Q) :
  (fold_left Qplus l a == a + fold_right Qplus 0 l)%Q.
Proof.
  revert a. induction l as [|x l IH]; intro a; cbn; [lra|]. rewrite IH. lra.
Qed.

Lemma variance_interval_variance (l : list Z) : (variance l == interval_variance l)%Q.
Proof.
  unfold variance, interval_variance, Qsum. rewrite fold_left_Qplus, avg_interval_mean.
  rewrite Qplus_0_l. reflexivity.
Qed.

Lemma max_0_Qmax (x : Q) :
  exists q, num (A.max_0 x) = Some q /\ (q == Qmax 0 x)%Q.
Proof.
  unfold A.max_0. destruct (Qltb 0 x) eqn:E; eexists; (split; [reflexivity|]).
  - apply Qltb_lt in E. symmetry. apply Q.max_r. lra.
  - apply Qltb_ge in E. symmetry. change (inject_Z 0) with 0%Q. apply Q.max_l. exact E.
Qed.

(** C7, as the code has it: with fewer than two posts the consistency
    score is 0 in both files; with two or more it is
    [max(0, 100 - (variance / mean) * 10)] of the intervals when their
    mean is positive, in both files; and when the mean is not positive
    it is the neutral 50 in [arivaigosint.py], while [a.py], which has
    no such default, leaves the initial 0.  The intervals are the whole
    days between each post and the next one of the list. *)
Theorem C7_consistency_score (posts : list Post) :
  let ivs := days_between (map date_utc posts) in
  ((List.length posts < 2)%nat ->
     lookup "consistency_score" (_analyze_posting_patterns posts) = Some (VFloat 0) /\
     lookup "consistency_score" (A._analyze_posting_patterns posts) = Some (VInt 0)) /\
  ((2 <= List.length posts)%nat -> (0 < interval_mean ivs)%Q ->
     exists q q',
       lookup "consistency_score" (_analyze_posting_patterns posts) = Some (VFloat q) /\
       score "consistency_score" (A._analyze_posting_patterns posts) = Some q' /\
       (q == Qmax 0 (100 - (interval_variance ivs / interval_mean ivs) * 10))%Q /\
       (q' == q)%Q) /\
  ((2 <= List.length posts)%nat -> (interval_mean ivs <= 0)%Q ->
     lookup "consistency_score" (_analyze_posting_patterns posts) = Some (VFloat 50) /\
     lookup "consistency_score" (A._analyze_posting_patterns posts) = Some (VInt 0)).
Proof.
  cbv zeta. rewrite <- intervals_days_between, <- avg_interval_mean.
  split; [|split].
  - intro Hn. split; [apply patterns_few_posts; exact Hn|].
    unfold A._analyze_posting_patterns. rewrite length_map.
    replace (1 <? Z.of_nat (List.length posts)) with false
      by (symmetry; apply Z.ltb_ge; lia).
    reflexivity.
  - intros Hn Havg. rewrite (patterns_many_posts posts Hn).
    destruct (intervals_of_many (map date_utc posts)) as [Ha Hv];
      [rewrite length_map; exact Hn|].
    unfold A._analyze_posting_patterns, score. rewrite length_map.
    replace (1 <? Z.of_nat (List.length posts)) with true
      by (symmetry; apply Z.ltb_lt; lia).
    cbn [lookup assoc_get key_eqb String.eqb Ascii.eqb Bool.eqb].
    unfold consistency_of, A.consistency_of. rewrite Ha, Hv. cbv zeta.
    replace (Qltb 0 (avg (intervals (map date_utc posts)))) with true
      by (symmetry; apply Qltb_lt; exact Havg).
    destruct (max_0_Qmax (100 - variance (intervals (map date_utc posts))
                                / avg (intervals (map date_utc posts)) * 10))
      as (q' & Hq' & Heq').
    eexists. exists q'. split; [reflexivity|]. split; [exact Hq'|].
    assert (Hcode : (py_max 0 (100 - variance (intervals (map date_utc posts))
                                     / avg (intervals (map date_utc posts)) * 10)
                     == Qmax 0 (100 - variance (intervals (map date_utc posts))
                                      / avg (intervals (map date_utc posts)) * 10))%Q)
      by apply py_max_Qmax.
    split.
    + rewrite Hcode. rewrite variance_interval_variance. reflexivity.
    + rewrite Heq', Hcode. reflexivity.
  - intros Hn Havg. rewrite (patterns_many_posts posts Hn).
    destruct (intervals_of_many (map date_utc posts)) as [Ha Hv];
      [rewrite length_map; exact Hn|].
    split.
    + unfold consistency_of. rewrite Ha.
      replace (Qltb 0 (avg (intervals (map date_utc posts)))) with false
        by (symmetry; apply Qltb_ge; exact Havg).
      reflexivity.
    + unfold A._analyze_posting_patterns. rewrite length_map.
      replace (1 <? Z.of_nat (List.length posts)) with true
        by (symmetry; apply Z.ltb_lt; lia).
      unfold A.consistency_of. cbv zeta.
      replace (Qltb 0 (avg (intervals (map date_utc posts)))) with false
        by (symmetry; apply Qltb_ge; exact Havg).
      reflexivity.
Qed.

(** Four posts one, three and one days apart: a mean of 5/3 and a
    variance of 8/9 give the score 100 - (8/15) * 10 = 284/3. *)
Lemma C7_consistency_score_witness :
  exists q,
    lookup "consistency_score" (_analyze_posting_patterns four_posts) = Some (VFloat q) /\
    (q == 284 # 3)%Q.
Proof.
  destruct (proj1 (proj2 (C7_consistency_score four_posts)))
    as (q & q' & Hq & _ & Heq & _).
  - cbn. lia.
  - vm_compute. reflexivity.
  - exists q. split; [exact Hq|]. rewrite Heq. vm_compute. reflexivity.
Defined.

(** Two posts of the same day, the newer one first: one interval of 0
    days, so the mean is not positive; [arivaigosint.py] gives 50, and
    [a.py] leaves 0. *)
Lemma C7_counterexample :
  days_between (map date_utc two_posts_same_day) = [0] /\
  (interval_mean (days_between (map date_utc two_posts_same_day)) <= 0)%Q /\
  lookup "consistency_score" (_analyze_posting_patterns two_posts_same_day)
    = Some (VFloat 50) /\
  lookup "consistency_score" (A._analyze_posting_patterns two_posts_same_day)
    = Some (VInt 0) /\
  score "consistency_score" (A._analyze_posting_patterns two_posts_same_day)
    = Some 0%Q.
Proof.
  split; [reflexivity|]. split; [vm_compute; discriminate|]. repeat split.
Qed.

(** ** All the scores *)

(** C2: for a profile, whose follower, followee and post counts are
    counts and so not negative, every score lies between 0 and 100: the
    four metrics, the privacy score of its data, and the consistency
    score of any list of posts. *)
Theorem C2_scores_in_range (w : World) (username : string) (p : Profile)
    (posts : list Post) :
  0 <= followers p -> 0 <= followees p -> 0 <= mediacount p ->
  in_0_100 (score "engagement_potential" (_calculate_advanced_metrics p)) /\
  in_0_100 (score "influence_score" (_calculate_advanced_metrics p)) /\
  in_0_100 (score "authenticity_score" (_calculate_advanced_metrics p)) /\
  in_0_100 (score "profile_completion" (_calculate_advanced_metrics p)) /\
  in_0_100 (stored_score "privacy_score"
              (_security_analysis (unicode_word w) (profile_data_of w username p))) /\
  in_0_100 (score "consistency_score" (_analyze_posting_patterns posts)).
Proof.
  intros _ _ Hm.
  destruct (metrics_in_range p Hm) as (H1 & H2 & H3 & H4).
  repeat (split; [assumption|]). split.
  - destruct (security_of_profile_data (unicode_word w)
                (profile_data_of w username p) p eq_refl) as (sec & Hsec & Hscore).
    pose proof (privacy_formula_bounds (unicode_word w) p) as Hb.
    unfold stored_score, stored. rewrite Hsec, Hscore. cbn [num].
    rewrite Z.max_r by lia. apply in_0_100_intro.
    + apply inject_Z_nonneg. lia.
    + change 100%Q with (inject_Z 100). rewrite <- Zle_Qle. lia.
  - unfold score. destruct (Nat.lt_ge_cases (List.length posts) 2) as [Hn|Hn].
    + rewrite (patterns_few_posts posts Hn). apply in_0_100_zero.
    + rewrite (patterns_many_posts posts Hn). cbn [num].
      pose proof (consistency_of_bounds (intervals (map date_utc posts))) as [Ha Hb].
      apply in_0_100_intro; assumption.
Qed.

Lemma C2_scores_in_range_witness :
  in_0_100 (score "engagement_potential" (_calculate_advanced_metrics public_profile)) /\
  in_0_100 (score "influence_score" (_calculate_advanced_metrics public_profile)) /\
  in_0_100 (score "authenticity_score" (_calculate_advanced_metrics public_profile)) /\
  in_0_100 (score "profile_completion" (_calculate_advanced_metrics public_profile)) /\
  in_0_100 (stored_score "privacy_score"
              (_security_analysis (unicode_word sources_down_world)
                 (profile_data_of sources_down_world "target" public_profile))) /\
  in_0_100 (score "consistency_score" (_analyze_posting_patterns four_posts)).
Proof.
  apply (C2_scores_in_range sources_down_world "target" public_profile four_posts);
    cbn; lia.
Defined.

(** ** The influence score and the guard on the follower count *)

(** C3, as the code has it: with a positive follower count the
    influence score is [min(100, (followers / followees) * 10)] when
    the followee count is positive and 100 otherwise; with a follower
    count that is not positive it is 0, whatever the followee count. *)
Theorem C3_influence_score (p : Profile) :
  exists q,
    lookup "influence_score" (_calculate_advanced_metrics p) = Some (VFloat q) /\
    (0 < followers p -> 0 < followees p ->
       (q == Qmin 100 (inject_Z (followers p) / inject_Z (followees p) * 10))%Q) /\
    (0 < followers p -> followees p <= 0 -> q = 100%Q) /\
    (followers p <= 0 -> q = 0%Q).
Proof.
  destruct (Z_lt_le_dec 0 (followers p)) as [Hf|Hf].
  - rewrite (metrics_with_followers p Hf).
    destruct (0 <? followees p) eqn:He.
    + apply Z.ltb_lt in He. eexists. split; [reflexivity|].
      split; [|split]; intros; try lia. apply py_min_Qmin.
    + apply Z.ltb_ge in He. eexists. split; [reflexivity|].
      split; [|split]; intros; try lia. reflexivity.
  - rewrite (metrics_without_followers p Hf). eexists. split; [reflexivity|].
    split; [|split]; intros; try lia. reflexivity.
Qed.

Lemma C3_influence_score_witness :
  exists q,
    lookup "influence_score" (_calculate_advanced_metrics quiet_profile)
      = Some (VFloat q) /\
    (q == Qmin 100 (inject_Z 100 / inject_Z 100 * 10))%Q.
Proof.
  destruct (C3_influence_score quiet_profile) as (q & Hq & Hpos & _).
  exists q. split; [exact Hq|]. apply Hpos; cbn; lia.
Defined.

(** No followers and no followees: the influence score is 0, not 100. *)
Lemma C3_counterexample :
  followees lonely_profile = 0 /\
  lookup "influence_score" (_calculate_advanced_metrics lonely_profile)
    = Some (VFloat 0) /\
  lookup "influence_score" (_calculate_advanced_metrics lonely_profile)
    <> Some (VFloat 100).
Proof.
  repeat split. discriminate.
Qed.

(** C9: with a follower count of 0 the four metrics are the initial
    [0.0], whatever the other attributes of the profile are. *)
Theorem C9_no_followers_no_metrics (p : Profile) :
  followers p = 0 ->
  lookup "engagement_potential" (_calculate_advanced_metrics p) = Some (VFloat 0) /\
  lookup "influence_score" (_calculate_advanced_metrics p) = Some (VFloat 0) /\
  lookup "authenticity_score" (_calculate_advanced_metrics p) = Some (VFloat 0) /\
  lookup "profile_completion" (_calculate_advanced_metrics p) = Some (VFloat 0).
Proof.
  intro H. rewrite (metrics_without_followers p) by lia. repeat split.
Qed.

Lemma C9_no_followers_no_metrics_witness :
  is_verified lonely_profile = true /\
  external_url lonely_profile = Some "https://example.org" /\
  mediacount lonely_profile = 7 /\
  lookup "engagement_potential" (_calculate_advanced_metrics lonely_profile)
    = Some (VFloat 0) /\
  lookup "influence_score" (_calculate_advanced_metrics lonely_profile)
    = Some (VFloat 0) /\
  lookup "authenticity_score" (_calculate_advanced_metrics lonely_profile)
    = Some (VFloat 0) /\
  lookup "profile_completion" (_calculate_advanced_metrics lonely_profile)
    = Some (VFloat 0).
Proof.
  repeat (split; [reflexivity|]).
  apply (C9_no_followers_no_metrics lonely_profile). reflexivity.
Defined.

(** ** Suspicious patterns *)

Lemma or_default_not_empty (l : list string) (marker : string) :
  or_default l marker <> [].
Proof. destruct l; discriminate. Qed.

Lemma or_default_keeps (l : list string) (marker x : string) :
  In x l -> In x (or_default l marker).
Proof. destruct l; [intros [] | intro H; exact H]. Qed.

(** The labels before the final [or], rule by rule. *)
Lemma suspicious_patterns_by_rule (fs es : list string) (p : Profile) :
  _detect_suspicious_patterns fs es p =
  or_default
    ((if rule_high_followers p then [SUSP_HIGH_FOLLOWERS_LOW_CONTENT] else []) ++
     (if rule_ratio_high p then [SUSP_ABNORMAL_RATIO] else []) ++
     (if rule_ratio_low p then [SUSP_EXCESSIVE_FOLLOWING] else []) ++
     (if rule_low_completion p then [SUSP_LOW_COMPLETION] else []))%list
    NO_SUSPICIOUS_PATTERNS.
Proof.
  unfold _detect_suspicious_patterns, rule_high_followers, rule_ratio_high,
    rule_ratio_low, rule_low_completion.
  destruct (Qltb 100 (true_div (followers p) (followees p))) eqn:Hhigh,
    (Qltb (true_div (followers p) (followees p)) (1 # 10)) eqn:Hlow.
  - (* the ratio cannot be above 100 and below 0.1 *)
    apply Qltb_lt in Hhigh, Hlow. exfalso. lra.
  - destruct ((10000 <? followers p) && (mediacount p <? 10)), (0 <? followees p),
      (Qltb (completion_score p) 50); reflexivity.
  - destruct ((10000 <? followers p) && (mediacount p <? 10)), (0 <? followees p),
      (Qltb (completion_score p) 50); reflexivity.
  - destruct ((10000 <? followers p) && (mediacount p <? 10)), (0 <? followees p),
      (Qltb (completion_score p) 50); reflexivity.
Qed.

Lemma completion_by_fields (p : Profile) : completion p = completion_of_fields p.
Proof.
  unfold completion, completion_of_fields, fields_present.
  destruct (str_truthy (full_name p)), (str_truthy (biography p)),
    (str_truthy (profile_pic_url p)), (0 <? mediacount p); reflexivity.
Qed.

(** The stored metric is the completion of the profile when it has
    followers, and the initial 0 otherwise: the fourth rule follows the
    profile in the first case and always fires in the second. *)
Lemma rule_low_completion_by_fields (p : Profile) :
  rule_low_completion p = if 0 <? followers p then rule_incomplete p else true.
Proof.
  unfold rule_low_completion, rule_incomplete, completion_score.
  destruct (0 <? followers p) eqn:Hf.
  - apply Z.ltb_lt in Hf. rewrite (metrics_with_followers p Hf).
    rewrite <- completion_by_fields.
    change (Qltb (inject_Z (completion p)) (inject_Z 50) = (completion p <? 50)).
    destruct (Z.ltb_spec (completion p) 50) as [L|L].
    + apply Qltb_lt. rewrite <- Zlt_Qlt. exact L.
    + apply Qltb_ge. rewrite <- Zle_Qle. exact L.
  - apply Z.ltb_ge in Hf. rewrite (metrics_without_followers p Hf). reflexivity.
Qed.

(** C6, as the code has it: 20000 followers, 5 posts and 50 followees
    give both the high-followers-low-content label and the
    abnormal-ratio label, in both files.  In [arivaigosint.py] the
    result is never empty.  For an account with followers it is the one
    marker [no_suspicious_patterns] exactly when none of the four rules
    fires.  For an account without followers the completion rule reads
    the stored metric, which is then the initial 0: the low-completion
    label is always reported and the marker never.  [a.py] has the
    first three rules and no marker: when none of them fires its result
    is the empty list. *)
Theorem C6_suspicious_patterns (fs es : list string) (p : Profile) :
  (followers p = 20000 -> mediacount p = 5 -> followees p = 50 ->
     In SUSP_HIGH_FOLLOWERS_LOW_CONTENT (_detect_suspicious_patterns fs es p) /\
     In SUSP_ABNORMAL_RATIO (_detect_suspicious_patterns fs es p) /\
     In A.SUSP_HIGH_FOLLOWERS_LOW_CONTENT (A._detect_suspicious_patterns fs es p) /\
     In A.SUSP_ABNORMAL_RATIO (A._detect_suspicious_patterns fs es p)) /\
  _detect_suspicious_patterns fs es p <> [] /\
  (0 < followers p ->
     (_detect_suspicious_patterns fs es p = [NO_SUSPICIOUS_PATTERNS] <->
      rule_high_followers p = false /\ rule_ratio_high p = false /\
      rule_ratio_low p = false /\ rule_incomplete p = false)) /\
  (followers p <= 0 ->
     In SUSP_LOW_COMPLETION (_detect_suspicious_patterns fs es p) /\
     ~ In NO_SUSPICIOUS_PATTERNS (_detect_suspicious_patterns fs es p)) /\
  (rule_high_followers p = false -> rule_ratio_high p = false ->
   rule_ratio_low p = false ->
     A._detect_suspicious_patterns fs es p = []).
Proof.
  split; [|split; [|split; [|split]]].
  - intros Hf Hm He. rewrite suspicious_patterns_by_rule.
    assert (H1 : rule_high_followers p = true)
      by (unfold rule_high_followers; rewrite Hf, Hm; reflexivity).
    assert (H2 : rule_ratio_high p = true)
      by (unfold rule_ratio_high; rewrite Hf, He; reflexivity).
    rewrite H1, H2. split; [apply or_default_keeps; cbn; auto|].
    split; [apply or_default_keeps; cbn; auto|].
    unfold A._detect_suspicious_patterns. rewrite Hf, Hm, He.
    split; cbn; auto.
  - rewrite suspicious_patterns_by_rule. apply or_default_not_empty.
  - intro Hf. rewrite suspicious_patterns_by_rule, rule_low_completion_by_fields.
    replace (0 <? followers p) with true by (symmetry; apply Z.ltb_lt; exact Hf).
    destruct (rule_high_followers p), (rule_ratio_high p), (rule_ratio_low p),
      (rule_incomplete p); cbn [app or_default];
      (split; [intro H; cbv in H; try discriminate H; repeat split
              | intros (H1 & H2 & H3 & H4);
                try discriminate H1; try discriminate H2;
                try discriminate H3; try discriminate H4; reflexivity]).
  - intro Hf. rewrite suspicious_patterns_by_rule, rule_low_completion_by_fields.
    replace (0 <? followers p) with false by (symmetry; apply Z.ltb_ge; exact Hf).
    destruct (rule_high_followers p), (rule_ratio_high p), (rule_ratio_low p);
      cbn [app or_default];
      (split; [cbn; tauto
              | intro H; cbn in H;
                repeat (destruct H as [H|H]; [cbv in H; discriminate H|]);
                exact H]).
  - unfold A._detect_suspicious_patterns, rule_high_followers, rule_ratio_high,
      rule_ratio_low.
    intros H1 H2 H3. rewrite H1.
    destruct (0 <? followees p); [|reflexivity].
    cbn [andb] in H2, H3. rewrite H2, H3. reflexivity.
Qed.

Lemma C6_suspicious_patterns_witness :
  (In SUSP_HIGH_FOLLOWERS_LOW_CONTENT (_detect_suspicious_patterns [] [] public_profile) /\
   In SUSP_ABNORMAL_RATIO (_detect_suspicious_patterns [] [] public_profile) /\
   In A.SUSP_HIGH_FOLLOWERS_LOW_CONTENT
     (A._detect_suspicious_patterns [] [] public_profile) /\
   In A.SUSP_ABNORMAL_RATIO (A._detect_suspicious_patterns [] [] public_profile)) /\
  _detect_suspicious_patterns [] [] quiet_profile = [NO_SUSPICIOUS_PATTERNS] /\
  In SUSP_LOW_COMPLETION (_detect_suspicious_patterns [] [] lonely_profile).
Proof.
  split; [|split].
  - apply (proj1 (C6_suspicious_patterns [] [] public_profile)); reflexivity.
  - apply (proj1 (proj2 (proj2 (C6_suspicious_patterns [] [] quiet_profile)))).
    + reflexivity.
    + repeat split.
  - apply (proj1 (proj2 (proj2 (proj2 (C6_suspicious_patterns [] [] lonely_profile))))).
    cbn. lia.
Defined.

(** Where no rule fires and the result is not the marker.  The quiet
    profile (100 followers, 100 followees, 12 posts, every field
    present) fires no rule, and [a.py] returns the empty list for it.
    The lonely profile (no followers, no followees, 7 posts, every
    field present) fires none of the four rules either, and
    [arivaigosint.py] returns the low-completion label for it. *)
Lemma C6_counterexample :
  (rule_high_followers quiet_profile = false /\
   rule_ratio_high quiet_profile = false /\
   rule_ratio_low quiet_profile = false /\
   rule_incomplete quiet_profile = false /\
   A._detect_suspicious_patterns [] [] quiet_profile = []) /\
  (rule_high_followers lonely_profile = false /\
   rule_ratio_high lonely_profile = false /\
   rule_ratio_low lonely_profile = false /\
   rule_incomplete lonely_profile = false /\
   completion_of_fields lonely_profile = 100 /\
   _detect_suspicious_patterns [] [] lonely_profile = [SUSP_LOW_COMPLETION]).
Proof.
  repeat split.
Qed.

(** ** The older variant

    [a.py] has the same gate and the same penalties; it differs where
    [arivaigosint.py] added a marker or a default. *)

Lemma a_py_gate_reads_default (w : World) (p : Profile) :
  dict_get (A.profile_data_of w p) "is_private" (VBool true) = Ret (VBool true).
Proof. reflexivity. Qed.

Lemma a_py_branches_never_run (w : World) (username : string) (depth : Z)
    (save_report : bool) (p : Profile) :
  from_username w Primary username = Ok p ->
  exists report,
    A.comprehensive_analysis w username depth save_report = Ret report /\
    sections_empty report /\
    lookup "profile_analysis" report = Some (A.profile_data_of w p).
Proof.
  intro H. unfold A.comprehensive_analysis, A._analyze_target_profile.
  rewrite H, a_py_gate_reads_default. eexists. split; [reflexivity|].
  split; [repeat split | reflexivity].
Qed.

Lemma a_py_no_report_iff_primary_fails (w : World) (username : string)
    (depth : Z) (save_report : bool) :
  A.comprehensive_analysis w username depth save_report = Ret VNone <->
  exists e, from_username w Primary username = Raised e.
Proof.
  split.
  - intro H. destruct (from_username w Primary username) as [p|e] eqn:E.
    + destruct (a_py_branches_never_run w username depth save_report p E)
        as (r & Hr & _ & Hl).
      rewrite Hr in H. injection H as ->. discriminate Hl.
    + exists e. reflexivity.
  - intros [e E]. unfold A.comprehensive_analysis, A._analyze_target_profile.
    rewrite E. reflexivity.
Qed.

(** Without followers the three metrics of [a.py] are the initial [0]. *)
Lemma a_py_no_followers_no_metrics (p : Profile) :
  followers p <= 0 -> A._calculate_advanced_metrics p = VDict A.metrics_init.
Proof.
  intro H. unfold A._calculate_advanced_metrics.
  replace (0 <? followers p) with false by (symmetry; apply Z.ltb_ge; assumption).
  reflexivity.
Qed.

Lemma a_py_influence_without_followers :
  lookup "influence_score" (A._calculate_advanced_metrics lonely_profile)
    = Some (VInt 0).
Proof. reflexivity. Qed.

(** The penalties are those of [arivaigosint.py]: the account of C5
    scores 70 here too, and no score is below 10. *)
Lemma a_py_privacy_score_of_the_example :
  stored "privacy_score"
    (A._security_analysis (fun _ => false)
       (A.profile_data_of sources_down_world public_profile)) = Some (VInt 70).
Proof. reflexivity. Qed.

Lemma a_py_privacy_raw_bounds (uw : uchar -> bool) (info : value) (z : Z)
    (risks : list string) :
  A.privacy_raw uw info = Ret (z, risks) -> 10 <= z <= 100.
Proof.
  unfold A.privacy_raw, bind. intro H.
  repeat first
    [ match type of H with
      | context [if ?c then _ else _] => destruct c; try discriminate H
      end
    | match type of H with
      | context [match ?x with _ => _ end] => destruct x; try discriminate H
      end ];
    injection H as <- _; lia.
Qed.

(** [a.py] returns the labels as they are: when no rule fires the
    result is the empty list, without a marker. *)
Lemma a_py_no_marker (fs es : list string) (p : Profile) :
  rule_high_followers p = false -> rule_ratio_high p = false ->
  rule_ratio_low p = false ->
  A._detect_suspicious_patterns fs es p = [].
Proof.
  unfold A._detect_suspicious_patterns, rule_high_followers, rule_ratio_high,
    rule_ratio_low.
  intros H1 H2 H3. rewrite H1.
  destruct (0 <? followees p); [|reflexivity].
  cbn [andb] in H2, H3. rewrite H2, H3. reflexivity.
Qed.

Lemma a_py_both_labels :
  A._detect_suspicious_patterns [] [] public_profile =
  [A.SUSP_HIGH_FOLLOWERS_LOW_CONTENT; A.SUSP_ABNORMAL_RATIO].
Proof. reflexivity. Qed.

(** [a.py] has no default of 50: with a mean interval that is not
    positive the consistency score stays at the initial [0]. *)
Lemma a_py_consistency_without_positive_mean (posts : list Post) :
  (2 <= List.length posts)%nat ->
  (avg (intervals (map date_utc posts)) <= 0)%Q ->
  lookup "consistency_score" (A._analyze_posting_patterns posts) = Some (VInt 0).
Proof.
  intros Hn Havg. unfold A._analyze_posting_patterns. rewrite length_map.
  replace (1 <? Z.of_nat (List.length posts)) with true
    by (symmetry; apply Z.ltb_lt; lia).
  unfold A.consistency_of.
  replace (Qltb 0 (avg (intervals (map date_utc posts)))) with false
    by (symmetry; apply Qltb_ge; exact Havg).
  reflexivity.
Qed.

Lemma consistency_of_ascending_posts :
  lookup "consistency_score" (_analyze_posting_patterns two_posts_ascending)
    = Some (VFloat 50) /\
  lookup "consistency_score" (A._analyze_posting_patterns two_posts_ascending)
    = Some (VInt 0).
Proof. split; reflexivity. Qed.

(* ================================================================== *)
(** * Further properties

    The fetches, the expansions of the network, the biography in the
    footprint and in the security analysis, the counters of the posts,
    the probes of the external link and the rendered risk level. *)

(** ** The fetches *)

(** What the loop of the fetch returns: the names below the limit, and
    the end of the iteration only when the limit was not reached. *)
Lemma fetch_loop_spec (items : list string) :
  forall (limit i : Z) (e : ending) (acc : list string),
  fetch_loop limit i items e acc =
  if Nat.ltb (Z.to_nat (limit - i)) (List.length items)
  then ((acc ++ firstn (Z.to_nat (limit - i)) items)%list, None)
  else ((acc ++ items)%list,
        match e with Exhausted => None | Raises x => Some x end).
Proof.
  induction items as [|x r IH]; intros limit i e acc.
  - cbn. rewrite app_nil_r. reflexivity.
  - cbn [fetch_loop]. destruct (limit <=? i) eqn:E.
    + apply Z.leb_le in E. replace (Z.to_nat (limit - i)) with 0%nat by lia.
      cbn. rewrite app_nil_r. reflexivity.
    + apply Z.leb_gt in E. rewrite IH.
      replace (Z.to_nat (limit - i)) with (S (Z.to_nat (limit - (i + 1)))) by lia.
      cbn [List.length firstn]. change (Nat.ltb (S ?a) (S ?b)) with (Nat.ltb a b).
      rewrite <- !app_assoc. reflexivity.
Qed.

Lemma fetch_loop_length (items : list string) (limit : Z) (e : ending)
    (got : list string) (raised : option lib_exn) :
  fetch_loop limit 0 items e [] = (got, raised) ->
  Z.of_nat (List.length got) <= Z.max 0 limit /\
  (List.length got <= List.length items)%nat.
Proof.
  rewrite fetch_loop_spec. rewrite Z.sub_0_r. cbn [app].
  destruct (Nat.ltb (Z.to_nat limit) (List.length items)) eqn:E; intro H;
    injection H as <- _.
  - apply Nat.ltb_lt in E. rewrite length_firstn. split; lia.
  - apply Nat.ltb_ge in E. split; lia.
Qed.

Lemma fetch_retry_length (runs : nat -> run string) :
  forall (fuel k : nat) (limit : Z) (names : list string),
  snd (fetch_retry fuel runs k limit) = Ret names ->
  Z.of_nat (List.length names) <= Z.max 0 limit.
Proof.
  induction fuel as [|fuel IH]; intros k limit names; [discriminate|].
  cbn [fetch_retry].
  destruct (fetch_loop limit 0 (yielded (runs k)) (finish (runs k)) [])
    as [got raised] eqn:Hloop.
  destruct (fetch_loop_length _ _ _ _ _ Hloop) as [Hgot _].
  destruct raised as [[msg|msg]|].
  - destruct (fetch_retry fuel runs (S k) (limit - Z.of_nat (List.length got)))
      as [tr r] eqn:Hrec.
    cbn [snd]. intro Hr.
    pose proof (IH (S k) (limit - Z.of_nat (List.length got)) names) as Hn.
    rewrite Hrec in Hn. specialize (Hn Hr). lia.
  - discriminate.
  - cbn [snd]. intro Hr. injection Hr as <-. exact Hgot.
Qed.

Lemma attempts_app (a b : list event) : attempts (a ++ b) = (attempts a + attempts b)%nat.
Proof. unfold attempts. rewrite filter_app, length_app. reflexivity. Qed.

Lemma backoffs_app (a b : list event) : backoffs (a ++ b) = (backoffs a + backoffs b)%nat.
Proof. unfold backoffs. rewrite filter_app, length_app. reflexivity. Qed.

Lemma one_attempt (c : nat) :
  attempts (Attempt :: repeat Pace c) = 1%nat /\ backoffs (Attempt :: repeat Pace c) = 0%nat.
Proof.
  unfold attempts, backoffs. cbn.
  induction c as [|c IHc]; [split; reflexivity|]. cbn. exact IHc.
Qed.

(** X1: whenever the fetch of followers or of followees returns, it
    returns at most [limit] names (none for a limit below zero),
    however many attempts it took. *)
Theorem X1_fetch_never_exceeds_limit (fuel : nat) (w : World) (limit : Z)
    (names : list string) :
  snd (_fetch_followers fuel w limit) = Ret names \/
  snd (_fetch_followees fuel w limit) = Ret names ->
  Z.of_nat (List.length names) <= Z.max 0 limit.
Proof.
  unfold _fetch_followers, _fetch_followees.
  intros [H|H]; exact (fetch_retry_length _ _ _ _ _ H).
Qed.

Lemma X1_fetch_never_exceeds_limit_witness :
  Z.of_nat (List.length ["ayse"; "mehmet"]) <= Z.max 0 2.
Proof.
  apply (X1_fetch_never_exceeds_limit 1 listing_world 2 ["ayse"; "mehmet"]).
  left. reflexivity.
Defined.

(** X2: the names read in an attempt that ends throttled are dropped.
    When the first iteration yields [xs] (no more than the limit) and
    is throttled, and the second one yields [ys] and ends, the fetch
    returns the first [limit - len(xs)] names of [ys] only, after two
    attempts and one wait of 60. *)
Theorem X2_throttled_names_are_dropped (fuel : nat) (w : World) (limit : Z)
    (xs ys : list string) (msg : string) :
  (2 <= fuel)%nat ->
  get_followers w 0 =
    {| yielded := xs; finish := Raises (TooManyRequestsException msg) |} ->
  (List.length xs <= Z.to_nat limit)%nat ->
  get_followers w 1 = {| yielded := ys; finish := Exhausted |} ->
  snd (_fetch_followers fuel w limit) =
    Ret (firstn (Z.to_nat (limit - Z.of_nat (List.length xs))) ys) /\
  attempts (fst (_fetch_followers fuel w limit)) = 2%nat /\
  backoffs (fst (_fetch_followers fuel w limit)) = 1%nat.
Proof.
  intros Hfuel H0 Hxs H1. destruct fuel as [|[|fuel]]; try lia.
  set (n := Z.to_nat (limit - Z.of_nat (List.length xs))).
  assert (Hrun : _fetch_followers (S (S fuel)) w limit =
                 (((Attempt :: repeat Pace (List.length xs)) ++
                   Backoff :: Attempt :: repeat Pace (List.length (firstn n ys)))%list,
                  Ret (firstn n ys))).
  { unfold _fetch_followers. cbn [fetch_retry]. rewrite H0, H1. cbn [yielded finish].
    rewrite fetch_loop_spec, Z.sub_0_r. cbn [app].
    replace (Nat.ltb (Z.to_nat limit) (List.length xs)) with false
      by (symmetry; apply Nat.ltb_ge; exact Hxs).
    cbv iota beta. rewrite fetch_loop_spec, Z.sub_0_r. cbn [app]. fold n.
    destruct (Nat.ltb n (List.length ys)) eqn:E; [reflexivity|].
    apply Nat.ltb_ge in E. rewrite firstn_all2 by exact E. reflexivity. }
  rewrite Hrun. cbn [fst snd]. split; [reflexivity|].
  rewrite attempts_app, backoffs_app.
  destruct (one_attempt (List.length xs)) as [Ha Hb].
  destruct (one_attempt (List.length (firstn n ys))) as [Ha' Hb'].
  rewrite Ha, Hb.
  change (Backoff :: Attempt :: ?l) with ([Backoff] ++ Attempt :: l)%list.
  rewrite attempts_app, backoffs_app, Ha', Hb'. split; reflexivity.
Qed.

Lemma X2_throttled_names_are_dropped_witness :
  snd (_fetch_followers 2 throttled_once_world 50) = Ret ["zeynep"] /\
  attempts (fst (_fetch_followers 2 throttled_once_world 50)) = 2%nat /\
  backoffs (fst (_fetch_followers 2 throttled_once_world 50)) = 1%nat.
Proof.
  apply (X2_throttled_names_are_dropped 2 throttled_once_world 50
           ["ayse"; "mehmet"] ["zeynep"] "429");
    [lia | reflexivity | cbn; lia | reflexivity].
Defined.

(** ** The network branch *)

Lemma mem_In (x : string) (l : list string) : mem x l = true <-> In x l.
Proof.
  unfold mem. rewrite existsb_exists. split.
  - intros (y & Hy & E). apply String.eqb_eq in E. subst y. exact Hy.
  - intro H. exists x. split; [exact H | apply String.eqb_refl].
Qed.

Lemma mutual_of_spec (fs es : list string) (x : string) :
  In x (mutual_of fs es) <-> In x fs /\ In x es.
Proof.
  unfold mutual_of, distinct. rewrite filter_In, nodup_In, mem_In. reflexivity.
Qed.

Lemma mutual_of_NoDup (fs es : list string) : NoDup (mutual_of fs es).
Proof. unfold mutual_of, distinct. apply NoDup_filter, NoDup_nodup. Qed.

(** The dictionary of a public account whose two fetches returned. *)
Lemma network_of_samples (fuel : nat) (w : World) (username : string) (depth : Z)
    (p : Profile) (fs es : list string) :
  from_username w Network username = Ok p ->
  is_private p = false ->
  snd (_fetch_followers fuel w 50) = Ret fs ->
  snd (_fetch_followees fuel w 50) = Ret es ->
  exists d,
    _analyze_network fuel w username depth = Ret d /\
    lookup "connections" d =
      Some (VDict [ (KStr "followers_sample", strs fs);
                    (KStr "followees_sample", strs es);
                    (KStr "total_followers", VInt (followers p));
                    (KStr "total_followees", VInt (followees p)) ]) /\
    lookup "mutual_connections" d = Some (strs (mutual_of fs es)) /\
    lookup "suspicious_patterns" d = Some (strs (_detect_suspicious_patterns fs es p)) /\
    lookup "error" d = None /\
    lookup "status" d = None.
Proof.
  intros Hp Hpub Hfs Hes. unfold _analyze_network.
  rewrite Hp, Hpub, Hfs, Hes. cbn [negb gathered bind].
  destruct (1 <? depth); eexists; (split; [reflexivity|]); repeat split.
Qed.

(** X3: for a public account whose two fetches return, the network
    branch lists at most 50 followers and 50 followees, and its mutual
    connections are exactly the names present in both samples, each
    once; the dictionary carries no [error] and no [status]. *)
Theorem X3_network_samples_and_mutuals (fuel : nat) (w : World) (username : string)
    (depth : Z) (p : Profile) (fs es : list string) :
  from_username w Network username = Ok p ->
  is_private p = false ->
  snd (_fetch_followers fuel w 50) = Ret fs ->
  snd (_fetch_followees fuel w 50) = Ret es ->
  exists d conn,
    _analyze_network fuel w username depth = Ret d /\
    lookup "connections" d = Some conn /\
    lookup "followers_sample" conn = Some (strs fs) /\
    lookup "followees_sample" conn = Some (strs es) /\
    (List.length fs <= 50)%nat /\ (List.length es <= 50)%nat /\
    lookup "mutual_connections" d = Some (strs (mutual_of fs es)) /\
    (forall x, In x (mutual_of fs es) <-> In x fs /\ In x es) /\
    NoDup (mutual_of fs es) /\
    lookup "error" d = None /\ lookup "status" d = None.
Proof.
  intros Hp Hpub Hfs Hes.
  destruct (network_of_samples fuel w username depth p fs es Hp Hpub Hfs Hes)
    as (d & Hd & Hconn & Hmut & _ & Herr & Hst).
  pose proof (fetch_retry_length _ _ _ _ _ Hfs) as Lf.
  pose proof (fetch_retry_length _ _ _ _ _ Hes) as Le.
  eexists d, _. split; [exact Hd|]. split; [exact Hconn|].
  split; [reflexivity|]. split; [reflexivity|].
  split; [lia|]. split; [lia|]. split; [exact Hmut|].
  split; [apply mutual_of_spec|]. split; [apply mutual_of_NoDup|].
  split; assumption.
Qed.

Lemma X3_network_samples_and_mutuals_witness :
  exists d conn,
    _analyze_network 1 listing_world "target" 2 = Ret d /\
    lookup "connections" d = Some conn /\
    lookup "followers_sample" conn = Some (strs three_names) /\
    lookup "followees_sample" conn = Some (strs three_names) /\
    (List.length three_names <= 50)%nat /\ (List.length three_names <= 50)%nat /\
    lookup "mutual_connections" d = Some (strs (mutual_of three_names three_names)) /\
    (forall x, In x (mutual_of three_names three_names) <->
               In x three_names /\ In x three_names) /\
    NoDup (mutual_of three_names three_names) /\
    lookup "error" d = None /\ lookup "status" d = None.
Proof.
  apply (X3_network_samples_and_mutuals 1 listing_world "target" 2 public_profile
           three_names three_names); reflexivity.
Defined.

(** X4: an iteration over the followers that raises anything but the
    throttling exception is not retried, and the network branch goes on
    with an empty followers sample: the names read so far are lost and
    the dictionary carries no [error]. *)
Theorem X4_failed_listing_leaves_no_trace (fuel : nat) (w : World) (username : string)
    (depth : Z) (p : Profile) (xs es : list string) (msg : string) :
  (1 <= fuel)%nat ->
  from_username w Network username = Ok p ->
  is_private p = false ->
  get_followers w 0 = {| yielded := xs; finish := Raises (LibraryError msg) |} ->
  (List.length xs <= 50)%nat ->
  snd (_fetch_followees fuel w 50) = Ret es ->
  _fetch_followers fuel w 50 =
    (Attempt :: repeat Pace (List.length xs), Exc (Library (LibraryError msg))) /\
  exists d conn,
    _analyze_network fuel w username depth = Ret d /\
    lookup "connections" d = Some conn /\
    lookup "followers_sample" conn = Some (VList []) /\
    lookup "followees_sample" conn = Some (strs es) /\
    lookup "mutual_connections" d = Some (VList []) /\
    lookup "error" d = None.
Proof.
  intros Hfuel Hp Hpub Hrun Hxs Hes.
  assert (Hf : _fetch_followers fuel w 50 =
               (Attempt :: repeat Pace (List.length xs),
                Exc (Library (LibraryError msg)))).
  { destruct fuel as [|fuel]; [lia|].
    unfold _fetch_followers. cbn [fetch_retry]. rewrite Hrun. cbn [yielded finish].
    rewrite fetch_loop_spec, Z.sub_0_r. cbn [app].
    replace (Nat.ltb (Z.to_nat 50) (List.length xs)) with false
      by (symmetry; apply Nat.ltb_ge; lia).
    reflexivity. }
  split; [exact Hf|].
  unfold _analyze_network. rewrite Hp, Hpub, Hf, Hes. cbn [negb snd gathered bind].
  destruct (1 <? depth); eexists; eexists; (split; [reflexivity|]); repeat split.
Qed.

Lemma X4_failed_listing_leaves_no_trace_witness :
  _fetch_followers 1 broken_listing_world 50 =
    (Attempt :: repeat Pace (List.length ["ayse"; "mehmet"]),
     Exc (Library (LibraryError "connection lost"))) /\
  exists d conn,
    _analyze_network 1 broken_listing_world "target" 2 = Ret d /\
    lookup "connections" d = Some conn /\
    lookup "followers_sample" conn = Some (VList []) /\
    lookup "followees_sample" conn = Some (strs three_names) /\
    lookup "mutual_connections" d = Some (VList []) /\
    lookup "error" d = None.
Proof.
  apply (X4_failed_listing_leaves_no_trace 1 broken_listing_world "target" 2
           public_profile ["ayse"; "mehmet"] three_names "connection lost");
    try reflexivity; cbn; lia.
Defined.

(** ** Dictionaries *)

Lemma key_eqb_eq (a b : key) : key_eqb a b = true <-> a = b.
Proof.
  destruct a as [x|x], b as [y|y]; cbn; split; intro H; try discriminate.
  - apply String.eqb_eq in H. congruence.
  - injection H as ->. apply String.eqb_refl.
  - apply Z.eqb_eq in H. congruence.
  - injection H as ->. apply Z.eqb_refl.
Qed.

Lemma assoc_set_length (k : key) (v : value) (d : dict) :
  (List.length d <= List.length (assoc_set k v d) <= S (List.length d))%nat.
Proof.
  induction d as [|[k' v'] r IH]; cbn; [lia|].
  destruct (key_eqb k k'); cbn; lia.
Qed.

Lemma assoc_set_In (k : key) (v : value) (d : dict) (k' : key) (v' : value) :
  In (k', v') (assoc_set k v d) -> In (k', v') d \/ (k' = k /\ v' = v).
Proof.
  induction d as [|[k0 v0] r IH]; cbn.
  - intros [H|[]]. injection H as <- <-. right. split; reflexivity.
  - destruct (key_eqb k k0) eqn:E; cbn.
    + apply key_eqb_eq in E. subst k0. intros [H|H].
      * injection H as <- <-. right. split; reflexivity.
      * left. right. exact H.
    + intros [H|H]; [left; left; exact H|].
      destruct (IH H) as [H'|H']; [left; right; exact H' | right; exact H'].
Qed.


(** ** The second-degree expansion *)

Lemma second_degree_loop_bounds (expand : expansion) (names : list string) :
  forall (i : nat) (acc : dict),
  (List.length (second_degree_loop expand i names acc)
     <= List.length acc + List.length names)%nat /\
  (forall k v, In (k, v) (second_degree_loop expand i names acc) ->
     In (k, v) acc \/
     exists name listed,
       k = KStr name /\ In name names /\ v = strs listed /\
       (List.length listed <= 10)%nat).
Proof.
  induction names as [|name rest IH]; intros i acc; cbn [second_degree_loop].
  - split; [cbn; lia | intros k v H; left; exact H].
  - destruct (expand i name) as [r|e].
    2:{ split; [cbn; lia | intros k v H; left; exact H]. }
    destruct (fetch_loop 10 0 (yielded r) (finish r) []) as [got raised] eqn:Hloop.
    destruct (fetch_loop_length _ _ _ _ _ Hloop) as [Hgot _].
    destruct raised as [e|].
    { split; [cbn; lia | intros k v H; left; exact H]. }
    destruct (IH (S i) (assoc_set (KStr name) (strs got) acc)) as [Hlen Hin].
    pose proof (assoc_set_length (KStr name) (strs got) acc) as Hset.
    split; [cbn [List.length]; lia|].
    intros k v H. destruct (Hin k v H) as [H'|(n & l & -> & Hn & -> & Hl)].
    + destruct (assoc_set_In _ _ _ _ _ H') as [H''|[-> ->]]; [left; exact H''|].
      right. exists name, got. repeat split; [left; reflexivity | lia].
    + right. exists n, l. repeat split; [right; exact Hn | exact Hl].
Qed.

(** X5: the second-degree expansion either reports [no_data] or holds
    at most five entries, each keyed by one of the first five followers
    and listing at most ten names. *)
Theorem X5_second_degree_is_bounded (expand : expansion) (followers_sample : list string) :
  _analyze_second_degree_connections expand followers_sample = NO_DATA \/
  exists d,
    _analyze_second_degree_connections expand followers_sample = VDict d /\
    (1 <= List.length d <= 5)%nat /\
    (forall k v, In (k, v) d ->
       exists name listed,
         k = KStr name /\ In name (firstn 5 followers_sample) /\
         v = strs listed /\ (List.length listed <= 10)%nat).
Proof.
  unfold _analyze_second_degree_connections.
  destruct (second_degree_loop_bounds expand (firstn 5 followers_sample) 0%nat [])
    as [Hlen Hin].
  destruct (second_degree_loop expand 0 (firstn 5 followers_sample) [])
    as [|item d] eqn:E; [left; reflexivity|].
  right. eexists. split; [reflexivity|]. split.
  - rewrite length_firstn in Hlen. cbn [List.length] in *. lia.
  - intros k v H. destruct (Hin k v H) as [[]|H']. exact H'.
Qed.

Lemma second_degree_loop_stops (expand : expansion) (names : list string) :
  forall (i j : nat) (acc : dict) (name : string) (e : lib_exn),
  nth_error names j = Some name ->
  expand (i + j)%nat name = Raised e ->
  second_degree_loop expand i names acc =
  second_degree_loop expand i (firstn j names) acc.
Proof.
  induction names as [|n rest IH]; intros i j acc name e Hj He.
  - destruct j; discriminate Hj.
  - destruct j as [|j].
    + cbn in Hj. injection Hj as ->. rewrite Nat.add_0_r in He.
      cbn [firstn second_degree_loop]. rewrite He. reflexivity.
    + cbn [nth_error] in Hj. cbn [firstn second_degree_loop].
      destruct (expand i n) as [r|e']; [|reflexivity].
      destruct (fetch_loop 10 0 (yielded r) (finish r) []) as [got [e'|]];
        [reflexivity|].
      apply (IH (S i) j _ name e Hj).
      replace (S i + j)%nat with (i + S j)%nat by lia. exact He.
Qed.

(** X6: one expansion that cannot fetch its profile ends the whole
    loop: when the profile of the [j]-th of the first five followers
    cannot be fetched, the result is what the followers before it give,
    and none of the later followers is expanded. *)
Theorem X6_second_degree_stops_at_a_failure (expand : expansion)
    (followers_sample : list string) (j : nat) (name : string) (e : lib_exn) :
  (j < 5)%nat ->
  nth_error followers_sample j = Some name ->
  expand j name = Raised e ->
  _analyze_second_degree_connections expand followers_sample =
  _analyze_second_degree_connections expand (firstn j followers_sample).
Proof.
  intros Hj Hn He. unfold _analyze_second_degree_connections.
  rewrite (second_degree_loop_stops expand (firstn 5 followers_sample) 0 j [] name e).
  - rewrite !firstn_firstn. replace (Nat.min j 5) with j by lia.
    replace (Nat.min 5 j) with j by lia. reflexivity.
  - rewrite nth_error_firstn. destruct (Nat.ltb j 5) eqn:E; [exact Hn|].
    apply Nat.ltb_ge in E. lia.
  - exact He.
Qed.

Lemma X6_second_degree_stops_at_a_failure_witness :
  _analyze_second_degree_connections second_fails ["ali"; "berk"; "cem"] =
  _analyze_second_degree_connections second_fails (firstn 1 ["ali"; "berk"; "cem"]).
Proof.
  apply (X6_second_degree_stops_at_a_failure second_fails ["ali"; "berk"; "cem"]
           1 "berk" connection_lost); [lia | reflexivity | reflexivity].
Defined.

(** ** The accounts followed in common *)












(** ** The security analysis and its risks *)

(** X8: whenever the security analysis returns, the risks it lists
    account for the score: the score is 100 minus the penalties of the
    listed risks, no risk is listed twice, and the three
    recommendations are given exactly when the score is below 50. *)
Theorem X8_risks_account_for_the_score (uw : uchar -> bool) (pd sec : value) :
  _security_analysis uw pd = Ret sec ->
  exists score risks,
    lookup "privacy_score" sec = Some (VInt score) /\
    lookup "exposure_risks" sec = Some (strs risks) /\
    score = 100 - Zsum (map penalty_of risks) /\
    nodup string_dec risks = risks /\
    lookup "recommendations" sec =
      Some (VList (if score <? 50
                   then [VStr RECOMMENDATION_1; VStr RECOMMENDATION_2;
                         VStr RECOMMENDATION_3]
                   else [])).
Proof.
  intro H. unfold _security_analysis in H.
  destruct (getitem pd "basic_info") as [info|]; try discriminate H.
  cbn [bind] in H.
  destruct (privacy_raw uw info) as [[raw risks]|] eqn:Hraw; try discriminate H.
  cbn [bind] in H. injection H as <-.
  pose proof (privacy_raw_bounds _ _ _ _ Hraw) as Hb.
  exists raw, risks. cbv zeta. rewrite Z.max_r by lia.
  split; [reflexivity|]. split; [reflexivity|].
  assert (Hsum : raw = 100 - Zsum (map penalty_of risks) /\
                 nodup string_dec risks = risks).
  { clear Hb. unfold privacy_raw, bind in Hraw.
    repeat first
      [ match type of Hraw with
        | context [if ?c then _ else _] => destruct c; try discriminate Hraw
        end
      | match type of Hraw with
        | context [match ?x with _ => _ end] => destruct x; try discriminate Hraw
        end ];
      injection Hraw as <- <-; split; vm_compute; reflexivity. }
  destruct Hsum as [Hs Hn]. split; [exact Hs|]. split; [exact Hn | reflexivity].
Qed.

Lemma X8_risks_account_for_the_score_witness :
  exists score risks,
    lookup "privacy_score"
      (VDict [ (KStr "privacy_score", VInt 70);
               (KStr "exposure_risks", VList [VStr RISK_PUBLIC]);
               (KStr "recommendations", VList []);
               (KStr "threat_indicators", VList []) ]) = Some (VInt score) /\
    lookup "exposure_risks"
      (VDict [ (KStr "privacy_score", VInt 70);
               (KStr "exposure_risks", VList [VStr RISK_PUBLIC]);
               (KStr "recommendations", VList []);
               (KStr "threat_indicators", VList []) ]) = Some (strs risks) /\
    score = 100 - Zsum (map penalty_of risks) /\
    nodup string_dec risks = risks /\
    lookup "recommendations"
      (VDict [ (KStr "privacy_score", VInt 70);
               (KStr "exposure_risks", VList [VStr RISK_PUBLIC]);
               (KStr "recommendations", VList []);
               (KStr "threat_indicators", VList []) ]) =
      Some (VList (if score <? 50
                   then [VStr RECOMMENDATION_1; VStr RECOMMENDATION_2;
                         VStr RECOMMENDATION_3]
                   else [])).
Proof.
  apply (X8_risks_account_for_the_score (fun _ => false)
           (profile_data_of sources_down_world "target" public_profile)).
  reflexivity.
Defined.

(** ** What the phone pattern finds *)

Lemma digits_from (uw : uchar -> bool) (m : nat) :
  forall (n : nat) (prev : option uchar) (s : list uchar),
  (n + m = 7)%nat ->
  is_some (rep (match_here uw []) is_digit 7 (Some 14%nat) n prev s) = digit_run m s.
Proof.
  induction m as [|m IH]; intros n prev s Hn.
  - assert (n = 7%nat) by lia. subst n.
    destruct s as [|x t]; [reflexivity|].
    cbn [rep digit_run]. change (Nat.leb 7 7) with true. cbv iota.
    destruct (in_class is_digit x && below (Some 14%nat) 7); [|reflexivity].
    destruct (rep _ _ _ _ _ _ t); reflexivity.
  - destruct s as [|x t].
    + cbn [rep digit_run]. replace (Nat.leb 7 n) with false; [reflexivity|].
      symmetry. apply Nat.leb_gt. lia.
    + cbn [rep digit_run below].
      replace (Nat.leb 7 n) with false by (symmetry; apply Nat.leb_gt; lia).
      replace (Nat.ltb n 14) with true by (symmetry; apply Nat.ltb_lt; lia).
      rewrite andb_true_r. rewrite <- (IH (S n) (Some x) t) by lia.
      destruct (in_class is_digit x); [|reflexivity].
      cbn [andb]. destruct (rep _ _ _ _ _ _ t); reflexivity.
Qed.

(** An optional character in front of a pattern: the pattern matches
    here, or after the character. *)
Lemma optional_then (k : option uchar -> list uchar -> option (list uchar))
    (c : ascii -> bool) (prev : option uchar) (s : list uchar) :
  is_some (rep k c 0 (Some 1%nat) 0 prev s) =
  is_some (k prev s) ||
  match s with
  | x :: t => in_class c x && is_some (k (Some x) t)
  | [] => false
  end.
Proof.
  destruct s as [|x t].
  - cbn. rewrite orb_false_r. reflexivity.
  - cbn [rep below]. change (Nat.leb 0 0) with true. change (Nat.ltb 0 1) with true.
    change (Nat.leb 0 1) with true. change (Nat.ltb 1 1) with false.
    rewrite andb_true_r. cbv iota.
    destruct (in_class c x); cbn [andb].
    + assert (Hin : rep k c 0 (Some 1%nat) 1 (Some x) t = k (Some x) t).
      { destruct t as [|y u]; cbn [rep below].
        - reflexivity.
        - change (Nat.leb 0 1) with true. change (Nat.ltb 1 1) with false.
          rewrite andb_false_r. reflexivity. }
      rewrite Hin. destruct (k (Some x) t); cbn.
      * rewrite orb_true_r. reflexivity.
      * rewrite orb_false_r. reflexivity.
    + rewrite orb_false_r. reflexivity.
Qed.

Lemma digit_run_found (n : nat) (l : list uchar) :
  digit_run n l = true -> has_digit_run n l = true.
Proof.
  intro H. destruct l; destruct n; cbn [has_digit_run] in *; rewrite ?H; reflexivity.
Qed.

Lemma has_digit_run_later (n : nat) (x : uchar) (l : list uchar) :
  has_digit_run n l = true -> has_digit_run n (x :: l) = true.
Proof.
  intro H. cbn [has_digit_run]. rewrite H. apply orb_true_r.
Qed.

Lemma search_from_unfold (uw : uchar -> bool) (p : list atom)
    (prev : option uchar) (s : list uchar) :
  search_from uw p prev s =
  is_some (match_here uw p prev s) ||
  match s with
  | x :: t => search_from uw p (Some x) t
  | [] => false
  end.
Proof.
  destruct s; cbn [search_from]; destruct (match_here uw p prev _); reflexivity.
Qed.

(** Where the phone pattern matches: at seven digits, or one or two
    places before them (a plus sign, a digit from 1 to 9). *)
Lemma phone_here (uw : uchar -> bool) (prev : option uchar) (s : list uchar) :
  let after_lead (l : list uchar) :=
    digit_run 7 l ||
    match l with
    | x :: t => in_class (fun a => ((49 <=? code a) && (code a <=? 57))%N) x &&
                digit_run 7 t
    | [] => false
    end in
  is_some (match_here uw phone_pattern prev s) =
  after_lead s ||
  match s with
  | x :: t => in_class (one_of "+") x && after_lead t
  | [] => false
  end.
Proof.
  cbv zeta. unfold phone_pattern. cbn [match_here].
  rewrite optional_then.
  change (match_here uw
            [Class (fun a => ((49 <=? code a) && (code a <=? 57))%N) 0 (Some 1%nat);
             Class is_digit 7 (Some 14%nat)])
    with (fun p l => rep (match_here uw [Class is_digit 7 (Some 14%nat)])
                       (fun a => ((49 <=? code a) && (code a <=? 57))%N)
                       0 (Some 1%nat) 0 p l).
  cbv beta. rewrite !optional_then.
  change (match_here uw [Class is_digit 7 (Some 14%nat)])
    with (fun p l => rep (match_here uw []) is_digit 7 (Some 14%nat) 0 p l).
  cbv beta. rewrite !(digits_from uw 7 0) by reflexivity.
  destruct s as [|x t]; [reflexivity|].
  rewrite !optional_then. rewrite !(digits_from uw 7 0) by reflexivity.
  destruct t as [|y u]; [reflexivity|].
  rewrite !(digits_from uw 7 0) by reflexivity. reflexivity.
Qed.

Lemma phone_search (uw : uchar -> bool) (s : list uchar) :
  forall prev : option uchar,
  search_from uw phone_pattern prev s = has_digit_run 7 s.
Proof.
  induction s as [|x t IH]; intro prev.
  - reflexivity.
  - rewrite search_from_unfold, IH, phone_here. cbv zeta.
    change (has_digit_run 7 (x :: t))
      with (digit_run 7 (x :: t) || has_digit_run 7 t).
    destruct (digit_run 7 (x :: t)) eqn:D0; [reflexivity|].
    destruct (digit_run 7 t) eqn:D1.
    { rewrite (digit_run_found _ _ D1), !orb_true_r. reflexivity. }
    destruct t as [|y u].
    { cbn. rewrite !andb_false_r. reflexivity. }
    destruct (digit_run 7 u) eqn:D2.
    { rewrite (has_digit_run_later _ _ _ (digit_run_found _ _ D2)), !orb_true_r.
      reflexivity. }
    cbn [orb]. rewrite !andb_false_r. reflexivity.
Qed.

(** X9: the phone pattern is found in a text exactly when the text
    has seven ASCII digits in a row: the optional plus sign, the
    optional leading digit and the upper bound of fourteen change
    nothing about whether a text is flagged. *)
Theorem X9_phone_pattern_is_seven_digits (uw : uchar -> bool) (s : string) :
  re_search uw phone_pattern s = has_digit_run 7 (chars s).
Proof.
  unfold re_search. apply phone_search.
Qed.

(** ** The biography in the footprint and in the security analysis *)

Lemma assoc_get_set_same (k : key) (v : value) (d : dict) :
  assoc_get k (assoc_set k v d) = Some v.
Proof.
  assert (Hk : key_eqb k k = true) by (apply key_eqb_eq; reflexivity).
  induction d as [|[k0 v0] r IH]; cbn.
  - rewrite Hk. reflexivity.
  - destruct (key_eqb k k0) eqn:E; cbn; rewrite E; [reflexivity | exact IH].
Qed.

Lemma assoc_get_set_other (k k' : key) (v : value) (d : dict) :
  key_eqb k' k = false ->
  assoc_get k' (assoc_set k v d) = assoc_get k' d.
Proof.
  intro Hk. induction d as [|[k0 v0] r IH]; cbn.
  - rewrite Hk. reflexivity.
  - destruct (key_eqb k k0) eqn:E; cbn.
    + apply key_eqb_eq in E. subst k0. rewrite Hk. reflexivity.
    + rewrite IH. reflexivity.
Qed.

(** A repetition that must take a character, or is followed by a
    pattern that does, matches no empty text. *)
Lemma rep_not_empty (k : option uchar -> list uchar -> option (list uchar))
    (c : ascii -> bool) (lo : nat) (hi : option nat) (n : nat)
    (prev : option uchar) (s m : list uchar) :
  (n < lo)%nat \/ (forall p l r, k p l = Some r -> r <> []) ->
  rep k c lo hi n prev s = Some m -> m <> [].
Proof.
  intros Hk H.
  assert (Hstop : (if Nat.leb lo n then k prev s else None) = Some m -> m <> []).
  { destruct (Nat.leb lo n) eqn:E; [|discriminate].
    destruct Hk as [Hk|Hk]; [apply Nat.leb_le in E; lia|]. apply Hk. }
  destruct s as [|x t]; cbn [rep] in H; [exact (Hstop H)|].
  destruct (in_class c x && below hi n); [|exact (Hstop H)].
  destruct (rep k c lo hi (S n) (Some x) t); [|exact (Hstop H)].
  injection H as <-. discriminate.
Qed.

Lemma email_not_empty (uw : uchar -> bool) (prev : option uchar) (s m : list uchar) :
  match_here uw email_pattern prev s = Some m -> m <> [].
Proof.
  unfold email_pattern. cbn [match_here].
  destruct (xorb _ _); [|discriminate].
  apply rep_not_empty. left. lia.
Qed.

Lemma phone_not_empty (uw : uchar -> bool) (prev : option uchar) (s m : list uchar) :
  match_here uw phone_pattern prev s = Some m -> m <> [].
Proof.
  unfold phone_pattern. cbn [match_here].
  apply rep_not_empty. right. intros p l r.
  apply rep_not_empty. right. intros p' l' r'.
  apply rep_not_empty. left. lia.
Qed.

(** [re.search] finds something exactly when [re.findall] does, for a
    pattern that matches no empty text. *)
Lemma search_iff_findall (uw : uchar -> bool) (p : list atom) :
  (forall prev s m, match_here uw p prev s = Some m -> m <> []) ->
  forall (s : list uchar) (prev : option uchar),
  search_from uw p prev s = true <-> findall_from uw p 0 prev s <> [].
Proof.
  intros Hp s. induction s as [|x t IH]; intro prev; cbn [search_from findall_from].
  - destruct (match_here uw p prev []) as [[|y m]|] eqn:E.
    + exfalso. exact (Hp _ _ _ E eq_refl).
    + split; [discriminate | reflexivity].
    + split; [discriminate | intro H; exfalso; apply H; reflexivity].
  - destruct (match_here uw p prev (x :: t)) as [[|y m]|] eqn:E.
    + exfalso. exact (Hp _ _ _ E eq_refl).
    + split; [discriminate | reflexivity].
    + apply IH.
Qed.

Lemma privacy_risks_of_profile (uw : uchar -> bool) (p : Profile) :
  exists risks,
    privacy_raw uw (basic_info p) = Ret (privacy_formula uw p, risks) /\
    (In RISK_EMAIL risks <->
     re_search uw email_pattern (or_NA (biography p)) = true) /\
    (In RISK_PHONE risks <->
     re_search uw phone_pattern (or_NA (biography p)) = true).
Proof.
  unfold privacy_raw, privacy_formula.
  change (dict_get (basic_info p) "is_private" (VBool true))
    with (Ret (VBool (is_private p))).
  change (dict_get (basic_info p) "external_url" VNone)
    with (Ret (VStr (opt_or_NA (external_url p)))).
  change (dict_get (basic_info p) "biography" (VStr EmptyString))
    with (Ret (VStr (or_NA (biography p)))).
  cbn [bind truthy is_str len_value search_value].
  rewrite or_NA_not_empty. cbn [negb bind].
  destruct (is_private p), (String.eqb (opt_or_NA (external_url p)) "N/A"),
    (100 <? py_len (or_NA (biography p))),
    (re_search uw email_pattern (or_NA (biography p))),
    (re_search uw phone_pattern (or_NA (biography p)));
    cbn; eexists; (split; [reflexivity|]);
    split; (split; [intro H; cbn in H; repeat (destruct H as [H|H]; try discriminate H);
                    try reflexivity; try (destruct H)
                   | intro H; try discriminate H; cbn; tauto ]).
Qed.

(** X10: on the data of a fetched profile the footprint analysis
    always returns, and it agrees with the security analysis about the
    biography: an address (a number) is listed in the footprint
    exactly when the security analysis names the exposed address (the
    exposed number) among the risks; without one, the footprint holds
    the marker text instead. *)
Theorem X10_footprint_agrees_with_security (w : World) (name : string) (p : Profile) :
  let pd := profile_data_of w name p in
  let bio := or_NA (biography p) in
  let emails := re_findall (unicode_word w) email_pattern bio in
  let phones := re_findall (unicode_word w) phone_pattern bio in
  exists fp sec risks,
    _analyze_digital_footprint w pd = Ret fp /\
    _security_analysis (unicode_word w) pd = Ret sec /\
    lookup "email_patterns" fp = Some (strs (or_default emails "no_emails_detected")) /\
    lookup "phone_patterns" fp = Some (strs (or_default phones "no_phones_detected")) /\
    lookup "exposure_risks" sec = Some (strs risks) /\
    (In RISK_EMAIL risks <-> emails <> []) /\
    (In RISK_PHONE risks <-> phones <> []).
Proof.
  cbv zeta.
  destruct (privacy_risks_of_profile (unicode_word w) p) as [risks [Hr [He Hp]]].
  unfold _analyze_digital_footprint, _security_analysis.
  change (getitem (profile_data_of w name p) "basic_info") with (Ret (basic_info p)).
  cbn [bind]. rewrite Hr. cbn [bind].
  change (dict_get (basic_info p) "external_url" (VStr "N/A"))
    with (Ret (VStr (opt_or_NA (external_url p)))).
  change (dict_get (basic_info p) "biography" (VStr EmptyString))
    with (Ret (VStr (or_NA (biography p)))).
  change (getitem (basic_info p) "username") with (Ret (VStr (username p))).
  cbn [bind truthy findall_value]. rewrite or_NA_not_empty. cbn [negb].
  eexists. exists (VDict
    [ (KStr "privacy_score", VInt (Z.max 0 (privacy_formula (unicode_word w) p)));
      (KStr "exposure_risks", strs risks);
      (KStr "recommendations",
        VList (if Z.max 0 (privacy_formula (unicode_word w) p) <? 50
               then [VStr RECOMMENDATION_1; VStr RECOMMENDATION_2; VStr RECOMMENDATION_3]
               else []));
      (KStr "threat_indicators", VList []) ]), risks.
  split; [reflexivity|]. split; [reflexivity|].
  split.
  { cbn [lookup]. rewrite assoc_get_set_other by reflexivity.
    rewrite assoc_get_set_other by reflexivity.
    rewrite assoc_get_set_other by reflexivity.
    rewrite assoc_get_set_other by reflexivity.
    rewrite assoc_get_set_same. reflexivity. }
  split.
  { cbn [lookup]. rewrite assoc_get_set_other by reflexivity.
    rewrite assoc_get_set_other by reflexivity.
    rewrite assoc_get_set_other by reflexivity.
    rewrite assoc_get_set_same. reflexivity. }
  split; [reflexivity|].
  split.
  - rewrite He. unfold re_search, re_findall.
    apply search_iff_findall. apply email_not_empty.
  - rewrite Hp. unfold re_search, re_findall.
    apply search_iff_findall. apply phone_not_empty.
Qed.

(** X11: handed profile data whose biography is missing or empty, the
    footprint analysis does not return: the list of addresses it hands
    to the cross-platform check was never assigned. *)
Theorem X11_footprint_needs_a_biography (w : World) (info rest : dict) (name : value) :
  assoc_get "username" info = Some name ->
  match assoc_get "biography" info with
  | Some bio => truthy bio = false
  | None => True
  end ->
  _analyze_digital_footprint w (VDict ((KStr "basic_info", VDict info) :: rest)) =
  Exc UnboundLocalError.
Proof.
  intros Hname Hbio. unfold _analyze_digital_footprint.
  change (getitem (VDict ((KStr "basic_info", VDict info) :: rest)) "basic_info")
    with (Ret (VDict info)).
  cbn [bind]. unfold dict_get, getitem. rewrite Hname.
  destruct (assoc_get "external_url" info); cbn [bind];
    destruct (assoc_get "biography" info) as [bio|]; cbn [bind];
    try rewrite Hbio; reflexivity.
Qed.

Lemma X11_footprint_needs_a_biography_witness :
  _analyze_digital_footprint sources_down_world
    (VDict [ (KStr "basic_info",
              VDict [ (KStr "username", VStr "target");
                      (KStr "biography", VStr EmptyString) ]) ]) =
  Exc UnboundLocalError.
Proof.
  apply (X11_footprint_needs_a_biography sources_down_world
           [ (KStr "username", VStr "target"); (KStr "biography", VStr EmptyString) ]
           [] (VStr "target")); reflexivity.
Defined.

(** ** Counting posts *)

Lemma nodup_length (l : list Z) :
  (List.length (nodup Z.eq_dec l) <= List.length l)%nat.
Proof.
  induction l as [|x r IH]; cbn; [lia|].
  destruct (in_dec Z.eq_dec x r); cbn; lia.
Qed.

(** X12: an account of which at most three posts are looked at is
    always reported with the indicator of automated posting, whatever
    the times of the posts, by both files. *)
Theorem X12_few_posts_look_automated (posts : list Post) :
  (List.length posts <= 3)%nat ->
  _detect_automation_indicators posts = [AUTO_REGULAR_HOURS] /\
  A._detect_automation_indicators posts = [A.AUTO_REGULAR_HOURS].
Proof.
  intro H. unfold _detect_automation_indicators, A._detect_automation_indicators.
  cbv zeta.
  assert (Hn : Nat.leb (List.length
             (nodup Z.eq_dec (map (fun post => hour (date_utc post)) posts))) 3 = true).
  { apply Nat.leb_le.
    pose proof (nodup_length (map (fun post => hour (date_utc post)) posts)) as Hl.
    rewrite length_map in Hl. lia. }
  rewrite Hn. split; reflexivity.
Qed.

Lemma X12_few_posts_look_automated_witness :
  _detect_automation_indicators two_posts_ascending = [AUTO_REGULAR_HOURS] /\
  A._detect_automation_indicators two_posts_ascending = [A.AUTO_REGULAR_HOURS].
Proof.
  apply (X12_few_posts_look_automated two_posts_ascending). cbn. lia.
Defined.

(** The number a counter holds for a key, none counting as zero. *)
Lemma count_one_get (k k' : key) (d : dict) :
  (forall v, assoc_get k d = Some v -> exists n, v = VInt n /\ 0 < n) ->
  assoc_get k (count_one k' d) =
  if key_eqb k k'
  then match assoc_get k d with
       | Some (VInt n) => Some (VInt (n + 1))
       | _ => Some (VInt 1)
       end
  else assoc_get k d.
Proof.
  intro Hd. unfold count_one. destruct (key_eqb k k') eqn:E.
  - apply key_eqb_eq in E. subst k'.
    destruct (assoc_get k d) as [[| | n | | | |]|]; apply assoc_get_set_same.
  - destruct (assoc_get k' d) as [[| | n | | | |]|];
      apply assoc_get_set_other; exact E.
Qed.

Lemma fold_count_get (k : key) (ks : list key) :
  forall d : dict,
  (forall k0 v, assoc_get k0 d = Some v -> exists n, v = VInt n /\ 0 < n) ->
  (forall k0 v, assoc_get k0 (fold_left (fun d k => count_one k d) ks d) = Some v ->
                exists n, v = VInt n /\ 0 < n) /\
  assoc_get k (fold_left (fun d k => count_one k d) ks d) =
  match assoc_get k d with
  | Some (VInt n) => Some (VInt (n + Z.of_nat (List.length (filter (key_eqb k) ks))))
  | _ => entry (Z.of_nat (List.length (filter (key_eqb k) ks)))
  end.
Proof.
  induction ks as [|k' r IH]; intros d Hd.
  - cbn. split; [exact Hd|].
    destruct (assoc_get k d) as [v|] eqn:E; [|reflexivity].
    destruct (Hd _ _ E) as [n [-> _]]. rewrite Z.add_0_r. reflexivity.
  - cbn [fold_left filter].
    assert (Hd' : forall k0 v, assoc_get k0 (count_one k' d) = Some v ->
                               exists n, v = VInt n /\ 0 < n).
    { intros k0 v. rewrite count_one_get by (apply Hd).
      destruct (key_eqb k0 k').
      - destruct (assoc_get k0 d) as [v0|] eqn:E0.
        + destruct (Hd _ _ E0) as [n [-> Hn]]. intro H. injection H as <-.
          exists (n + 1). split; [reflexivity | lia].
        + intro H. injection H as <-. exists 1. split; [reflexivity | lia].
      - apply Hd. }
    destruct (IH (count_one k' d) Hd') as [Hinv Hget]. split; [exact Hinv|].
    rewrite Hget. rewrite count_one_get by (apply Hd).
    destruct (key_eqb k k') eqn:E; cbn [List.length].
    + destruct (assoc_get k d) as [v0|] eqn:E0.
      * destruct (Hd _ _ E0) as [n [-> Hn]]. do 2 f_equal. lia.
      * unfold entry.
        destruct (Z.eqb_spec (Z.of_nat (S (List.length (filter (key_eqb k) r)))) 0);
          [lia|].
        do 2 f_equal. lia.
    + destruct (assoc_get k d) as [v0|] eqn:E0; reflexivity.
Qed.

(** What [defaultdict(int)] holds after counting the keys of a list. *)
Lemma histogram_get (k : key) (ks : list key) :
  assoc_get k (histogram ks) = entry (Z.of_nat (List.length (filter (key_eqb k) ks))).
Proof.
  unfold histogram.
  destruct (fold_count_get k ks []) as [_ H]; [intros k0 v H; discriminate H|].
  exact H.
Qed.

Lemma filter_map_length {A B : Type} (f : A -> B) (g : B -> bool) (l : list A) :
  List.length (filter g (map f l)) = List.length (filter (fun x => g (f x)) l).
Proof.
  induction l as [|x r IH]; cbn; [reflexivity|].
  destruct (g (f x)); cbn; rewrite IH; reflexivity.
Qed.

(** X13: the two counters of the posting patterns hold, for every hour
    of the day and every day of the week, the number of posts made at
    that hour and on that day; an hour or a day without a post has no
    entry. *)
Theorem X13_posting_counters (posts : list Post) :
  exists time_patterns day_patterns,
    lookup "time_patterns" (_analyze_posting_patterns posts) =
      Some (VDict time_patterns) /\
    lookup "day_patterns" (_analyze_posting_patterns posts) =
      Some (VDict day_patterns) /\
    (forall h : Z,
       assoc_get (KInt h) time_patterns =
       entry (count_posts (fun post => hour (date_utc post) =? h) posts)) /\
    (forall d : string,
       assoc_get (KStr d) day_patterns =
       entry (count_posts (fun post => String.eqb d (day_name (date_utc post))) posts)).
Proof.
  exists (histogram (map (fun d => KInt (hour d)) (map date_utc posts))),
         (histogram (map (fun d => KStr (day_name d)) (map date_utc posts))).
  unfold _analyze_posting_patterns. cbv zeta.
  split; [destruct (1 <? _); reflexivity|].
  split; [destruct (1 <? _); reflexivity|].
  unfold count_posts. split.
  - intro h. rewrite histogram_get, map_map, filter_map_length.
    do 2 f_equal. f_equal. apply filter_ext. intro post. cbn. apply Z.eqb_sym.
  - intro d. rewrite histogram_get, map_map, filter_map_length. reflexivity.
Qed.

Lemma content_types_from (posts : list Post) :
  forall a b c : Z,
  fold_left (fun d post => count_one (KStr (post_kind post)) d) posts
    [ (KStr "photo", VInt a); (KStr "video", VInt b); (KStr "carousel", VInt c) ] =
  [ (KStr "photo", VInt (a + count_posts (fun p => String.eqb (post_kind p) "photo") posts));
    (KStr "video", VInt (b + count_posts (fun p => String.eqb (post_kind p) "video") posts));
    (KStr "carousel",
      VInt (c + count_posts (fun p => String.eqb (post_kind p) "carousel") posts)) ].
Proof.
  unfold count_posts.
  induction posts as [|p r IH]; intros a b c.
  - cbn. rewrite !Z.add_0_r. reflexivity.
  - cbn [fold_left filter].
    assert (Hk : post_kind p = "photo" \/ post_kind p = "video" \/
                 post_kind p = "carousel").
    { unfold post_kind. destruct (is_video p); [tauto|].
      destruct (post_mediacount p) as [n|]; [destruct (1 <? n)|]; tauto. }
    destruct Hk as [-> | [-> | ->]]; cbn [count_one assoc_get key_eqb String.eqb
      Ascii.eqb Bool.eqb assoc_set andb]; cbn [String.eqb Ascii.eqb Bool.eqb];
      rewrite IH; cbn [List.length];
      repeat match goal with
             | |- _ :: _ = _ :: _ => f_equal
             | |- (_, _) = (_, _) => f_equal
             | |- VInt _ = VInt _ => f_equal
             end; lia.
Qed.

Lemma kinds_partition (posts : list Post) :
  count_posts (fun p => String.eqb (post_kind p) "photo") posts +
  count_posts (fun p => String.eqb (post_kind p) "video") posts +
  count_posts (fun p => String.eqb (post_kind p) "carousel") posts =
  Z.of_nat (List.length posts).
Proof.
  unfold count_posts. induction posts as [|p r IH]; [reflexivity|].
  cbn [filter List.length].
  assert (Hk : post_kind p = "photo" \/ post_kind p = "video" \/
               post_kind p = "carousel").
  { unfold post_kind. destruct (is_video p); [tauto|].
    destruct (post_mediacount p) as [n|]; [destruct (1 <? n)|]; tauto. }
  destruct Hk as [-> | [-> | ->]]; cbn [String.eqb Ascii.eqb Bool.eqb List.length]; lia.
Qed.

(** X14: the content types of the theme analysis always have the
    three entries photo, video and carousel, in this order; each holds
    the number of posts of its kind, and the three numbers add up to
    the number of posts. *)
Theorem X14_content_types_count_every_post (w : World) (posts : list Post) :
  exists photo video carousel : Z,
    lookup "content_types" (_analyze_content_themes w posts) =
      Some (VDict [ (KStr "photo", VInt photo); (KStr "video", VInt video);
                    (KStr "carousel", VInt carousel) ]) /\
    photo = count_posts (fun p => String.eqb (post_kind p) "photo") posts /\
    video = count_posts (fun p => String.eqb (post_kind p) "video") posts /\
    carousel = count_posts (fun p => String.eqb (post_kind p) "carousel") posts /\
    photo + video + carousel = Z.of_nat (List.length posts).
Proof.
  do 3 eexists. split.
  - unfold _analyze_content_themes. cbv zeta. cbn [lookup assoc_get key_eqb].
    cbn [String.eqb Ascii.eqb Bool.eqb]. rewrite content_types_from.
    rewrite !Z.add_0_l. reflexivity.
  - split; [reflexivity|]. split; [reflexivity|]. split; [reflexivity|].
    apply kinds_partition.
Qed.

(** ** The timeline *)

Lemma oldest_date_min (rest : list Z) :
  forall first : Z,
  oldest_date first rest <= first /\
  (forall d, In d rest -> oldest_date first rest <= d) /\
  In (oldest_date first rest) (first :: rest).
Proof.
  unfold oldest_date. induction rest as [|x r IH]; intro first; cbn [fold_left].
  - split; [lia|]. split; [intros d []|]. left. reflexivity.
  - destruct (IH (if x <? first then x else first)) as [H1 [H2 H3]].
    destruct (Z.ltb_spec x first) as [L|L].
    + split; [lia|]. split.
      * intros d [<-|Hd]; [exact H1 | apply H2, Hd].
      * destruct H3 as [H3|H3]; [right; left; exact H3 | right; right; exact H3].
    + split; [exact H1|]. split.
      * intros d [<-|Hd]; [lia | apply H2, Hd].
      * destruct H3 as [H3|H3]; [left; exact H3 | right; right; exact H3].
Qed.

(** X15: in [a.py], when the iteration over the posts of a public
    account ends without an exception, the timeline looks at the first
    200 posts it yielded; the estimated age of the account is the age
    in whole days of the oldest of them, so no post looked at is older
    than the estimate; and the activity timeline holds for every month
    the number of these posts made in it. *)
Theorem X15_a_py_timeline_of_the_fetched_posts (w : World) (name : string)
    (profile : Profile) :
  let posts := firstn 200 (yielded (get_posts w Timeline)) in
  from_username w Timeline name = Ok profile ->
  is_private profile = false ->
  finish (get_posts w Timeline) = Exhausted ->
  posts <> [] ->
  (List.length posts <= 200)%nat /\
  exists (age : Z) (months : dict),
    lookup "account_age_estimate" (A._timeline_analysis w name) = Some (VInt age) /\
    lookup "activity_timeline" (A._timeline_analysis w name) = Some (VDict months) /\
    (forall post, In post posts -> (now w - date_utc post) / SECONDS_PER_DAY <= age) /\
    (exists post, In post posts /\ age = (now w - date_utc post) / SECONDS_PER_DAY) /\
    (forall m : string,
       assoc_get (KStr m) months =
       entry (count_posts (fun post => String.eqb m (month_key (date_utc post))) posts)).
Proof.
  cbv zeta. intros Hp Hpub Hend Hne.
  split; [rewrite length_firstn; lia|].
  unfold A._timeline_analysis, A.all_posts. rewrite Hp, Hpub, Hend. cbn [negb].
  destruct (firstn 200 (yielded (get_posts w Timeline))) as [|p ps];
    [contradiction Hne; reflexivity|].
  do 2 eexists. split; [reflexivity|]. split; [reflexivity|].
  destruct (oldest_date_min (map date_utc ps) (date_utc p)) as [H1 [H2 H3]].
  split; [|split].
  - intros post [<-|Hin]; apply Z.div_le_mono; unfold SECONDS_PER_DAY; try lia.
    assert (oldest_date (date_utc p) (map date_utc ps) <= date_utc post)
      by (apply H2, in_map, Hin).
    lia.
  - destruct H3 as [H3|H3].
    + exists p. split; [left; reflexivity|]. rewrite <- H3. reflexivity.
    + apply in_map_iff in H3. destruct H3 as [post [Hd Hin]].
      exists post. split; [right; exact Hin|]. rewrite Hd. reflexivity.
  - intro m. rewrite histogram_get, map_map, filter_map_length. reflexivity.
Qed.

Lemma X15_a_py_timeline_of_the_fetched_posts_witness :
  (List.length four_posts <= 200)%nat /\
  exists (age : Z) (months : dict),
    lookup "account_age_estimate" (A._timeline_analysis posting_world "target") =
      Some (VInt age) /\
    lookup "activity_timeline" (A._timeline_analysis posting_world "target") =
      Some (VDict months) /\
    (forall post, In post four_posts ->
       (now posting_world - date_utc post) / SECONDS_PER_DAY <= age) /\
    (exists post, In post four_posts /\
       age = (now posting_world - date_utc post) / SECONDS_PER_DAY) /\
    (forall m : string,
       assoc_get (KStr m) months =
       entry (count_posts (fun post => String.eqb m (month_key (date_utc post)))
                four_posts)).
Proof.
  apply (X15_a_py_timeline_of_the_fetched_posts posting_world "target" public_profile);
    try reflexivity.
  discriminate.
Defined.

(** ** The risk level of the rendered report *)

(** X16: every report the analysis returns is rendered with the risk
    level low and without a privacy score: the section of the security
    analysis is still empty, so the level is computed from the default
    score of 100, whatever the profile exposes. *)
Theorem X16_every_report_is_rendered_low_risk (fuel : nat) (w : World)
    (name : string) (depth : Z) (save_report : bool) (data : value) :
  comprehensive_analysis fuel w name depth save_report = Ret data ->
  data <> VNone ->
  risk_class data = Ret "low" /\
  shown_privacy_score data (VStr "N/A") = Ret (VStr "N/A").
Proof.
  intros H Hdata.
  destruct (from_username w Primary name) as [p|e] eqn:E.
  - rewrite (report_of_fetched fuel w name depth save_report p E) in H.
    injection H as <-. split; reflexivity.
  - exfalso. apply Hdata.
    assert (Hn : comprehensive_analysis fuel w name depth save_report = Ret VNone)
      by (apply no_report_iff_primary_fails; exists e; exact E).
    rewrite Hn in H. injection H as <-. reflexivity.
Qed.

Lemma X16_every_report_is_rendered_low_risk_witness :
  risk_class
    (VDict (assoc_set "profile_analysis"
              (profile_data_of sources_down_world "target" public_profile)
              (analysis_data_init sources_down_world "target"))) = Ret "low" /\
  shown_privacy_score
    (VDict (assoc_set "profile_analysis"
              (profile_data_of sources_down_world "target" public_profile)
              (analysis_data_init sources_down_world "target")))
    (VStr "N/A") = Ret (VStr "N/A").
Proof.
  apply (X16_every_report_is_rendered_low_risk 1 sources_down_world "target" 2 true).
  - reflexivity.
  - discriminate.
Defined.

(** X17: had the report the security analysis of the fetched profile
    in it, the level would follow the profile: a private account is
    never rendered with the level high, and a public account is
    rendered with the level low only when nothing but its being public
    counts against it (a score of exactly 70). *)
Theorem X17_risk_level_of_a_security_section (uw : uchar -> bool) (pd sec : value)
    (p : Profile) (rest : dict) :
  getitem pd "basic_info" = Ret (basic_info p) ->
  _security_analysis uw pd = Ret sec ->
  exists level,
    risk_class (VDict ((KStr "security_analysis", sec) :: rest)) = Ret level /\
    (is_private p = true -> level <> "high") /\
    (is_private p = false -> level = "low" ->
     lookup "privacy_score" sec = Some (VInt 70)).
Proof.
  intros Hpd Hsec.
  destruct (security_of_profile_data uw pd p Hpd) as [sec' [Hsec' Hscore]].
  rewrite Hsec in Hsec'. injection Hsec' as <-.
  pose proof (privacy_formula_bounds uw p) as Hb.
  rewrite Z.max_r in Hscore by lia.
  assert (Hprivate : is_private p = true -> 40 <= privacy_formula uw p).
  { intro Hp. unfold privacy_formula. cbv zeta. rewrite Hp.
    repeat match goal with |- context [if ?c then _ else _] => destruct c end; lia. }
  assert (Hpublic : is_private p = false -> privacy_formula uw p <= 70).
  { intro Hp. unfold privacy_formula. cbv zeta. rewrite Hp.
    repeat match goal with |- context [if ?c then _ else _] => destruct c end; lia. }
  unfold risk_class, shown_privacy_score.
  change (dict_get (VDict ((KStr "security_analysis", sec) :: rest))
            "security_analysis" (VDict [])) with (Ret sec).
  cbn [bind]. destruct sec as [| | | | | |d]; try discriminate Hscore.
  cbn [lookup] in Hscore. unfold dict_get. rewrite Hscore. cbn [bind lt_value].
  destruct (Z.ltb_spec (privacy_formula uw p) 30) as [L|L].
  - exists "high". split; [reflexivity|]. split.
    + intro Hp. specialize (Hprivate Hp). lia.
    + intros _ Hl. discriminate Hl.
  - destruct (Z.ltb_spec (privacy_formula uw p) 70) as [M|M].
    + exists "medium". split; [reflexivity|]. split.
      * intros _ Hl. discriminate Hl.
      * intros _ Hl. discriminate Hl.
    + exists "low". split; [reflexivity|]. split.
      * intros _ Hl. discriminate Hl.
      * intros Hp _. specialize (Hpublic Hp).
        cbn [lookup]. rewrite Hscore. do 2 f_equal. lia.
Qed.

Lemma X17_risk_level_of_a_security_section_witness :
  exists level,
    risk_class
      (VDict [ (KStr "security_analysis",
                VDict [ (KStr "privacy_score", VInt 70);
                        (KStr "exposure_risks", VList [VStr RISK_PUBLIC]);
                        (KStr "recommendations", VList []);
                        (KStr "threat_indicators", VList []) ]) ]) = Ret level /\
    (is_private public_profile = true -> level <> "high") /\
    (is_private public_profile = false -> level = "low" ->
     lookup "privacy_score"
       (VDict [ (KStr "privacy_score", VInt 70);
                (KStr "exposure_risks", VList [VStr RISK_PUBLIC]);
                (KStr "recommendations", VList []);
                (KStr "threat_indicators", VList []) ]) = Some (VInt 70)).
Proof.
  apply (X17_risk_level_of_a_security_section (fun _ => false)
           (profile_data_of sources_down_world "target" public_profile)
           _ public_profile []); reflexivity.
Defined.

(** ** The probes of the external link *)

Lemma or_default_length (l : list string) (marker : string) :
  (1 <= List.length (or_default l marker))%nat /\
  (List.length (or_default l marker) <= Nat.max 1 (List.length l))%nat.
Proof.
  destruct l; cbn; lia.
Qed.

(** X18: of a page answered with status 200, between one and fifty
    entries are kept as links, but the social links are picked from
    all links of the page: a link to a social platform is reported
    even when it is not among the links kept.  Any other status leaves
    the initial data, without an error and without the markers. *)
Theorem X18_scraped_links (fetch : string -> Outcome (Z * Outcome page))
    (url : string) (code : Z) (parsed : Outcome page) :
  fetch url = Ok (code, parsed) ->
  (code <> 200 -> _scrape_external_url fetch url = VDict scraping_init) /\
  (forall pg, code = 200 -> parsed = Ok pg ->
     exists links socials,
       lookup "links" (_scrape_external_url fetch url) = Some (strs links) /\
       lookup "social_media_links" (_scrape_external_url fetch url) =
         Some (strs socials) /\
       (1 <= List.length links <= 50)%nat /\
       (forall link, In link (hrefs pg) -> is_social link = true -> In link socials) /\
       (hrefs pg <> [] -> links = firstn 50 (hrefs pg)) /\
       lookup "error" (_scrape_external_url fetch url) = None).
Proof.
  intro H. unfold _scrape_external_url. rewrite H. split.
  - intro Hc. destruct (Z.eqb_spec code 200); [contradiction | reflexivity].
  - intros pg -> ->. cbn [Z.eqb Pos.eqb]. cbv zeta.
    do 2 eexists. split; [reflexivity|]. split; [reflexivity|].
    split; [|split; [|split]].
    + destruct (or_default_length (firstn 50 (hrefs pg)) "no_links_detected") as [H1 H2].
      rewrite length_firstn in H2. lia.
    + intros link Hin Hs.
      assert (Hf : In link (filter is_social (hrefs pg)))
        by (apply filter_In; split; assumption).
      destruct (filter is_social (hrefs pg)); [destruct Hf | exact Hf].
    + intro Hne. destruct (hrefs pg) as [|l r]; [contradiction Hne; reflexivity|].
      reflexivity.
    + reflexivity.
Qed.

Lemma X18_scraped_links_witness :
  (200 <> 200 ->
   _scrape_external_url serve_sixty_links "https://example.org" = VDict scraping_init) /\
  (forall pg, 200 = 200 -> Ok sixty_links = Ok pg ->
     exists links socials,
       lookup "links" (_scrape_external_url serve_sixty_links "https://example.org") =
         Some (strs links) /\
       lookup "social_media_links"
         (_scrape_external_url serve_sixty_links "https://example.org") =
         Some (strs socials) /\
       (1 <= List.length links <= 50)%nat /\
       (forall link, In link (hrefs pg) -> is_social link = true -> In link socials) /\
       (hrefs pg <> [] -> links = firstn 50 (hrefs pg)) /\
       lookup "error" (_scrape_external_url serve_sixty_links "https://example.org") =
         None).
Proof.
  apply (X18_scraped_links serve_sixty_links "https://example.org" 200 (Ok sixty_links)).
  reflexivity.
Defined.

(** X19: the analysis of the external link always keeps the link it
    was given.  It either ends without an error, and then names at
    least one technology or the marker for none; or it stores the text
    of the exception, and then the technologies are still the empty
    list, never the marker. *)
Theorem X19_external_url_outcomes (netloc : string -> Outcome string)
    (lower : string -> string) (get : string -> Outcome response) (url : string) :
  let analysis := _analyze_external_url netloc lower get url in
  lookup "url" analysis = Some (VStr url) /\
  ((lookup "error" analysis = None /\
    exists technologies,
      technologies <> [] /\
      lookup "technologies" analysis = Some (strs technologies) /\
      (technologies = ["none_detected"] \/
       forall t, In t technologies -> In t (map fst tech_indicators)))
   \/
   (exists e,
      (netloc url = Raised e \/ get url = Raised e \/
       exists r, get url = Ok r /\ body r = Raised e) /\
      lookup "error" analysis = Some (VStr (exn_str e)) /\
      lookup "technologies" analysis = Some (VList []))).
Proof.
  cbv zeta. unfold _analyze_external_url. cbv zeta.
  destruct (netloc url) as [domain|e] eqn:En.
  2:{ split; [reflexivity|]. right. exists e. split; [left; reflexivity|].
      split; reflexivity. }
  destruct (get url) as [r|e] eqn:Eg.
  2:{ split; [reflexivity|]. right. exists e. split; [right; left; reflexivity|].
      split; reflexivity. }
  destruct (body r) as [content|e] eqn:Eb.
  2:{ split; [destruct (history r); reflexivity|]. right. exists e.
      split; [right; right; exists r; split; [reflexivity | exact Eb]|].
      split; destruct (history r); reflexivity. }
  split; [destruct (history r); reflexivity|]. left.
  split; [destruct (history r); reflexivity|].
  set (found := map fst (filter (fun '(tech, mark) => contains (lower content) mark)
                           tech_indicators)).
  exists (or_default found "none_detected").
  split; [destruct found; discriminate|].
  split; [destruct (history r); reflexivity|].
  destruct found as [|t ts] eqn:Ef; [left; reflexivity|].
  right. intros t' Hin. cbn [or_default] in Hin. rewrite <- Ef in Hin.
  unfold found in Hin. apply in_map_iff in Hin. destruct Hin as [[t0 m0] [Ht Hin]].
  apply filter_In in Hin. destruct Hin as [Hin _].
  apply in_map_iff. exists (t0, m0). split; assumption.
Qed.

(** ** The network analysis of [a.py] *)

Lemma fetch_loop_fails (r : run string) :
  (exists names e, fetch_loop 50 0 (yielded r) (finish r) [] = (names, Some e)) <->
  fails_within 50 r.
Proof.
  rewrite fetch_loop_spec, Z.sub_0_r. unfold fails_within.
  change (Z.to_nat 50) with 50%nat.
  destruct (Nat.ltb 50 (List.length (yielded r))) eqn:E.
  - apply Nat.ltb_lt in E. split.
    + intros (names & e & H). discriminate H.
    + intros [H _]. lia.
  - apply Nat.ltb_ge in E. split.
    + intros (names & e & H). split; [exact E|].
      destruct (finish r) as [|e']; [discriminate H|]. exists e'. reflexivity.
    + intros [_ [e He]]. rewrite He. eauto.
Qed.

(** X20: in [a.py] the network analysis returns its initial dictionary
    exactly when the profile cannot be fetched, the account is private,
    or one of the two listings raises within its first 50 names: the
    three cases leave the same result, with no error and no status to
    tell them apart. *)
Theorem X20_a_py_network_failures_look_alike (w : World) (name : string) (depth : Z) :
  A._analyze_network w name depth = VDict A.network_data_init <->
  (exists e, from_username w Network name = Raised e) \/
  (exists p, from_username w Network name = Ok p /\
     (is_private p = true \/
      fails_within 50 (get_followers w 0) \/
      fails_within 50 (get_followees w 0))).
Proof.
  unfold A._analyze_network.
  destruct (from_username w Network name) as [p|e].
  2:{ split; [intros _; left; exists e; reflexivity | reflexivity]. }
  destruct (is_private p) eqn:Hp; cbn [negb].
  { split; [intros _; right; exists p; split; [reflexivity | left; exact Hp]
           | reflexivity]. }
  pose proof (fetch_loop_fails (get_followers w 0)) as Hf.
  pose proof (fetch_loop_fails (get_followees w 0)) as He.
  destruct (fetch_loop 50 0 (yielded (get_followers w 0)) (finish (get_followers w 0)) [])
    as [fs [e|]].
  { split; [|reflexivity]. intros _. right. exists p. split; [reflexivity|].
    right. left. apply Hf. eauto. }
  destruct (fetch_loop 50 0 (yielded (get_followees w 0)) (finish (get_followees w 0)) [])
    as [es [e|]].
  { split; [|reflexivity]. intros _. right. exists p. split; [reflexivity|].
    right. right. apply He. eauto. }
  split.
  - intro H. discriminate H.
  - intros [[e H]|[p' [Hp' [H|[H|H]]]]].
    + discriminate H.
    + injection Hp' as <-. rewrite Hp in H. discriminate H.
    + apply Hf in H. destruct H as (n & e & H). discriminate H.
    + apply He in H. destruct H as (n & e & H). discriminate H.
Qed.

(** ** The locations *)

(** X21: the locations of the location data are the distinct names of
    the places of the posts, each once, and their number is the count
    reported beside them; when no post has a place the count is 0 and
    the list holds the marker alone. *)
Theorem X21_locations_are_the_distinct_places (posts : list Post) :
  exists (n : Z) (locations : list string),
    lookup "unique_locations" (_analyze_location_data posts) = Some (VInt n) /\
    lookup "locations" (_analyze_location_data posts) = Some (strs locations) /\
    0 <= n <= Z.of_nat (List.length posts) /\
    NoDup locations /\
    (n = 0 -> locations = ["no_locations"]) /\
    (0 < n ->
     Z.of_nat (List.length locations) = n /\
     forall place, In place locations <->
                   exists post, In post posts /\ location post = Some place).
Proof.
  unfold _analyze_location_data. cbv zeta.
  set (places := flat_map (fun post => match location post with
                                       | Some n => [n]
                                       | None => []
                                       end) posts).
  assert (Hin : forall place, In place places <->
                  exists post, In post posts /\ location post = Some place).
  { intro place. unfold places. rewrite in_flat_map. split.
    - intros [post [Hp Hl]]. exists post. split; [exact Hp|].
      destruct (location post) as [x|]; [|destruct Hl].
      destruct Hl as [<-|[]]. reflexivity.
    - intros [post [Hp Hl]]. exists post. split; [exact Hp|]. rewrite Hl.
      left. reflexivity. }
  assert (Hlen : (List.length places <= List.length posts)%nat).
  { unfold places. clear Hin places. induction posts as [|p r IH]; [cbn; lia|].
    cbn [flat_map]. rewrite length_app.
    destruct (location p); cbn [List.length]; lia. }
  assert (Hd : (List.length (distinct places) <= List.length places)%nat).
  { unfold distinct. clear. induction places as [|x r IH]; cbn [nodup List.length]; [lia|].
    destruct (in_dec string_dec x r); cbn [List.length]; lia. }
  exists (Z.of_nat (List.length (distinct places))),
         (or_default (distinct places) "no_locations").
  split; [reflexivity|]. split; [reflexivity|]. split; [lia|].
  assert (Hnd : NoDup (distinct places)) by apply NoDup_nodup.
  destruct (distinct places) as [|x r] eqn:E.
  - cbn. split; [repeat constructor; intros []|]. split; [reflexivity | lia].
  - cbn [or_default]. split; [exact Hnd|]. split; [cbn [List.length]; lia|].
    intros _. split; [reflexivity|]. intro place. rewrite <- Hin, <- E.
    unfold distinct. apply nodup_In.
Qed.
